(** * tropolib: builders for CloudFormation network and HTTP API resources

    Shallow embedding of [src/__init__.py], [src/ec2.py] and
    [src/apigatewayv2.py].

    - Python strings are ASCII strings; [lower], [upper] and [capitalize]
      act on the letters A-Z and a-z.
    - A troposphere object is a record of its resource type, title,
      properties in assignment order and [Metadata]; [Ref] and [GetAtt] name
      their target by its title, as in the rendered template.  The
      constructors build the record: troposphere's own checks of titles and
      property types are not part of this development.
    - A Python dictionary is an insertion-ordered association list.
    - A method that mutates [self] is a function from the object to an
      outcome (a value or an exception) paired with the object afterwards.
    - [alphanum] and [split_net_across_zones] come from the external library
      pawslib; the code is parameterised by them.  Exceptions of the splitter
      are kept apart from those the library raises itself. *)

From Stdlib Require Import String Ascii List Bool Arith ZArith Lia.
From Stdlib Require Import DecimalString DecimalNat.
Import ListNotations.
Open Scope string_scope.

(** ** Python string primitives *)

Module PyStr.

Definition is_upper (c : ascii) : bool :=
  let n := nat_of_ascii c in Nat.leb 65 n && Nat.leb n 90.

Definition is_lower (c : ascii) : bool :=
  let n := nat_of_ascii c in Nat.leb 97 n && Nat.leb n 122.

Definition lower_ascii (c : ascii) : ascii :=
  if is_upper c then ascii_of_nat (nat_of_ascii c + 32) else c.

Definition upper_ascii (c : ascii) : ascii :=
  if is_lower c then ascii_of_nat (nat_of_ascii c - 32) else c.

Fixpoint map_string (f : ascii -> ascii) (s : string) : string :=
  match s with
  | EmptyString => EmptyString
  | String c r => String (f c) (map_string f r)
  end.

(** [str.lower()] and [str.upper()] on ASCII text: only the letters [A-Z]
    and [a-z] are mapped.  Python's methods are Unicode-aware and give
    another result on some characters outside ASCII (the long s upper-cases
    to [S]), so these two stand for them on ASCII strings only. *)
Definition lower : string -> string := map_string lower_ascii.
Definition upper : string -> string := map_string upper_ascii.

(** [str.capitalize()]: first character upper case, the rest lower case *)
Definition capitalize (s : string) : string :=
  match s with
  | EmptyString => EmptyString
  | String c r => String (upper_ascii c) (lower r)
  end.

(** [s[-1:]]: the last character as a string, empty for the empty string *)
Fixpoint last1 (s : string) : string :=
  match s with
  | EmptyString => EmptyString
  | String c EmptyString => s
  | String _ r => last1 r
  end.

(** [s[:n]] *)
Fixpoint take (n : nat) (s : string) : string :=
  match n, s with
  | S k, String c r => String c (take k r)
  | _, _ => EmptyString
  end.

(** [needle in hay] for strings *)
Fixpoint contains (needle hay : string) : bool :=
  match hay with
  | EmptyString => prefix needle hay
  | String _ r => prefix needle hay || contains needle r
  end.

(** [x in [..]] for a list of strings *)
Definition str_in (x : string) (l : list string) : bool :=
  existsb (String.eqb x) l.

(** [str(n)] for a non-negative integer *)
Definition str_of_nat (n : nat) : string :=
  NilEmpty.string_of_uint (Nat.to_uint n).

Definition is_digit (c : ascii) : bool :=
  let n := nat_of_ascii c in Nat.leb 48 n && Nat.leb n 57.

Fixpoint all_chars (p : ascii -> bool) (s : string) : bool :=
  match s with
  | EmptyString => true
  | String c r => p c && all_chars p r
  end.

(** two lists of characters differ at a position both have *)
Fixpoint clash (l1 l2 : list ascii) : bool :=
match l1, l2 with
| x :: r1, y :: r2 => if Ascii.eqb x y then clash r1 r2 else true
| _, _ => false
end.

(** the characters of a string, last first *)
Definition rchars (s : string) : list ascii := rev (list_ascii_of_string s).

End PyStr.

(** ** Python dictionaries

    A [dict] keeps its keys in insertion order; assigning to a key that is
    already present replaces the value in place and keeps the stored key. *)

Module Dict.
Section Dict.
Context {K V : Type} (eqb : K -> K -> bool).

Definition dict : Type := list (K * V).

Fixpoint get (d : dict) (k : K) : option V :=
  match d with
  | [] => None
  | (k', v) :: r => if eqb k k' then Some v else get r k
  end.

(** [d[k] = v] *)
Fixpoint set (d : dict) (k : K) (v : V) : dict :=
  match d with
  | [] => [(k, v)]
  | (k', v') :: r =>
      if eqb k k' then (k', v) :: r else (k', v') :: set r k v
  end.

Definition mem (d : dict) (k : K) : bool :=
  match get d k with Some _ => true | None => false end.

End Dict.
End Dict.

(** [enumerate(l, start)] *)
Fixpoint enumerate {A : Type} (start : nat) (l : list A) : list (nat * A) :=
  match l with
  | [] => []
  | x :: r => (start, x) :: enumerate (S start) r
  end.

(** Dictionaries keyed by strings *)
Definition sdict (V : Type) : Type := list (string * V).
Definition sget {V} (d : sdict V) (k : string) : option V :=
  Dict.get String.eqb d k.
Definition sset {V} (d : sdict V) (k : string) (v : V) : sdict V :=
  Dict.set String.eqb d k v.

(** ** troposphere objects *)

Module Tropo.

(** Scalar property values.  [Ref(obj)] renders as a reference to
    [obj.title] and [GetAtt(obj, a)] as a pair of [obj.title] and [a]. *)
Inductive Atom : Type :=
| AStr (s : string)
| AInt (z : Z)
| ABool (b : bool)
| ARef (target : string)
| AGetAtt (target attr : string).

Inductive Value : Type :=
| VAtom (a : Atom)
| VJoin (sep : string) (args : list Atom)
| VList (items : list Atom)
| VTags (tags : list (string * string))
| VProps (fields : list (string * Atom)).

(** The [Metadata] dictionaries of this library always carry the keys
    ["az"], ["az_index"] and ["suffix"]. *)
Record Meta : Type := mkMeta {
  az : string;
  az_index : string;
  suffix : nat
}.

Record Resource : Type := mkResource {
  rtype : string;                      (* resource["Type"] *)
  title : string;
  props : sdict Value;
  Metadata : option Meta
}.

Definition Ref (r : Resource) : Atom := ARef (title r).
Definition GetAtt (r : Resource) (attr : string) : Atom :=
  AGetAtt (title r) attr.

(** the pseudo parameters [Region] and [AccountId] *)
Definition Region : Atom := ARef "AWS::Region".
Definition AccountId : Atom := ARef "AWS::AccountId".

(** [cls(title=..., **props)] *)
Definition new (rtype title : string) (props : sdict Value) : Resource :=
  mkResource rtype title props None.

(** [obj.Prop = value] *)
Definition set_prop (r : Resource) (k : string) (v : Value) : Resource :=
  mkResource (rtype r) (title r) (sset (props r) k v) (Metadata r).

(** [obj.Prop = value] when [value is not None] *)
Definition set_opt (r : Resource) (k : string) (v : option string)
  : Resource :=
  match v with
  | Some s => set_prop r k (VAtom (AStr s))
  | None => r
  end.

(** [obj.Metadata = m] *)
Definition set_Metadata (r : Resource) (m : Meta) : Resource :=
  mkResource (rtype r) (title r) (props r) (Some m).

Definition prop (r : Resource) (k : string) : option Value :=
  sget (props r) k.

Definition name_tag (v : string) : Value := VTags [("Name", v)].

Definition Atom_eq_dec (a b : Atom) : {a = b} + {a <> b}.
Proof.
  decide equality;
    auto using string_dec, Z.eq_dec, Bool.bool_dec.
Defined.

Definition pair_eq_dec {A B : Type}
    (da : forall x y : A, {x = y} + {x <> y})
    (db : forall x y : B, {x = y} + {x <> y})
    (p q : A * B) : {p = q} + {p <> q}.
Proof. decide equality. Defined.

Definition Value_eq_dec (a b : Value) : {a = b} + {a <> b}.
Proof.
  decide equality;
    auto using string_dec, Atom_eq_dec, list_eq_dec, pair_eq_dec.
Defined.

Definition Meta_eq_dec (a b : Meta) : {a = b} + {a <> b}.
Proof.
  decide equality; auto using string_dec, Nat.eq_dec.
Defined.

Definition Resource_eq_dec (a b : Resource) : {a = b} + {a <> b}.
Proof.
  decide equality.
  - decide equality; auto using Meta_eq_dec.
  - apply list_eq_dec, pair_eq_dec; auto using string_dec, Value_eq_dec.
  - apply string_dec.
  - apply string_dec.
Defined.

(** [a == b] on troposphere objects compares title and rendered content *)
Definition Resource_eqb (a b : Resource) : bool :=
  if Resource_eq_dec a b then true else false.

End Tropo.

(** ** Exceptions and outcomes *)

(** An exception raised inside an external callee and propagated unchanged *)
Record ExtExc : Type := mkExtExc { exc_class : string; exc_msg : string }.

Inductive exn : Type :=
| ValueError (msg : string)
| NotImplementedError (msg : string)
| AttributeError (msg : string)
| CalleeError (e : ExtExc).

Inductive result (A : Type) : Type :=
| Ok (a : A)
| Raise (e : exn).
Arguments Ok {A} a.
Arguments Raise {A} e.

(** A method of an object of type [S]: the outcome and the object afterwards *)
Definition M (S A : Type) : Type := S -> result A * S.

Definition ret {S A} (a : A) : M S A := fun s => (Ok a, s).
Definition raise {S A} (e : exn) : M S A := fun s => (Raise e, s).
Definition bind {S A B} (m : M S A) (k : A -> M S B) : M S B :=
  fun s => match m s with
           | (Ok a, s') => k a s'
           | (Raise e, s') => (Raise e, s')
           end.
Definition modify {S} (f : S -> S) : M S unit := fun s => (Ok tt, f s).
Definition lift {S A} (r : result A) : M S A := fun s => (r, s).
Definition get_self {S} : M S S := fun s => (Ok s, s).

Notation "x <- m ;; k" := (bind m (fun x => k))
  (at level 61, m at next level, right associativity).
Notation "m ;;; k" := (bind m (fun _ => k))
  (at level 61, right associativity).

(** [for x in l: body(x)], stopping at the first exception *)
Fixpoint for_each {S X} (l : list X) (body : X -> M S unit) : M S unit :=
  match l with
  | [] => ret tt
  | x :: r => body x ;;; for_each r body
  end.

Import Tropo.

(** ** The external CIDR splitter (pawslib) *)

Module Pawslib.

(** One element of the list returned by the splitter:
    [{"az": ..., "cidr": ...}] *)
Record Segment : Type := mkSegment { az : string; cidr : string }.

(** An IPv4 block: network address and prefix length *)
Record Cidr : Type := mkCidr { addr : Z; prefixlen : Z }.

Definition block_size (c : Cidr) : Z := 2 ^ (32 - prefixlen c).

Definition well_formed (c : Cidr) : Prop :=
  (0 <= prefixlen c <= 32)%Z /\
  (0 <= addr c)%Z /\ (addr c + block_size c <= 2 ^ 32)%Z /\
  (addr c mod block_size c = 0)%Z.

Record Block : Type := mkBlock { zone : string; net : Cidr }.

Definition is_power_of_two (n : Z) : bool :=
  (0 <? n)%Z && (n =? 2 ^ Z.log2 n)%Z.

(** the [i]-th of [n] equal parts of [base] *)
Definition sub_block (base : Cidr) (n : Z) (i : nat) : Cidr :=
  let p := (prefixlen base + Z.log2 n)%Z in
  mkCidr (addr base + Z.of_nat i * 2 ^ (32 - p))%Z p.

(** Modelled from the spec: the splitter [split_net_across_zones] of the
    external library, which is not part of this repository.  Given a base
    block, the availability zones of the region and a subnet count that is
    a power of two, it fails if the count exceeds the address space or the
    number of zones, and otherwise cuts the block into that many equal
    sub-blocks, the [i]-th placed in zone [i mod N]. *)
Definition split_net_across_zones
    (base : Cidr) (zones : list string) (no_of_subnets : Z)
  : ExtExc + list Block :=
  if (block_size base <? no_of_subnets)%Z then
    inl (mkExtExc "ValueError" "more subnets than addresses")
  else if (Z.of_nat (length zones) <? no_of_subnets)%Z then
    inl (mkExtExc "ValueError" "more subnets than availability zones")
  else
    inr (map (fun i =>
                mkBlock (nth (i mod length zones) zones EmptyString)
                        (sub_block base no_of_subnets i))
             (seq 0 (Z.to_nat no_of_subnets))).

(** the addresses of a block: [addr <= a < addr + size] *)
Definition covers (c : Cidr) (a : Z) : Prop :=
  (addr c <= a < addr c + block_size c)%Z.

End Pawslib.

(** ** [src/ec2.py] *)

Module Ec2.

Section External.

(** [pawslib.var.alphanum] and [pawslib.ec2.split_net_across_zones] are
    imported from an external library. *)
Variable alphanum : string -> string.
Variable split_net_across_zones :
  string -> string -> Z -> ExtExc + list Pawslib.Segment.

Definition Subnet (title az cidr : string) (vpc_id : Atom)
    (name : string) : Resource :=
  new "AWS::EC2::Subnet" title
    [("AvailabilityZone", VAtom (AStr az));
     ("CidrBlock", VAtom (AStr cidr));
     ("VpcId", VAtom vpc_id);
     ("Tags", name_tag name)].

Definition SubnetNetworkAclAssociation (title : string)
    (subnet_id network_acl_id : Atom) : Resource :=
  new "AWS::EC2::SubnetNetworkAclAssociation" title
    [("SubnetId", VAtom subnet_id);
     ("NetworkAclId", VAtom network_acl_id)].

Definition SubnetRouteTableAssociation (title : string)
    (subnet_id route_table_id : Atom) : Resource :=
  new "AWS::EC2::SubnetRouteTableAssociation" title
    [("SubnetId", VAtom subnet_id);
     ("RouteTableId", VAtom route_table_id)].

(** [x_id = Ref(x)] when [x_id is None and x is not None] *)
Definition default_id (id : option Atom) (res : option Resource)
  : option Atom :=
  match id, res with
  | None, Some r => Some (Ref r)
  | _, _ => id
  end.

(** The subnet built for [net_segment] at position [index], with its
    [Metadata] set. *)
Definition make_subnet (prefix name_prefix : string) (vpc_id : Atom)
    (index : nat) (net_segment : Pawslib.Segment) : Resource :=
  let az_index := PyStr.upper (PyStr.last1 (Pawslib.az net_segment)) in
  let subnet :=
    Subnet (prefix ++ PyStr.str_of_nat (index + 1))
           (Pawslib.az net_segment) (Pawslib.cidr net_segment) vpc_id
           (name_prefix ++ " " ++ az_index) in
  set_Metadata subnet
    (mkMeta (PyStr.lower (Pawslib.az net_segment)) az_index (index + 1)).

(** The body of the loop over [enumerate(net_split)].  The loop carries
    [network_acl_id], [route_table_id] and the list [resources]. *)
Fixpoint multiaz_loop (prefix name_prefix : string) (vpc_id : Atom)
    (network_acl route_table : option Resource)
    (index : nat) (net_split : list Pawslib.Segment)
    (network_acl_id route_table_id : option Atom)
    (resources : list Resource) : list Resource :=
  match net_split with
  | [] => resources
  | net_segment :: rest =>
      let subnet :=
        make_subnet prefix name_prefix vpc_id index net_segment in
      let resources := (resources ++ [subnet])%list in
      let network_acl_id := default_id network_acl_id network_acl in
      let resources :=
        match network_acl_id with
        | Some id =>
            (resources ++
             [SubnetNetworkAclAssociation
                (title subnet ++ "NaclAssociation") (Ref subnet) id])%list
        | None => resources
        end in
      let route_table_id := default_id route_table_id route_table in
      let resources :=
        match route_table_id with
        | Some id =>
            (resources ++
             [SubnetRouteTableAssociation
                (title subnet ++ "RouteAssociation") (Ref subnet) id])%list
        | None => resources
        end in
      multiaz_loop prefix name_prefix vpc_id network_acl route_table
        (S index) rest network_acl_id route_table_id resources
  end.

(** The check on [vpc] and [vpc_id], followed by
    [if vpc_id is None: vpc_id = Ref(vpc)] *)
Definition resolve_vpc_id (vpc : option Resource)
    (vpc_id : option string) : result Atom :=
  match vpc, vpc_id with
  | None, None =>
      Raise (ValueError "One of vpc or vpc_id must be specified")
  | _, Some id => Ok (AStr id)
  | Some v, None => Ok (Ref v)
  end.

Definition multiaz_subnets (name_prefix cidr_block region : string)
    (vpc : option Resource) (vpc_id : option string)
    (no_of_subnets : Z)
    (network_acl : option Resource) (network_acl_id : option string)
    (route_table : option Resource) (route_table_id : option string)
  : result (list Resource) :=
  match resolve_vpc_id vpc vpc_id with
  | Raise e => Raise e
  | Ok vpc_id =>
      let prefix := PyStr.capitalize (PyStr.lower (alphanum name_prefix)) in
      match split_net_across_zones cidr_block region no_of_subnets with
      | inl e => Raise (CalleeError e)
      | inr net_split =>
          Ok (multiaz_loop prefix name_prefix vpc_id
                network_acl route_table 0 net_split
                (option_map AStr network_acl_id)
                (option_map AStr route_table_id) [])
      end
  end.

(** The keys under which the subnet-group methods store resources in
[self._r], by the kind of resource and the subnet's number (for the NAT
route, the zone letter). *)
Inductive RKey : Type :=
| KSubnet (n : nat)
| KNaclAssociation (n : nat)
| KRouteAssociation (n : nat)
| KEip (n : nat)
| KNatGw (n : nat)
| KPrivRouteTable (n : nat)
| KNatRoute (letter : string).

Definition key_title (prefix : string) (k : RKey) : string :=
  match k with
  | KSubnet n => prefix ++ PyStr.str_of_nat n
  | KNaclAssociation n => (prefix ++ PyStr.str_of_nat n) ++ "NaclAssociation"
  | KRouteAssociation n => (prefix ++ PyStr.str_of_nat n) ++ "RouteAssociation"
  | KEip n => "EipNatGw" ++ PyStr.str_of_nat n
  | KNatGw n => "NatGw" ++ PyStr.str_of_nat n
  | KPrivRouteTable n => "PrivRouteTable" ++ PyStr.str_of_nat n
  | KNatRoute letter => "NatRoute" ++ letter
  end.

(** *** class [VpcTemplate] *)

Record Output : Type := mkOutput {
  o_title : string;
  o_value : Atom;
  o_export : string                  (* Export(Sub(template)) *)
}.

Record VpcTemplate : Type := mkVpcTemplate {
  name : string;
  region : string;
  cidr_block : string;
  internal_networks : list string;
  internet_access_enabled : bool;
  nat_gateways : list Resource;
  natted_route_tables : list Resource;
  _r : sdict Resource;
  _o : sdict Output;
  vpc : Resource;
  public_route_table : Resource;
  public_nacl : Resource;
  internal_nacl : Resource
}.

Definition with_r (self : VpcTemplate) (r : sdict Resource) : VpcTemplate :=
  mkVpcTemplate (name self) (region self) (cidr_block self)
    (internal_networks self) (internet_access_enabled self)
    (nat_gateways self) (natted_route_tables self) r (_o self)
    (vpc self) (public_route_table self) (public_nacl self)
    (internal_nacl self).

Definition with_nat_gateways (self : VpcTemplate) (l : list Resource)
  : VpcTemplate :=
  mkVpcTemplate (name self) (region self) (cidr_block self)
    (internal_networks self) (internet_access_enabled self)
    l (natted_route_tables self) (_r self) (_o self)
    (vpc self) (public_route_table self) (public_nacl self)
    (internal_nacl self).

Definition with_natted_route_tables (self : VpcTemplate)
    (l : list Resource) : VpcTemplate :=
  mkVpcTemplate (name self) (region self) (cidr_block self)
    (internal_networks self) (internet_access_enabled self)
    (nat_gateways self) l (_r self) (_o self)
    (vpc self) (public_route_table self) (public_nacl self)
    (internal_nacl self).

(** [self._r[k] = v] *)
Definition set_r (k : string) (v : Resource) : M VpcTemplate unit :=
  modify (fun self => with_r self (sset (_r self) k v)).

(** [obj.Metadata], an [AttributeError] when it was never set *)
Definition metadata_of (res : Resource) : result Meta :=
  match Metadata res with
  | Some m => Ok m
  | None => Raise (AttributeError "Metadata")
  end.

Definition NetworkAclEntry (title : string) (nacl : Resource)
    (egress : bool) (rule_number : Z) (cidr : Atom) (protocol : Z)
    (extra : sdict Value) : Resource :=
  new "AWS::EC2::NetworkAclEntry" title
    ([("NetworkAclId", VAtom (Ref nacl));
      ("Egress", VAtom (ABool egress));
      ("RuleNumber", VAtom (AInt rule_number));
      ("CidrBlock", VAtom cidr);
      ("Protocol", VAtom (AInt protocol))]
     ++ extra ++ [("RuleAction", VAtom (AStr "allow"))])%list.

Definition ICMP (code type : Z) : sdict Value :=
  [("Icmp", VProps [("Code", AInt code); ("Type", AInt type)])].

Definition PortRange (from to : Z) : sdict Value :=
  [("PortRange", VProps [("From", AInt from); ("To", AInt to)])].

(** the entries written by
    [for index, cidr_block in enumerate(self.internal_networks)] *)
Fixpoint internal_entries (key_prefix title_prefix : string)
    (nacl : Resource) (index : nat) (nets : list string)
  : list (string * Resource) :=
  match nets with
  | [] => []
  | cidr_block :: rest =>
      (key_prefix ++ PyStr.str_of_nat index,
       NetworkAclEntry (title_prefix ++ PyStr.str_of_nat index) nacl
         false (101 + Z.of_nat index) (AStr cidr_block) (-1) [])
      :: internal_entries key_prefix title_prefix nacl (S index) rest
  end.

(** a run of assignments [d[k] = v] in program order *)
Definition assign_all {V} (d : sdict V) (kvs : list (string * V))
  : sdict V :=
  fold_left (fun d kv => sset d (fst kv) (snd kv)) kvs d.

(** [VpcTemplate.__init__] *)
Definition init (region cidr_block name : string)
    (internet_access_enabled : bool) (internal_networks : list string)
  : VpcTemplate :=
  let any := AStr "0.0.0.0/0" in
  let vpc :=
    new "AWS::EC2::VPC" (name ++ "Vpc")
      [("CidrBlock", VAtom (AStr cidr_block));
       ("EnableDnsHostnames", VAtom (ABool true));
       ("EnableDnsSupport", VAtom (ABool true));
       ("Tags", name_tag name)] in
  let igw :=
    new "AWS::EC2::InternetGateway" "Igw"
      [("Tags", name_tag (name ++ "-igw"))] in
  let pub_rt :=
    new "AWS::EC2::RouteTable" "PubRouteTable"
      [("VpcId", VAtom (Ref vpc)); ("Tags", name_tag "Public")] in
  let pub_nacl :=
    new "AWS::EC2::NetworkAcl" "PubNacl"
      [("VpcId", VAtom (Ref vpc)); ("Tags", name_tag "Public")] in
  let int_nacl :=
    new "AWS::EC2::NetworkAcl" "InternalNacl"
      [("VpcId", VAtom (Ref vpc)); ("Tags", name_tag "Private")] in
  let r :=
    assign_all []
      ([("Vpc", vpc)]
       ++ (if internet_access_enabled then
             [("Igw", igw);
              ("igw_attachment",
               new "AWS::EC2::VPCGatewayAttachment" "IgwAttachment"
                 [("VpcId", VAtom (Ref vpc));
                  ("InternetGatewayId", VAtom (Ref igw))])]
           else [])
       ++ [("PubRouteTable", pub_rt)]
       ++ (if internet_access_enabled then
             [("pub_rtt_rt_pub",
               new "AWS::EC2::Route" "PubRoute"
                 [("RouteTableId", VAtom (Ref pub_rt));
                  ("DestinationCidrBlock", VAtom any);
                  ("GatewayId", VAtom (Ref igw))])]
           else [])
       ++ [("PubNacl", pub_nacl);
           ("pub_nacl_out_all",
            NetworkAclEntry "PubNaclOutAll" pub_nacl true 500 any (-1) []);
           ("pub_nacl_in_icmp",
            NetworkAclEntry "PubNaclInIcmp" pub_nacl false 99 any 1
              (ICMP (-1) (-1)));
           ("pub_nacl_in_vpc",
            NetworkAclEntry "PubNaclInVpc" pub_nacl false 100
              (GetAtt vpc "CidrBlock") (-1) [])]
       ++ internal_entries "pub_nacl_in_internal_" "PubNaclInInternal"
            pub_nacl 0 internal_networks
       ++ [("pub_nacl_in_ssh",
            NetworkAclEntry "PubNaclInSsh" pub_nacl false 210 any 6
              (PortRange 22 22));
           ("pub_nacl_in_http",
            NetworkAclEntry "PubNaclInHttp" pub_nacl false 220 any 6
              (PortRange 80 80));
           ("pub_nacl_in_https",
            NetworkAclEntry "PubNaclInHttps" pub_nacl false 221 any 6
              (PortRange 443 443));
           ("pub_nacl_in_nat_tcp",
            NetworkAclEntry "PubNaclInNatTcp" pub_nacl false 500 any 6
              (PortRange 1024 65535));
           ("pub_nacl_in_nat_udp",
            NetworkAclEntry "PubNaclInNatUdp" pub_nacl false 501 any 17
              (PortRange 1024 65535));
           ("InternalNacl", int_nacl);
           ("internal_nacl_out_all",
            NetworkAclEntry "InternalNaclOutAll" int_nacl true 500 any
              (-1) []);
           ("internal_nacl_in_icmp",
            NetworkAclEntry "InternalNaclInIcmp" int_nacl false 99 any 1
              (ICMP (-1) (-1)));
           ("internal_nacl_in_vpc",
            NetworkAclEntry "InternalNaclInVpc" int_nacl false 100
              (GetAtt vpc "CidrBlock") (-1) [])]
       ++ internal_entries "internal_nacl_in_internal_"
            "InternalNaclInInternal" int_nacl 0 internal_networks
       ++ [("internal_nacl_in_nat_tcp",
            NetworkAclEntry "InternalNaclInNatTcp" int_nacl false 500 any
              6 (PortRange 1024 65535));
           ("internal_nacl_in_nat_udp",
            NetworkAclEntry "InternalNaclInNatUdp" int_nacl false 501 any
              17 (PortRange 1024 65535))])%list in
  mkVpcTemplate name region cidr_block internal_networks
    internet_access_enabled [] [] r
    [("VpcId", mkOutput "VpcId" (Ref vpc) "${AWS::StackName}-vpc-id")]
    vpc pub_rt pub_nacl int_nacl.

(** The objects built for one subnet of [add_public_subnet_group], from the
subnet and its [Metadata] [m]. *)
Definition nat_eip (m : Meta) : Resource :=
  new "AWS::EC2::EIP" ("EipNatGw" ++ PyStr.str_of_nat (suffix m))
    [("Domain", VAtom (AStr "vpc"))].

Definition nat_gateway (subnet : Resource) (m : Meta) : Resource :=
  set_Metadata
    (new "AWS::EC2::NatGateway" ("NatGw" ++ PyStr.str_of_nat (suffix m))
       [("AllocationId", VAtom (GetAtt (nat_eip m) "AllocationId"));
        ("SubnetId", VAtom (Ref subnet));
        ("Tags", name_tag ("Nat Gw " ++ az_index m))])
    m.

Definition private_route_table (vpc : Resource) (m : Meta) : Resource :=
  set_Metadata
    (new "AWS::EC2::RouteTable"
       ("PrivRouteTable" ++ PyStr.str_of_nat (suffix m))
       [("VpcId", VAtom (Ref vpc));
        ("Tags", name_tag ("Private " ++ az_index m))])
    m.

Definition nat_route (route_table nat_gw : Resource) (m : Meta) : Resource :=
  new "AWS::EC2::Route" ("NatRoute" ++ PyStr.upper (az_index m))
    [("RouteTableId", VAtom (Ref route_table));
     ("DestinationCidrBlock", VAtom (AStr "0.0.0.0/0"));
     ("NatGatewayId", VAtom (Ref nat_gw))].

(** the body of the loop of [add_public_subnet_group] *)
Definition public_subnet_step (create_nat_gateways : bool)
    (res : Resource) : M VpcTemplate unit :=
  set_r (title res) res ;;;
  if create_nat_gateways && (rtype res =? "AWS::EC2::Subnet") then
    let subnet := res in
    m <- lift (metadata_of subnet) ;;
    let eip := nat_eip m in
    set_r (title eip) eip ;;;
    let nat_gw := nat_gateway subnet m in
    set_r (title nat_gw) nat_gw ;;;
    modify (fun self =>
              with_nat_gateways self (nat_gateways self ++ [nat_gw])%list) ;;;
    self <- get_self ;;
    let route_table := private_route_table (vpc self) m in
    modify (fun self =>
              with_natted_route_tables self
                (natted_route_tables self ++ [route_table])%list) ;;;
    set_r (title route_table) route_table ;;;
    let route := nat_route route_table nat_gw m in
    set_r (title route) route
  else ret tt.

Definition add_public_subnet_group (name_prefix cidr_block : string)
    (no_of_subnets : Z) (create_nat_gateways : bool)
  : M VpcTemplate unit :=
  self <- get_self ;;
  resources <-
    lift (multiaz_subnets name_prefix cidr_block (region self)
            (Some (vpc self)) None no_of_subnets
            (Some (public_nacl self)) None
            (Some (public_route_table self)) None) ;;
  for_each resources (public_subnet_step create_nat_gateways).

(** the inner loop of [add_natted_subnet_group]: the first natted route
    table in the subnet's availability zone, if any *)
Fixpoint find_route_table (subnet : Resource) (tables : list Resource)
  : result (option Resource) :=
  match tables with
  | [] => Ok None
  | route_table :: rest =>
      match metadata_of route_table with
      | Raise e => Raise e
      | Ok mt =>
          match metadata_of subnet with
          | Raise e => Raise e
          | Ok ms =>
              if (az mt =? az ms)%string then Ok (Some route_table)
              else find_route_table subnet rest
          end
      end
  end.

(** the body of the outer loop of [add_natted_subnet_group] *)
Definition natted_subnet_step (res : Resource) : M VpcTemplate unit :=
  set_r (title res) res ;;;
  if (rtype res =? "AWS::EC2::Subnet")%string then
    let subnet := res in
    self <- get_self ;;
    found <- lift (find_route_table subnet (natted_route_tables self)) ;;
    match found with
    | Some route_table =>
        set_r (title subnet ++ "RouteAssociation")
          (SubnetRouteTableAssociation
             (title subnet ++ "RouteAssociation")
             (Ref subnet) (Ref route_table))
    | None =>
        m <- lift (metadata_of subnet) ;;
        raise (NotImplementedError ("Can't find NAT gateway in " ++ az m))
    end
  else ret tt.

(** [no_of_subnets] is accepted but not passed on: the splitter is
    called with the default of [multiaz_subnets], 4. *)
Definition add_natted_subnet_group (cidr_block name_prefix : string)
    (no_of_subnets : Z) : M VpcTemplate unit :=
  self <- get_self ;;
  resources <-
    lift (multiaz_subnets name_prefix cidr_block (region self)
            (Some (vpc self)) None 4
            (Some (internal_nacl self)) None None None) ;;
  for_each resources natted_subnet_step.

Definition add_subnet_group (name_prefix cidr_block : string)
    (vpc_arg : option Resource) (no_of_subnets : Z)
    (network_acl route_table : option Resource) : M VpcTemplate unit :=
  self <- get_self ;;
  resources <-
    lift (multiaz_subnets name_prefix cidr_block (region self)
            (Some (vpc self)) None 4 network_acl None route_table None) ;;
  for_each resources (fun res => set_r (title res) res).

(** the routes [peer_with_another_vpc] adds for one table and each CIDR *)
Definition peer_route (route_table peering : Resource) (cidr : string)
  : string * Resource :=
  let route_title := title route_table ++ "Peer" ++ alphanum cidr ++ "Route" in
  (route_title,
   new "AWS::EC2::Route" route_title
     [("RouteTableId", VAtom (Ref route_table));
      ("DestinationCidrBlock", VAtom (AStr cidr));
      ("VpcPeeringConnectionId", VAtom (Ref peering))]).

Definition peer_with_another_vpc (peer_vpc_id peer_vpc_name : string)
    (peer_role_arn peer_owner_id peer_region : option string)
    (peer_cidrs : list string)
    (add_route_to_private_tables add_route_to_public_table : bool)
  : M VpcTemplate unit :=
  self <- get_self ;;
  let res :=
    new "AWS::EC2::VPCPeeringConnection"
      (alphanum ("Peer" ++ PyStr.capitalize peer_vpc_name ++ "With"
                 ++ PyStr.capitalize (name self)))
      [("VpcId", VAtom (Ref (vpc self)));
       ("PeerVpcId", VAtom (AStr peer_vpc_id));
       ("Tags", name_tag (peer_vpc_name ++ " - " ++ name self))] in
  let res := set_opt res "PeerRegion" peer_region in
  let res := set_opt res "PeerOwnerId" peer_owner_id in
  let res := set_opt res "PeerRoleArn" peer_role_arn in
  set_r (title res) res ;;;
  (if add_route_to_private_tables then
     for_each peer_cidrs (fun cidr =>
       self <- get_self ;;
       for_each (natted_route_tables self) (fun route_table =>
         let kv := peer_route route_table res cidr in
         set_r (fst kv) (snd kv)))
   else ret tt) ;;;
  if add_route_to_public_table then
    for_each peer_cidrs (fun cidr =>
      self <- get_self ;;
      let kv := peer_route (public_route_table self) res cidr in
      set_r (fst kv) (snd kv))
  else ret tt.

(** [set_s3_endpoint] builds the endpoint and stores it nowhere *)
Definition set_s3_endpoint : M VpcTemplate unit :=
  self <- get_self ;;
  let _ :=
    new "AWS::EC2::VPCEndpoint" (alphanum (name self ++ "S3EndpointGateway"))
      [("VpcId", VAtom (Ref (vpc self)));
       ("ServiceName",
        VAtom (AStr ("com.amazonaws." ++ region self ++ ".s3")));
       ("RouteTableIds", VList (map Ref (natted_route_tables self)))] in
  ret tt.

(** the templates obtained from [__init__] by calls of these methods *)
Inductive reachable : VpcTemplate -> Prop :=
| reach_init region cidr_block name internet_access_enabled
    internal_networks :
    reachable
      (init region cidr_block name internet_access_enabled internal_networks)
| reach_public self name_prefix cidr_block no_of_subnets
    create_nat_gateways :
    reachable self ->
    reachable
      (snd (add_public_subnet_group name_prefix cidr_block no_of_subnets
              create_nat_gateways self))
| reach_natted self cidr_block name_prefix no_of_subnets :
    reachable self ->
    reachable
      (snd (add_natted_subnet_group cidr_block name_prefix no_of_subnets self))
| reach_group self name_prefix cidr_block vpc_arg no_of_subnets network_acl
    route_table :
    reachable self ->
    reachable
      (snd (add_subnet_group name_prefix cidr_block vpc_arg no_of_subnets
              network_acl route_table self))
| reach_peer self peer_vpc_id peer_vpc_name peer_role_arn peer_owner_id
    peer_region peer_cidrs private public :
    reachable self ->
    reachable
      (snd (peer_with_another_vpc peer_vpc_id peer_vpc_name peer_role_arn
              peer_owner_id peer_region peer_cidrs private public self))
| reach_s3 self :
    reachable self -> reachable (snd (set_s3_endpoint self)).

End External.

End Ec2.

(** ** [src/__init__.py] *)

Module Tropolib.

Section External.

Variable alphanum : string -> string.
Variable split_net_across_zones :
  string -> string -> Z -> ExtExc + list Pawslib.Segment.

(** The subnet built for [net_segment] at position [index]: the [Name] tag
    carries the index and the zone letter, and no [Metadata] is set. *)
Definition make_subnet (prefix name_prefix : string) (vpc_id : Atom)
    (index : nat) (net_segment : Pawslib.Segment) : Resource :=
  let az_index := PyStr.upper (PyStr.last1 (Pawslib.az net_segment)) in
  Ec2.Subnet (prefix ++ PyStr.str_of_nat (index + 1))
    (Pawslib.az net_segment) (Pawslib.cidr net_segment) vpc_id
    (name_prefix ++ " " ++ PyStr.str_of_nat (index + 1)
       ++ "(" ++ az_index ++ ")").

(** The loop of the package-level [multiaz_subnets]. *)
Fixpoint multiaz_loop (prefix name_prefix : string) (vpc_id : Atom)
    (network_acl route_table : option Resource)
    (index : nat) (net_split : list Pawslib.Segment)
    (network_acl_id route_table_id : option Atom)
    (resources : list Resource) : list Resource :=
  match net_split with
  | [] => resources
  | net_segment :: rest =>
      let subnet :=
        make_subnet prefix name_prefix vpc_id index net_segment in
      let resources := (resources ++ [subnet])%list in
      let network_acl_id := Ec2.default_id network_acl_id network_acl in
      let resources :=
        match network_acl_id with
        | Some id =>
            (resources ++
             [Ec2.SubnetNetworkAclAssociation
                (title subnet ++ "NaclAssociation") (Ref subnet) id])%list
        | None => resources
        end in
      let route_table_id := Ec2.default_id route_table_id route_table in
      let resources :=
        match route_table_id with
        | Some id =>
            (resources ++
             [Ec2.SubnetRouteTableAssociation
                (title subnet ++ "RouteAssociation") (Ref subnet) id])%list
        | None => resources
        end in
      multiaz_loop prefix name_prefix vpc_id network_acl route_table
        (S index) rest network_acl_id route_table_id resources
  end.

Definition multiaz_subnets (name_prefix cidr_block region : string)
    (vpc : option Resource) (vpc_id : option string)
    (no_of_subnets : Z)
    (network_acl : option Resource) (network_acl_id : option string)
    (route_table : option Resource) (route_table_id : option string)
  : result (list Resource) :=
  match Ec2.resolve_vpc_id vpc vpc_id with
  | Raise e => Raise e
  | Ok vpc_id =>
      let prefix := PyStr.capitalize (PyStr.lower (alphanum name_prefix)) in
      match split_net_across_zones cidr_block region no_of_subnets with
      | inl e => Raise (CalleeError e)
      | inr net_split =>
          Ok (multiaz_loop prefix name_prefix vpc_id
                network_acl route_table 0 net_split
                (option_map AStr network_acl_id)
                (option_map AStr route_table_id) [])
      end
  end.

End External.

End Tropolib.

(** ** [src/apigatewayv2.py] *)

Module ApiGatewayV2.

(** the double quote character *)
Definition dq : string := String (ascii_of_nat 34) EmptyString.

(** [json.dumps] of a flat dictionary of strings *)
Definition json_dumps (d : list (string * string)) : string :=
  "{" ++ String.concat ", "
           (map (fun kv => dq ++ fst kv ++ dq ++ ": " ++ dq ++ snd kv ++ dq)
                d)
      ++ "}".

(** A key of [HttpApi.resources]: a title string or a resource object *)
Inductive Key : Type :=
| KStr (s : string)
| KObj (r : Resource).

Definition key_eqb (a b : Key) : bool :=
  match a, b with
  | KStr x, KStr y => String.eqb x y
  | KObj x, KObj y => Resource_eqb x y
  | _, _ => false
  end.

Record AccessLogSettings : Type := mkAccessLogSettings {
  DestinationArn : Value;
  Format : option string
}.

Record HttpApi : Type := mkHttpApi {
  name : string;
  clean_name : string;
  description : option string;
  resources : list (Key * Resource);
  t_api : Resource
}.

Definition with_resources (self : HttpApi) (r : list (Key * Resource))
  : HttpApi :=
  mkHttpApi (name self) (clean_name self) (description self) r (t_api self).

Definition log_formats : list string := ["none"; "clf"; "json"; "xml"; "csv"].

Definition http_methods : list string :=
  ["ANY"; "GET"; "POST"; "PUT"; "PATCH"; "HEAD"; "DELETE"; "OPTIONS"].

Definition clf_format : string :=
  "$context.identity.sourceIp - - [$context.requestTime] " ++ dq
  ++ "$context.httpMethod $context.routeKey $context.protocol" ++ dq
  ++ " $context.status $context.responseLength $context.requestId".

Definition json_format : string :=
  json_dumps
    [("requestId", "$context.requestId");
     ("ip", "$context.identity.sourceIp");
     ("requestTime", "$context.requestTime");
     ("httpMethod", "$context.httpMethod");
     ("routeKey", "$context.routeKey");
     ("status", "$context.status");
     ("protocol", "$context.protocol");
     ("responseLength", "$context.responseLength")].

Definition xml_format : string :=
  "<request id=" ++ dq ++ "$context.requestId" ++ dq
  ++ "> <ip>$context.identity.sourceIp</ip> <requestTime>$context.requestTime</requestTime> <httpMethod>$context.httpMethod</httpMethod> <routeKey>$context.routeKey</routeKey> <status>$context.status</status> <protocol>$context.protocol</protocol> <responseLength>$context.responseLength</responseLength> </request>".

Definition csv_format : string :=
  "$context.identity.sourceIp,$context.requestTime,$context.httpMethod,$context.routeKey,$context.protocol,$context.status,$context.responseLength,$context.requestId".

Section HttpApi.

Variable alphanum : string -> string.

(** [HttpApi.__init__] *)
Definition init (name : string) (description : option string) : HttpApi :=
  let clean_name := alphanum name in
  let t_api :=
    new "AWS::ApiGatewayV2::Api" (clean_name ++ "HTTPApi")
      [("ProtocolType", VAtom (AStr "HTTP")); ("Name", VAtom (AStr name))] in
  let t_api := set_opt t_api "Description" description in
  mkHttpApi name clean_name description
    (Dict.set key_eqb [] (KStr (title t_api)) t_api) t_api.

(** the check at the head of [add_stage] *)
Definition log_format_ok (log_format : string) : bool :=
  if PyStr.str_in (PyStr.lower log_format) log_formats then true
  else if PyStr.contains "$context.requestId" log_format then true
  else false.

(** The objects [add_stage] builds after the check: the stage, with
    [AutoDeploy] set, and the access-log settings when logging is on. *)
Definition stage_objects (self : HttpApi) (name : string)
    (auto_deploy : bool) (log_format : string)
  : Resource * option AccessLogSettings :=
  let api_stage :=
    new "AWS::ApiGatewayV2::Stage" (alphanum name ++ "Stage")
      [("ApiId", VAtom (Ref (t_api self)));
       ("StageName", VAtom (AStr name))] in
  let api_stage_log :=
    if negb (PyStr.lower log_format =? "none")%string then
      let arn :=
        VJoin ":" [AStr "arn"; AStr "aws"; AStr "logs"; Region; AccountId;
                   AStr (clean_name self ++ "HttpApi");
                   AStr (alphanum name)] in
      let l := PyStr.lower log_format in
      Some (mkAccessLogSettings arn
              (if (l =? "clf")%string then Some clf_format
               else if (l =? "json")%string then Some json_format
               else if (l =? "xml")%string then Some xml_format
               else if (l =? "csv")%string then Some csv_format
               else None))
    else None in
  (set_prop api_stage "AutoDeploy" (VAtom (ABool auto_deploy)),
   api_stage_log).

(** [HttpApi.add_stage]: the objects are built and dropped *)
Definition add_stage (name : string) (auto_deploy : bool)
    (log_format : string) : M HttpApi unit :=
  if log_format_ok log_format then
    self <- get_self ;;
    let _ := stage_objects self name auto_deploy log_format in
    ret tt
  else raise (ValueError (log_format ++ " is not a valid log format")).

Definition integration (self : HttpApi) (path target http_method : string)
    (timeout : Z) (description : option string) : Resource :=
  let api_integration :=
    new "AWS::ApiGatewayV2::Integration" (alphanum path ++ "Integration")
      [("ApiId", VAtom (Ref (t_api self)))] in
  let api_integration := set_opt api_integration "Description" description in
  let api_integration :=
    set_prop api_integration "IntegrationMethod" (VAtom (AStr http_method)) in
  let api_integration :=
    set_prop api_integration "IntegrationUri" (VAtom (AStr target)) in
  let api_integration :=
    if (PyStr.take 5 (PyStr.lower target) =? "http:")%string
       || (PyStr.take 6 (PyStr.lower target) =? "https:")%string
    then
      set_prop
        (set_prop api_integration "IntegrationType"
           (VAtom (AStr "HTTP_PROXY")))
        "PayloadFormatVersion" (VAtom (AStr "1.0"))
    else
      set_prop
        (set_prop api_integration "IntegrationType"
           (VAtom (AStr "AWS_PROXY")))
        "PayloadFormatVersion" (VAtom (AStr "2.0")) in
  set_prop api_integration "TimeoutInMillis" (VAtom (AInt timeout)).

Definition route (self : HttpApi) (api_integration : Resource)
    (path http_method : string) (description : option string) : Resource :=
  let api_route :=
    new "AWS::ApiGatewayV2::Route" (alphanum path ++ "Route")
      [("ApiId", VAtom (Ref (t_api self)))] in
  let api_route := set_opt api_route "OperationName" description in
  let api_route :=
    set_prop api_route "RouteKey"
      (VAtom (AStr (http_method ++ " /" ++ path))) in
  set_prop api_route "Target"
    (VJoin "/" [AStr "integrations"; Ref api_integration]).

(** [HttpApi.add_route], with Python's built-in [str.upper] as the parameter
    [upper] *)
Definition add_route_upper (upper : string -> string)
    (path target http_method : string) (timeout : Z)
    (description : option string) : M HttpApi unit :=
  if negb (PyStr.str_in (upper http_method) http_methods) then
    raise (ValueError (http_method ++ " is not a valid HTTP METHOD"))
  else
    self <- get_self ;;
    let api_integration :=
      integration self path target http_method timeout description in
    let api_route :=
      route self api_integration path http_method description in
    modify (fun self =>
              with_resources self
                (Dict.set key_eqb (resources self)
                   (KStr (title api_integration)) api_integration)) ;;;
    modify (fun self =>
              with_resources self
                (Dict.set key_eqb (resources self)
                   (KObj api_route) api_route)).

(** [HttpApi.add_route] on ASCII method names, where [str.upper] is
    [PyStr.upper] *)
Definition add_route : string -> string -> string -> Z -> option string
                       -> M HttpApi unit :=
  add_route_upper PyStr.upper.

(** the objects obtained from [__init__] by calls of the two methods *)
Inductive reachable : HttpApi -> Prop :=
| reach_init name description : reachable (init name description)
| reach_stage self name auto_deploy log_format :
    reachable self ->
    reachable (snd (add_stage name auto_deploy log_format self))
| reach_route self path target http_method timeout description :
    reachable self ->
    reachable
      (snd (add_route path target http_method timeout description self)).

End HttpApi.

Definition stage_type : string := "AWS::ApiGatewayV2::Stage".

(** [s] ends with [suffix] *)
Definition ends_with (suffix s : string) : Prop :=
  exists x, s = x ++ suffix.

(** [needle] occurs in [hay] *)
Definition substring_of (needle hay : string) : Prop :=
  exists pre post, hay = pre ++ needle ++ post.

(** What holds of the resources of every reachable [HttpApi]: string keys
    are titles of the API or of an integration, and no stage is stored. *)
Definition resources_ok (self : HttpApi) : Prop :=
  forall k v, In (k, v) (resources self) ->
    rtype v <> stage_type /\
    match k with
    | KStr s => ends_with "HTTPApi" s \/ ends_with "Integration" s
    | KObj r => rtype r <> stage_type
    end.

End ApiGatewayV2.

(** ** Views of the results used in the statements *)

Module Views.

Definition subnet_type : string := "AWS::EC2::Subnet".
Definition nacl_association_type : string :=
  "AWS::EC2::SubnetNetworkAclAssociation".
Definition route_association_type : string :=
  "AWS::EC2::SubnetRouteTableAssociation".

Definition has_type (t : string) (r : Resource) : bool :=
  (rtype r =? t)%string.

Definition is_subnet : Resource -> bool := has_type subnet_type.

(** [r.k == v] for a property that is set *)
Definition prop_is (r : Resource) (k : string) (v : Value) : bool :=
  match prop r k with
  | Some v' => if Value_eq_dec v' v then true else false
  | None => false
  end.

(** [r] is a resource of type [t] whose [SubnetId] is [Ref(subnet)] *)
Definition attached_to (t : string) (subnet r : Resource) : bool :=
  has_type t r && prop_is r "SubnetId" (VAtom (Ref subnet)).

(** The id a caller supplies for a network ACL or a route table: the id when
    given, else a [Ref] to the resource when given. *)
Definition supplied (res : option Resource) (id : option string)
  : option Atom :=
  match id, res with
  | Some s, _ => Some (AStr s)
  | None, Some r => Some (Ref r)
  | None, None => None
  end.

(** the associations that follow a subnet in the returned list *)
Definition associations (subnet : Resource)
    (network_acl_id route_table_id : option Atom) : list Resource :=
  (match network_acl_id with
   | Some id =>
       [Ec2.SubnetNetworkAclAssociation
          (title subnet ++ "NaclAssociation") (Ref subnet) id]
   | None => []
   end
   ++
   match route_table_id with
   | Some id =>
       [Ec2.SubnetRouteTableAssociation
          (title subnet ++ "RouteAssociation") (Ref subnet) id]
   | None => []
   end)%list.

(** the resources one segment contributes: its subnet, then the associations *)
Definition segment_resources (mk : nat -> Pawslib.Segment -> Resource)
    (network_acl_id route_table_id : option Atom)
    (p : nat * Pawslib.Segment) : list Resource :=
  let subnet := mk (fst p) (snd p) in
  subnet :: associations subnet network_acl_id route_table_id.

(** the prefix of the titles: [alphanum(name_prefix).lower().capitalize()] *)
Definition title_prefix (alphanum : string -> string) (name_prefix : string)
  : string :=
  PyStr.capitalize (PyStr.lower (alphanum name_prefix)).

(** How a resource returned by [src/__init__.py] relates to the one at the
    same position returned by [src/ec2.py]. *)
Definition agree (a b : Resource) : Prop :=
  title a = title b /\ rtype a = rtype b /\
  if is_subnet a then
    prop a "AvailabilityZone" = prop b "AvailabilityZone" /\
    prop a "CidrBlock" = prop b "CidrBlock" /\
    prop a "VpcId" = prop b "VpcId" /\
    prop a "Tags" <> prop b "Tags" /\
    Metadata a = None /\ Metadata b <> None
  else a = b.

(** the zone letter of a segment: [net_segment["az"][-1:].upper()] *)
Definition zone_letter (seg : Pawslib.Segment) : string :=
  PyStr.upper (PyStr.last1 (Pawslib.az seg)).

(** ** Views of a [VpcTemplate] *)

(** the template with its three mutable attributes replaced *)
Definition update (self : Ec2.VpcTemplate) (gateways tables : list Resource)
    (r : sdict Resource) : Ec2.VpcTemplate :=
  Ec2.mkVpcTemplate (Ec2.name self) (Ec2.region self) (Ec2.cidr_block self)
    (Ec2.internal_networks self) (Ec2.internet_access_enabled self)
    gateways tables r (Ec2._o self)
    (Ec2.vpc self) (Ec2.public_route_table self) (Ec2.public_nacl self)
    (Ec2.internal_nacl self).

(** [obj.Metadata] of a resource that has one *)
Definition meta_of (r : Resource) : Meta :=
  match Metadata r with
  | Some m => m
  | None => mkMeta EmptyString EmptyString 0
  end.

Definition has_metadata (r : Resource) : Prop := Metadata r <> None.

(** The NAT resources of a subnet, as [add_public_subnet_group] builds them
    in a template whose VPC is [vpc]. *)
Definition eip_of (subnet : Resource) : Resource :=
  Ec2.nat_eip (meta_of subnet).
Definition nat_gateway_of (subnet : Resource) : Resource :=
  Ec2.nat_gateway subnet (meta_of subnet).
Definition route_table_of (vpc subnet : Resource) : Resource :=
  Ec2.private_route_table vpc (meta_of subnet).
Definition nat_route_of (vpc subnet : Resource) : Resource :=
  Ec2.nat_route (route_table_of vpc subnet) (nat_gateway_of subnet)
    (meta_of subnet).

(** does one step of [add_public_subnet_group] build NAT resources *)
Definition builds_nat (create_nat_gateways : bool) (res : Resource) : bool :=
  create_nat_gateways && is_subnet res.

(** the assignments to [self._r] of one step, in program order *)
Definition public_writes (vpc : Resource) (create_nat_gateways : bool)
    (res : Resource) : list (string * Resource) :=
  (title res, res)
  :: if builds_nat create_nat_gateways res then
       [(title (eip_of res), eip_of res);
        (title (nat_gateway_of res), nat_gateway_of res);
        (title (route_table_of vpc res), route_table_of vpc res);
        (title (nat_route_of vpc res), nat_route_of vpc res)]
     else [].

(** the NAT gateways and route tables appended by one step *)
Definition public_gateways (create_nat_gateways : bool) (res : Resource)
  : list Resource :=
  if builds_nat create_nat_gateways res then [nat_gateway_of res] else [].

Definition public_tables (vpc : Resource) (create_nat_gateways : bool)
    (res : Resource) : list Resource :=
  if builds_nat create_nat_gateways res then [route_table_of vpc res] else [].

(** the first natted route table in the zone of [subnet] *)
Definition matching_table (tables : list Resource) (subnet : Resource)
  : option Resource :=
  find (fun t => (az (meta_of t) =? az (meta_of subnet))%string) tables.

Definition route_association_of (subnet route_table : Resource) : Resource :=
  Ec2.SubnetRouteTableAssociation (title subnet ++ "RouteAssociation")
    (Ref subnet) (Ref route_table).

(** the assignments to [self._r] of one step of [add_natted_subnet_group]
    that does not raise *)
Definition natted_writes (tables : list Resource) (res : Resource)
  : list (string * Resource) :=
  (title res, res)
  :: if is_subnet res then
       match matching_table tables res with
       | Some t =>
           [(title res ++ "RouteAssociation", route_association_of res t)]
       | None => []
       end
     else [].

(** the message of the [NotImplementedError] of [add_natted_subnet_group] *)
Definition not_found_message (subnet : Resource) : string :=
  "Can't find NAT gateway in " ++ az (meta_of subnet).

(** The same assignments with the key of each title ([Ec2.key_title]): those
    of a subnet that gets NAT resources, its associations included ... *)
Definition public_entries (vpc : Resource) (acl_id rt_id : Atom)
    (subnet : Resource) : list (Ec2.RKey * Resource) :=
  let n := suffix (meta_of subnet) in
  [(Ec2.KSubnet n, subnet);
   (Ec2.KEip n, eip_of subnet);
   (Ec2.KNatGw n, nat_gateway_of subnet);
   (Ec2.KPrivRouteTable n, route_table_of vpc subnet);
   (Ec2.KNatRoute (PyStr.upper (az_index (meta_of subnet))),
    nat_route_of vpc subnet);
   (Ec2.KNaclAssociation n,
    Ec2.SubnetNetworkAclAssociation (title subnet ++ "NaclAssociation")
      (Ref subnet) acl_id);
   (Ec2.KRouteAssociation n,
    Ec2.SubnetRouteTableAssociation (title subnet ++ "RouteAssociation")
      (Ref subnet) rt_id)].

(** ... and those of a subnet that is routed through a natted table. *)
Definition natted_entries (tables : list Resource) (acl_id : Atom)
    (subnet : Resource) : list (Ec2.RKey * Resource) :=
  let n := suffix (meta_of subnet) in
  ((Ec2.KSubnet n, subnet)
   :: match matching_table tables subnet with
      | Some t => [(Ec2.KRouteAssociation n, route_association_of subnet t)]
      | None => []
      end
   ++ [(Ec2.KNaclAssociation n,
        Ec2.SubnetNetworkAclAssociation (title subnet ++ "NaclAssociation")
          (Ref subnet) acl_id)])%list.

Definition titled (prefix : string) (e : Ec2.RKey * Resource)
  : string * Resource :=
  (Ec2.key_title prefix (fst e), snd e).

(** a subnet with no natted route table in its zone *)
Definition unmatched (tables : list Resource) (res : Resource) : bool :=
  is_subnet res
  && match matching_table tables res with Some _ => false | None => true end.

End Views.

(** ** Instances of the external functions, for running the model *)

Module Sample.

Definition is_alnum (c : ascii) : bool :=
  PyStr.is_upper c || PyStr.is_lower c || PyStr.is_digit c.

Fixpoint filter_string (p : ascii -> bool) (s : string) : string :=
  match s with
  | EmptyString => EmptyString
  | String c r => if p c then String c (filter_string p r)
                  else filter_string p r
  end.

(** a sanitiser that keeps ASCII letters and digits *)
Definition alphanum (s : string) : string := filter_string is_alnum s.

Definition octet (a : Z) (k : Z) : string :=
  PyStr.str_of_nat (Z.to_nat ((a / 2 ^ (8 * k)) mod 256)).

Definition cidr_string (c : Pawslib.Cidr) : string :=
  let a := Pawslib.addr c in
  octet a 3 ++ "." ++ octet a 2 ++ "." ++ octet a 1 ++ "." ++ octet a 0
  ++ "/" ++ PyStr.str_of_nat (Z.to_nat (Pawslib.prefixlen c)).

(** a region with four zones, [a] to [d] *)
Definition zones (region : string) : list string :=
  map (fun l => region ++ l) ["a"; "b"; "c"; "d"].

(** the block 10.0.0.0/24 *)
Definition base : Pawslib.Cidr := Pawslib.mkCidr 167772160 24.

(** a splitter that cuts [base] over the zones of [region] *)
Definition split (cidr_block region : string) (no_of_subnets : Z)
  : ExtExc + list Pawslib.Segment :=
  match Pawslib.split_net_across_zones base (zones region) no_of_subnets with
  | inl e => inl e
  | inr blocks =>
      inr (map (fun b => Pawslib.mkSegment (Pawslib.zone b)
                           (cidr_string (Pawslib.net b)))
               blocks)
  end.

(** a splitter that places every segment in the same zone *)
Definition split_one_zone (cidr_block region : string) (no_of_subnets : Z)
  : ExtExc + list Pawslib.Segment :=
  inr [Pawslib.mkSegment (region ++ "a") "10.0.0.0/25";
       Pawslib.mkSegment (region ++ "a") "10.0.0.128/25"].

Definition vpc : Resource :=
  new "AWS::EC2::VPC" "MainVpc" [("CidrBlock", VAtom (AStr "10.0.0.0/16"))].

Definition nacl : Resource :=
  new "AWS::EC2::NetworkAcl" "Nacl" [("VpcId", VAtom (Ref vpc))].

Definition route_table : Resource :=
  new "AWS::EC2::RouteTable" "Routes" [("VpcId", VAtom (Ref vpc))].

(** a template as [__init__] leaves it, and the same after a public subnet
    group with NAT gateways was added in each of the four zones *)
Definition template : Ec2.VpcTemplate :=
  Ec2.init "eu-west-1" "10.0.0.0/16" "Main" true ["192.168.0.0/16"].

Definition template_with_nat : Ec2.VpcTemplate :=
  snd (Ec2.add_public_subnet_group alphanum split "public" "10.0.0.0/24" 4
         true template).

(** an API with no route yet, and the same after one route was added *)
Definition api : ApiGatewayV2.HttpApi :=
  ApiGatewayV2.init alphanum "my api" None.

Definition api_with_route : ApiGatewayV2.HttpApi :=
  snd (ApiGatewayV2.add_route alphanum "users" "https://example.org/users"
         "GET" 10000 None api).

End Sample.

(** ** Observations on templates and returned lists *)

Module Observe.

(** the shape troposphere asks of a title: letters and digits, at least one *)
Definition alphanumeric (s : string) : bool :=
  match s with
  | EmptyString => false
  | _ => PyStr.all_chars Sample.is_alnum s
  end.

(** the titles of the resources stored in a dictionary, in its order *)
Definition titles {K : Type} (d : list (K * Resource)) : list string :=
  map (fun kv => title (snd kv)) d.

Definition acl_entry_type : string := "AWS::EC2::NetworkAclEntry".

(** is [r] an entry of the network ACL [nacl] in the given direction *)
Definition entry_of (nacl : Resource) (egress : bool) (r : Resource) : bool :=
  Views.has_type acl_entry_type r
  && Views.prop_is r "NetworkAclId" (VAtom (Ref nacl))
  && Views.prop_is r "Egress" (VAtom (ABool egress)).

Definition rule_number (r : Resource) : list Z :=
  match prop r "RuleNumber" with
  | Some (VAtom (AInt z)) => [z]
  | _ => []
  end.

(** the rule numbers of the entries of [nacl] in one direction *)
Definition rule_numbers (nacl : Resource) (egress : bool)
    (d : sdict Resource) : list Z :=
  flat_map (fun kv => if entry_of nacl egress (snd kv)
                      then rule_number (snd kv) else [])
           d.

(** A string that ends in a digit belongs to one of two generated families,
    told apart by the first letter; other strings are in class 0. *)
Definition family (s : string) : nat :=
  match PyStr.rchars s with
  | c :: _ =>
      if PyStr.is_digit c then
        match s with
        | String f _ =>
            if (Ascii.eqb f "P" || Ascii.eqb f "p")%bool then 1 else 2
        | EmptyString => 0
        end
      else 0
  | [] => 0
  end.

End Observe.

(** a checker for lists of pairwise different strings *)
Fixpoint distinct (l : list string) : bool :=
  match l with
  | [] => true
  | x :: r => negb (existsb (String.eqb x) r) && distinct r
  end.

(** the keys [prefix0], [prefix1], ... of the entries written for the
    internal networks *)
Definition numbered (prefix : string) (n : nat) : list string :=
  map (fun i => prefix ++ PyStr.str_of_nat i) (seq 0 n).

(** the rule numbers [101 + index] given to [n] internal networks *)
Definition internal_rules (n : nat) : list Z :=
  map (fun i => (101 + Z.of_nat i)%Z) (seq 0 n).

(** The shape of the keys [__init__] writes to [self._r]: a key that ends in
    a digit starts with a lower-case letter, and any other key neither ends
    in [n] nor starts with [N]. *)
Definition init_like (s : string) : bool :=
  match PyStr.rchars s, s with
  | l :: _, String f _ =>
      if PyStr.is_digit l then PyStr.is_lower f
      else negb (Ascii.eqb l "n") && negb (Ascii.eqb f "N")
  | _, _ => false
  end.

(** ** Views of [peer_with_another_vpc] *)

Module PeerViews.

Section External.
Variable alphanum : string -> string.

(** the connection [peer_with_another_vpc] builds *)
Definition peering_connection (self : Ec2.VpcTemplate)
    (peer_vpc_id peer_vpc_name : string)
    (peer_role_arn peer_owner_id peer_region : option string) : Resource :=
  set_opt
    (set_opt
       (set_opt
          (new "AWS::EC2::VPCPeeringConnection"
             (alphanum ("Peer" ++ PyStr.capitalize peer_vpc_name ++ "With"
                        ++ PyStr.capitalize (Ec2.name self)))
             [("VpcId", VAtom (Ref (Ec2.vpc self)));
              ("PeerVpcId", VAtom (AStr peer_vpc_id));
              ("Tags", name_tag (peer_vpc_name ++ " - " ++ Ec2.name self))])
          "PeerRegion" peer_region)
       "PeerOwnerId" peer_owner_id)
    "PeerRoleArn" peer_role_arn.

(** the routes it writes, in program order: for the private tables, then
    for the public table *)
Definition private_routes (self : Ec2.VpcTemplate) (conn : Resource)
    (peer_cidrs : list string) : list (string * Resource) :=
  flat_map (fun cidr =>
              map (fun route_table =>
                     Ec2.peer_route alphanum route_table conn cidr)
                  (Ec2.natted_route_tables self))
           peer_cidrs.

Definition public_routes (self : Ec2.VpcTemplate) (conn : Resource)
    (peer_cidrs : list string) : list (string * Resource) :=
  map (Ec2.peer_route alphanum (Ec2.public_route_table self) conn) peer_cidrs.

(** the last element of a list that satisfies [p] *)
Definition last_with {A} (p : A -> bool) (l : list A) : option A :=
  find p (rev l).

End External.

End PeerViews.

(** ** Views of an [HttpApi] *)

Module ApiViews.
Import ApiGatewayV2.

Definition api_rtype : string := "AWS::ApiGatewayV2::Api".
Definition integration_rtype : string := "AWS::ApiGatewayV2::Integration".
Definition route_rtype : string := "AWS::ApiGatewayV2::Route".

(** [v] belongs to the API of [self]: its [ApiId] is [Ref(self.t_api)] *)
Definition of_api (self : HttpApi) (v : Resource) : Prop :=
  prop v "ApiId" = Some (VAtom (Ref (t_api self))).

(** An entry of [self.resources] is in order when it is the API or an
    integration of the API under its title, or a route of the API under the
    route itself whose target is an integration stored in [self.resources]. *)
Definition entry_ok (self : HttpApi) (k : Key) (v : Resource) : Prop :=
  match k with
  | KStr s =>
      s = title v /\
      (v = t_api self \/ (rtype v = integration_rtype /\ of_api self v))
  | KObj r =>
      r = v /\ rtype v = route_rtype /\ of_api self v /\
      exists t i,
        prop v "Target" = Some (VJoin "/" [AStr "integrations"; ARef t]) /\
        Dict.get key_eqb (resources self) (KStr t) = Some i /\
        rtype i = integration_rtype
  end.

Definition consistent (self : HttpApi) : Prop :=
  title (t_api self) = clean_name self ++ "HTTPApi" /\
  rtype (t_api self) = api_rtype /\
  Dict.get key_eqb (resources self) (KStr (title (t_api self)))
  = Some (t_api self) /\
  forall k v, In (k, v) (resources self) -> entry_ok self k v.

End ApiViews.

(** The shape of the keys [peer_with_another_vpc] writes when [alphanum]
    keeps a leading [Peer]: they start with [Peer] or end in [Route]. *)
Definition peer_like (s : string) : bool :=
  prefix "Peer" s
  || match PyStr.rchars s with
     | "e" :: "t" :: "u" :: "o" :: "R" :: _ => true
     | _ => false
     end%char.

(** [b] is [a] but for the three attributes the methods change *)
Definition framed (a b : Ec2.VpcTemplate) : Prop :=
  b = Views.update a (Ec2.nat_gateways b) (Ec2.natted_route_tables b)
        (Ec2._r b).

(** ** A region with a Local Zone *)

Module LocalZone.

(** two zones of one region whose names end in the same letter: an
    availability zone and a Local Zone *)
Definition zones : list string := ["us-west-2a"; "us-west-2-lax-1a"].

(** the splitter of the specification over these zones *)
Definition split (cidr_block region : string) (no_of_subnets : Z)
  : ExtExc + list Pawslib.Segment :=
  match Pawslib.split_net_across_zones Sample.base zones no_of_subnets with
  | inl e => inl e
  | inr blocks =>
      inr (map (fun b => Pawslib.mkSegment (Pawslib.zone b)
                           (Sample.cidr_string (Pawslib.net b)))
               blocks)
  end.

Definition template : Ec2.VpcTemplate :=
  Ec2.init "us-west-2" "10.0.0.0/16" "Main" true [].

End LocalZone.

(** ** The associations of a subnet *)

Module AssociationViews.
Import Views.

(** The associations of one subnet in the list [res]: with an id, exactly one association of the type attached to the
    subnet, the only resource of its title, carrying the subnet and the
    id. *)
Definition one_association (res : list Resource) (subnet : Resource)
    (rtype_name suffix id_prop : string) (id : option Atom) : Prop :=
  match id with
  | Some id =>
      exists x,
        filter (attached_to rtype_name subnet) res = [x] /\
        filter (fun r => (title r =? title subnet ++ suffix)%string) res
        = [x] /\
        rtype x = rtype_name /\
        title x = title subnet ++ suffix /\
        prop x "SubnetId" = Some (VAtom (ARef (title subnet))) /\
        prop x id_prop = Some (VAtom id)
  | None => filter (attached_to rtype_name subnet) res = []
  end.

End AssociationViews.
Example lower_ex : PyStr.lower "Eu-West-1A" = "eu-west-1a".
Proof. reflexivity. Qed.

Example capitalize_ex : PyStr.capitalize (PyStr.lower "pUBlic") = "Public".
Proof. reflexivity. Qed.

Example last1_ex : PyStr.upper (PyStr.last1 "eu-west-1a") = "A".
Proof. reflexivity. Qed.

Example contains_ex :
  PyStr.contains "$context.requestId" "ip $context.requestId x" = true.
Proof. reflexivity. Qed.

Example str_of_nat_ex : PyStr.str_of_nat 12 = "12" /\ PyStr.str_of_nat 0 = "0".
Proof. split; reflexivity. Qed.

(** * Facts about strings *)

Module PyStrFacts.
Import PyStr.

Lemma chars_app (a b : string) :
  list_ascii_of_string (a ++ b)
  = (list_ascii_of_string a ++ list_ascii_of_string b)%list.
Proof.
  induction a as [|c a IH]; simpl; [reflexivity | now rewrite IH].
Qed.

Lemma rchars_app (a b : string) :
  rchars (a ++ b) = (rchars b ++ rchars a)%list.
Proof. unfold rchars. now rewrite chars_app, rev_app_distr. Qed.

Lemma rchars_inj (a b : string) : rchars a = rchars b -> a = b.
Proof.
  unfold rchars. intros H.
  apply (f_equal (@rev ascii)) in H. rewrite !rev_involutive in H.
  apply (f_equal string_of_list_ascii) in H.
  now rewrite !string_of_list_ascii_of_string in H.
Qed.

Lemma append_inv_head (s a b : string) : s ++ a = s ++ b -> a = b.
Proof.
  induction s as [|c s IH]; simpl; intros H; [assumption|].
  injection H as H. auto.
Qed.

Lemma append_inv_tail (s a b : string) : a ++ s = b ++ s -> a = b.
Proof.
  intros H. apply (f_equal rchars) in H. rewrite !rchars_app in H.
  apply app_inv_head in H. now apply rchars_inj.
Qed.

Lemma append_assoc (a b c : string) : (a ++ b) ++ c = a ++ (b ++ c).
Proof.
  induction a as [|x a IH]; simpl; [reflexivity | now rewrite IH].
Qed.

Lemma length_append (a b : string) :
  String.length (a ++ b) = String.length a + String.length b.
Proof.
  induction a as [|x a IH]; simpl; [reflexivity | now rewrite IH].
Qed.

Lemma length_map_string f s : String.length (map_string f s) = String.length s.
Proof.
  induction s as [|c s IH]; simpl; [reflexivity | now rewrite IH].
Qed.

Lemma length_last1 s : String.length (last1 s) <= 1.
Proof.
  induction s as [|c s IH]; simpl; [lia|].
  destruct s; simpl in *; lia.
Qed.

(** [lower] leaves no upper-case letter, [upper] no lower-case one *)
Lemma lower_ascii_not_upper c : is_upper (lower_ascii c) = false.
Proof. destruct c as [[] [] [] [] [] [] [] []]; reflexivity. Qed.

Lemma upper_ascii_not_lower c : is_lower (upper_ascii c) = false.
Proof. destruct c as [[] [] [] [] [] [] [] []]; reflexivity. Qed.

Lemma digit_not_upper c : is_digit c = true -> is_upper c = false.
Proof. destruct c as [[] [] [] [] [] [] [] []]; vm_compute; congruence. Qed.

Lemma lower_no_upper s :
  all_chars (fun c => negb (is_upper c)) (lower s) = true.
Proof.
  induction s as [|c s IH]; simpl; [reflexivity|].
  rewrite lower_ascii_not_upper. exact IH.
Qed.

(** *** Decimal numerals *)

Lemma string_of_uint_digits d :
  all_chars is_digit (NilEmpty.string_of_uint d) = true.
Proof. induction d; simpl; auto. Qed.

Lemma str_of_nat_digits n : all_chars is_digit (str_of_nat n) = true.
Proof. apply string_of_uint_digits. Qed.

Lemma str_of_nat_inj n m : str_of_nat n = str_of_nat m -> n = m.
Proof.
  unfold str_of_nat. intros H.
  apply DecimalNat.Unsigned.to_uint_inj.
  apply (f_equal NilEmpty.uint_of_string) in H.
  rewrite !NilEmpty.usu in H. congruence.
Qed.

Lemma str_of_nat_nonempty n : str_of_nat n <> EmptyString.
Proof.
  intros H. assert (E : str_of_nat n = str_of_nat 0 -> False).
  { intros E. apply str_of_nat_inj in E. subst n. discriminate H. }
  unfold str_of_nat in H.
  apply (f_equal NilEmpty.uint_of_string) in H.
  rewrite NilEmpty.usu in H. simpl in H. injection H as H.
  apply (f_equal Nat.of_uint) in H.
  rewrite DecimalNat.Unsigned.of_to in H. simpl in H. subst n.
  apply E. reflexivity.
Qed.

(** a numeral starts and ends with a digit *)
Lemma str_of_nat_head n :
  exists d r, str_of_nat n = String d r /\ is_digit d = true
              /\ all_chars is_digit r = true.
Proof.
  generalize (str_of_nat_digits n) (str_of_nat_nonempty n).
  destruct (str_of_nat n) as [|d r]; [congruence|].
  simpl. intros H _. apply andb_prop in H. destruct H. eauto.
Qed.

Lemma all_chars_rchars p s c :
  all_chars p s = true -> In c (rchars s) -> p c = true.
Proof.
  unfold rchars. rewrite <- in_rev.
  induction s as [|x s IH]; simpl; [tauto|].
  intros H [E|I]; apply andb_prop in H; destruct H; subst; auto.
Qed.

Lemma str_of_nat_last n :
  exists d r, rchars (str_of_nat n) = d :: r /\ is_digit d = true.
Proof.
  destruct (rchars (str_of_nat n)) as [|d r] eqn:E.
  - exfalso. apply (str_of_nat_nonempty n). apply rchars_inj. now rewrite E.
  - exists d, r. split; [reflexivity|].
    apply (all_chars_rchars is_digit (str_of_nat n));
      [apply str_of_nat_digits | rewrite E; now left].
Qed.

End PyStrFacts.

(** * Resource titles do not collide *)

Module TitleFacts.
Import PyStr PyStrFacts.

(** A string made of characters that are not upper case, then a numeral,
    differs from one that has an upper-case letter after letters only. *)
Lemma shape_tail (C P D rest x : string) (d U : ascii) :
  all_chars (fun c => negb (is_upper c)) P = true ->
  is_digit d = true ->
  all_chars (fun c => negb (is_digit c)) C = true ->
  is_upper U = true ->
  P ++ String d D ++ rest <> C ++ String U x.
Proof.
  intros HP Hd HC HU. revert P HP.
  induction C as [|c C IH]; intros [|p P] HP; simpl in *; intros E;
    injection E as E1 E2; subst.
  - apply digit_not_upper in Hd. congruence.
  - apply andb_prop in HP. destruct HP as [HP _].
    rewrite HU in HP. discriminate.
  - apply andb_prop in HC. destruct HC as [HC _].
    rewrite Hd in HC. discriminate.
  - apply andb_prop in HC. apply andb_prop in HP.
    apply (IH (proj2 HC) P (proj2 HP)). assumption.
Qed.

(** Titles built on a capitalised prefix and a numeral never start like a
    constant with an inner upper-case letter ("EipN...", "NatG...",
    "PrivR...", "NatR..."). *)
Lemma prefixed_title_shape (raw rest C x : string) (c U : ascii) (n : nat) :
  all_chars (fun c => negb (is_digit c)) (String c C) = true ->
  is_upper U = true ->
  (capitalize (lower raw) ++ str_of_nat n) ++ rest
  <> String c C ++ String U x.
Proof.
  intros HC HU. rewrite append_assoc.
  destruct (str_of_nat_head n) as (d & D & -> & Hd & _).
  simpl in HC. apply andb_prop in HC. destruct HC as [Hc HC].
  destruct raw as [|r raw]; simpl; intros E; injection E as E1 E2.
  - subst. rewrite Hd in Hc. discriminate.
  - revert E2. apply shape_tail; auto. apply lower_no_upper.
Qed.

Lemma prefixed_title_shape0 (raw C x : string) (c U : ascii) (n : nat) :
  all_chars (fun c => negb (is_digit c)) (String c C) = true ->
  is_upper U = true ->
  capitalize (lower raw) ++ str_of_nat n <> String c C ++ String U x.
Proof.
  intros HC HU E.
  apply (prefixed_title_shape raw EmptyString C x c U n HC HU).
  rewrite <- E. clear.
  induction (capitalize (lower raw) ++ str_of_nat n); simpl; congruence.
Qed.

(** a numeral does not end like a word *)
Lemma digit_last_neq (a b s : string) (n : nat) :
  match rchars s with c :: _ => is_digit c = false | [] => False end ->
  a ++ str_of_nat n <> b ++ s.
Proof.
  intros Hs E. apply (f_equal rchars) in E. rewrite !rchars_app in E.
  destruct (str_of_nat_last n) as (d & r & Hr & Hd).
  rewrite Hr in E. destruct (rchars s) as [|c t]; [contradiction|].
  simpl in E. injection E as E _. congruence.
Qed.

(** strings whose endings differ at some position are different *)
Lemma suffix_clash_neq (a b s1 s2 : string) :
  clash (rchars s1) (rchars s2) = true -> a ++ s1 <> b ++ s2.
Proof.
  intros Hc E. apply (f_equal rchars) in E. rewrite !rchars_app in E.
  revert E. generalize (rchars a) (rchars b).
  revert Hc. generalize (rchars s1) (rchars s2).
  induction l as [|x l IH]; intros [|y l'] Hc ta tb E; simpl in *;
    try discriminate.
  injection E as E1 E2. subst y. rewrite Ascii.eqb_refl in Hc. eauto.
Qed.

Section Keys.
Variable raw : string.
Let prefix := capitalize (lower raw).

Ltac shape c C U X :=
  match goal with
  | H : (prefix ++ str_of_nat ?n) ++ ?rest = _ |- _ =>
      exact (False_ind _
               (prefixed_title_shape raw rest C X c U n eq_refl eq_refl H))
  | H : prefix ++ str_of_nat ?n = _ |- _ =>
      exact (False_ind _
               (prefixed_title_shape0 raw C X c U n eq_refl eq_refl H))
  end.

Ltac shapes :=
  match goal with
  | H : _ = "EipNatGw" ++ ?y |- _ => shape "E"%char "ip" "N"%char ("atGw" ++ y)
  | H : _ = "NatGw" ++ ?y |- _ => shape "N"%char "at" "G"%char ("w" ++ y)
  | H : _ = "PrivRouteTable" ++ ?y |- _ =>
      shape "P"%char "riv" "R"%char ("outeTable" ++ y)
  | H : _ = "NatRoute" ++ ?y |- _ => shape "N"%char "at" "R"%char ("oute" ++ y)
  end.

Ltac by_last :=
  match goal with
  | H : ?a ++ str_of_nat ?n = ?b ++ ?s |- _ =>
      exact (False_ind _ (digit_last_neq a b s n eq_refl H))
  end.

Ltac by_clash :=
  match goal with
  | H : ?a ++ ?s1 = ?b ++ ?s2 |- _ =>
      exact (False_ind _ (suffix_clash_neq a b s1 s2 eq_refl H))
  end.

Lemma key_title_inj (k1 k2 : Ec2.RKey) :
  Ec2.key_title prefix k1 = Ec2.key_title prefix k2 -> k1 = k2.
Proof.
  destruct k1, k2; unfold Ec2.key_title; intros H;
    try (exfalso; simpl in H; discriminate H);
    try (f_equal; first
           [ apply str_of_nat_inj; apply (append_inv_head prefix);
             first [exact H | eapply append_inv_tail; exact H]
           | apply str_of_nat_inj; eapply append_inv_head; exact H
           | eapply append_inv_head; exact H ]; fail).
  all: try (by_last; fail).
  all: try (symmetry in H; by_last; fail).
  all: try (by_clash; fail).
  all: try (shapes; fail).
  all: try (symmetry in H; shapes; fail).
Qed.

End Keys.
End TitleFacts.

(** * Dictionaries *)

Module DictFacts.

Section Generic.
Context {K V : Type} (eqb : K -> K -> bool).
Hypothesis eqb_spec : forall a b, eqb a b = true <-> a = b.

Lemma eqb_refl k : eqb k k = true.
Proof. now apply eqb_spec. Qed.

Lemma eqb_neq a b : a <> b -> eqb a b = false.
Proof.
  intros H. destruct (eqb a b) eqn:E; [|reflexivity].
  apply eqb_spec in E. contradiction.
Qed.

Lemma get_set_same (d : Dict.dict) k (v : V) :
  Dict.get eqb (Dict.set eqb d k v) k = Some v.
Proof.
  induction d as [|[k' v'] d IH]; simpl.
  - now rewrite eqb_refl.
  - destruct (eqb k k') eqn:E; simpl; rewrite E; auto.
Qed.

Lemma get_set_other (d : Dict.dict) k k' (v : V) :
  k <> k' -> Dict.get eqb (Dict.set eqb d k v) k' = Dict.get eqb d k'.
Proof.
  intros N. induction d as [|[k0 v0] d IH]; simpl.
  - rewrite eqb_neq; auto.
  - destruct (eqb k k0) eqn:E; simpl.
    + apply eqb_spec in E. subst k0. rewrite !eqb_neq; auto.
    + now rewrite IH.
Qed.

Lemma length_set (d : Dict.dict) k (v : V) :
  length (Dict.set eqb d k v)
  = length d + (if Dict.mem eqb d k then 0 else 1).
Proof.
  unfold Dict.mem. induction d as [|[k0 v0] d IH]; simpl; [reflexivity|].
  destruct (eqb k k0); simpl; [lia|]. rewrite IH. lia.
Qed.

Lemma mem_set_other (d : Dict.dict) k k' (v : V) :
  k <> k' -> Dict.mem eqb (Dict.set eqb d k v) k' = Dict.mem eqb d k'.
Proof. intros N. unfold Dict.mem. now rewrite get_set_other. Qed.

End Generic.

Lemma string_eqb_spec a b : String.eqb a b = true <-> a = b.
Proof. apply String.eqb_eq. Qed.

Lemma sget_sset_same {V} (d : sdict V) k v : sget (sset d k v) k = Some v.
Proof. apply get_set_same, string_eqb_spec. Qed.

Lemma sget_sset_other {V} (d : sdict V) k k' v :
  k <> k' -> sget (sset d k v) k' = sget d k'.
Proof. apply get_set_other, string_eqb_spec. Qed.

Lemma assign_all_app {V} (d : sdict V) l1 l2 :
  Ec2.assign_all d (l1 ++ l2) = Ec2.assign_all (Ec2.assign_all d l1) l2.
Proof. unfold Ec2.assign_all. apply fold_left_app. Qed.

Lemma sget_assign_all_other {V} (l : list (string * V)) d k :
  ~ In k (map fst l) -> sget (Ec2.assign_all d l) k = sget d k.
Proof.
  revert d. induction l as [|[k0 v0] l IH]; intros d N; simpl in *.
  - reflexivity.
  - rewrite IH by tauto. apply sget_sset_other. tauto.
Qed.

(** the last assignment to a key is the one that stays *)
Lemma sget_assign_all_last {V} (l1 l2 : list (string * V)) d k v :
  ~ In k (map fst l2) ->
  sget (Ec2.assign_all d (l1 ++ (k, v) :: l2)) k = Some v.
Proof.
  intros N. rewrite assign_all_app. simpl.
  rewrite sget_assign_all_other by assumption. apply sget_sset_same.
Qed.

(** with keys that are all different, every assignment stays *)
Lemma sget_assign_all_nodup {V} (l : list (string * V)) d k v :
  NoDup (map fst l) -> In (k, v) l ->
  sget (Ec2.assign_all d l) k = Some v.
Proof.
  intros ND I. apply in_split in I. destruct I as (l1 & l2 & ->).
  apply sget_assign_all_last.
  rewrite map_app in ND. simpl in ND.
  apply NoDup_remove_2 in ND. intros I. apply ND, in_or_app. now right.
Qed.

(** when every assignment to a key carries the same value, and there is
    one, that value stays *)
Lemma sget_assign_all_agree {V} (l : list (string * V)) d k v :
  In (k, v) l -> (forall v', In (k, v') l -> v' = v) ->
  sget (Ec2.assign_all d l) k = Some v.
Proof.
  induction l as [|[k0 v0] l IH] using rev_ind; intros I A; [contradiction|].
  rewrite assign_all_app. cbn [Ec2.assign_all fold_left fst snd].
  destruct (string_dec k0 k) as [->|N].
  - rewrite (A v0) by (apply in_or_app; right; now left).
    apply sget_sset_same.
  - rewrite sget_sset_other by assumption. apply IH.
    + apply in_app_or in I. destruct I as [I|[E|[]]]; [exact I|].
      congruence.
    + intros v' I'. apply A. apply in_or_app. now left.
Qed.

End DictFacts.

(** * [multiaz_subnets] *)

Module MultiAzFacts.
Import Views.

Lemma default_id_idem id r :
  Ec2.default_id (Ec2.default_id id r) r = Ec2.default_id id r.
Proof. destruct id, r; reflexivity. Qed.

Lemma supplied_default res id :
  Ec2.default_id (option_map AStr id) res = supplied res id.
Proof. destruct id, res; reflexivity. Qed.

Ltac loop_eq IH :=
  simpl; rewrite IH, !default_id_idem;
  unfold segment_resources, associations; simpl;
  repeat match goal with
         | |- context [Ec2.default_id ?i ?r] =>
             destruct (Ec2.default_id i r); simpl
         end;
  rewrite <- ?app_assoc; reflexivity.

(** The loop of [src/ec2.py] appends, segment by segment, the subnet and its
    associations. *)
Lemma ec2_loop_eq prefix name_prefix vpc_id acl rt segs :
  forall index acl_id rt_id acc,
    Ec2.multiaz_loop prefix name_prefix vpc_id acl rt index segs
      acl_id rt_id acc
    = (acc ++ flat_map
         (segment_resources (Ec2.make_subnet prefix name_prefix vpc_id)
            (Ec2.default_id acl_id acl) (Ec2.default_id rt_id rt))
         (enumerate index segs))%list.
Proof.
  induction segs as [|seg segs IH]; intros index acl_id rt_id acc.
  - simpl. now rewrite app_nil_r.
  - loop_eq IH.
Qed.

(** The loop of [src/__init__.py] does the same with its own subnets. *)
Lemma init_loop_eq prefix name_prefix vpc_id acl rt segs :
  forall index acl_id rt_id acc,
    Tropolib.multiaz_loop prefix name_prefix vpc_id acl rt index segs
      acl_id rt_id acc
    = (acc ++ flat_map
         (segment_resources (Tropolib.make_subnet prefix name_prefix vpc_id)
            (Ec2.default_id acl_id acl) (Ec2.default_id rt_id rt))
         (enumerate index segs))%list.
Proof.
  induction segs as [|seg segs IH]; intros index acl_id rt_id acc.
  - simpl. now rewrite app_nil_r.
  - loop_eq IH.
Qed.

Section Results.
Variable alphanum : string -> string.
Variable split : string -> string -> Z -> ExtExc + list Pawslib.Segment.

Let title_prefix := Views.title_prefix alphanum.

Lemma ec2_result name_prefix cidr_block region vpc vpc_id n acl acl_id rt
    rt_id res :
  Ec2.multiaz_subnets alphanum split name_prefix cidr_block region vpc vpc_id
    n acl acl_id rt rt_id = Ok res ->
  exists vid segs,
    Ec2.resolve_vpc_id vpc vpc_id = Ok vid /\
    split cidr_block region n = inr segs /\
    res = flat_map
            (segment_resources
               (Ec2.make_subnet (title_prefix name_prefix) name_prefix vid)
               (supplied acl acl_id) (supplied rt rt_id))
            (enumerate 0 segs).
Proof.
  unfold Ec2.multiaz_subnets.
  destruct (Ec2.resolve_vpc_id vpc vpc_id) as [vid|e]; [|discriminate].
  destruct (split cidr_block region n) as [e|segs]; [discriminate|].
  intros H. injection H as <-. exists vid, segs.
  rewrite ec2_loop_eq, !supplied_default. auto.
Qed.

Lemma init_result name_prefix cidr_block region vpc vpc_id n acl acl_id rt
    rt_id res :
  Tropolib.multiaz_subnets alphanum split name_prefix cidr_block region vpc
    vpc_id n acl acl_id rt rt_id = Ok res ->
  exists vid segs,
    Ec2.resolve_vpc_id vpc vpc_id = Ok vid /\
    split cidr_block region n = inr segs /\
    res = flat_map
            (segment_resources
               (Tropolib.make_subnet (title_prefix name_prefix) name_prefix vid)
               (supplied acl acl_id) (supplied rt rt_id))
            (enumerate 0 segs).
Proof.
  unfold Tropolib.multiaz_subnets.
  destruct (Ec2.resolve_vpc_id vpc vpc_id) as [vid|e]; [|discriminate].
  destruct (split cidr_block region n) as [e|segs]; [discriminate|].
  intros H. injection H as <-. exists vid, segs.
  rewrite init_loop_eq, !supplied_default. auto.
Qed.

End Results.

(** ** Enumerated lists *)

Lemma enumerate_fst {A} (l : list A) k :
  map fst (enumerate k l) = seq k (length l).
Proof.
  revert k. induction l as [|x l IH]; intros k; simpl;
    [reflexivity | now rewrite IH].
Qed.

Lemma enumerate_snd {A} (l : list A) k : map snd (enumerate k l) = l.
Proof.
  revert k. induction l as [|x l IH]; intros k; simpl;
    [reflexivity | now rewrite IH].
Qed.

Lemma enumerate_nodup {A} (l : list A) k : NoDup (map fst (enumerate k l)).
Proof. rewrite enumerate_fst. apply seq_NoDup. Qed.

Lemma nodup_map_in_inj {A B} (f : A -> B) l a b :
  NoDup (map f l) -> In a l -> In b l -> f a = f b -> a = b.
Proof.
  induction l as [|x l IH]; simpl; intros ND Ia Ib E; [contradiction|].
  inversion ND as [|? ? N ND']; subst.
  destruct Ia as [->|Ia], Ib as [->|Ib]; auto.
  - exfalso. apply N. rewrite E. now apply in_map.
  - exfalso. apply N. rewrite <- E. now apply in_map.
Qed.

Lemma nodup_map_inj {A B} (f : A -> B) l :
  (forall x y, f x = f y -> x = y) -> NoDup l -> NoDup (map f l).
Proof.
  intros Hf. induction 1 as [|x l N ND IH]; simpl; constructor; auto.
  intros I. apply in_map_iff in I. destruct I as (y & E & I).
  apply Hf in E. subst. contradiction.
Qed.

Lemma nodup_flat_map {A B} (f : A -> list B) l :
  NoDup l ->
  (forall a, In a l -> NoDup (f a)) ->
  (forall a b x, In a l -> In b l -> In x (f a) -> In x (f b) -> a = b) ->
  NoDup (flat_map f l).
Proof.
  induction l as [|a l IH]; simpl; intros ND Hf Hd; [constructor|].
  inversion ND as [|? ? N ND']; subst.
  apply NoDup_app; [now apply Hf; left | apply IH; auto; firstorder |].
  intros x Ix Ir. apply in_flat_map in Ir. destruct Ir as (b & Ib & Ixb).
  apply N. rewrite (Hd a b x); auto.
Qed.

(** ** The returned list, for either definition *)

Lemma prop_is_ref r k x y :
  prop r k = Some (VAtom (ARef x)) ->
  prop_is r k (VAtom (ARef y)) = (x =? y)%string.
Proof.
  unfold prop_is. intros ->.
  destruct (Value_eq_dec (VAtom (ARef x)) (VAtom (ARef y))) as [E|N];
    symmetry.
  - injection E as ->. apply String.eqb_refl.
  - apply String.eqb_neq. congruence.
Qed.

Section Returned.
Variable raw : string.
Let prefix := PyStr.capitalize (PyStr.lower raw).
Variable mk : nat -> Pawslib.Segment -> Resource.
Hypothesis mk_title :
  forall i seg, title (mk i seg) = prefix ++ PyStr.str_of_nat (i + 1).
Hypothesis mk_type : forall i seg, rtype (mk i seg) = subnet_type.
Variables acl_id rt_id : option Atom.

Let block := segment_resources mk acl_id rt_id.

Lemma title_index_inj i j seg seg' :
  title (mk i seg) = title (mk j seg') -> i = j.
Proof.
  rewrite !mk_title. intros H. apply PyStrFacts.append_inv_head in H.
  apply PyStrFacts.str_of_nat_inj in H. lia.
Qed.

Lemma ref_eqb i j seg seg' :
  (title (mk j seg') =? title (mk i seg))%string = Nat.eqb j i.
Proof.
  destruct (Nat.eqb_spec j i) as [->|N].
  - rewrite !mk_title. apply String.eqb_refl.
  - apply String.eqb_neq. intros H. apply title_index_inj in H. contradiction.
Qed.

Lemma subnet_has_type t i seg :
  has_type t (mk i seg) = (subnet_type =? t)%string.
Proof. unfold has_type. now rewrite mk_type. Qed.

(** in the resources of segment [j], what is attached to subnet [i] *)
Lemma attached_in_block t i seg j seg' :
  t = nacl_association_type \/ t = route_association_type ->
  filter (attached_to t (mk i seg)) (block (j, seg'))
  = if Nat.eqb j i then filter (has_type t) (associations (mk j seg') acl_id rt_id)
    else [].
Proof.
  intros Ht. unfold block, segment_resources, associations, attached_to.
  cbn [fst snd filter].
  rewrite subnet_has_type.
  assert (Hs : (subnet_type =? t)%string = false)
    by (destruct Ht; subst; reflexivity).
  rewrite Hs. cbn [andb].
  destruct acl_id as [a|], rt_id as [b|]; cbn [app filter];
    rewrite ?(prop_is_ref _ _ (title (mk j seg')) (title (mk i seg)))
      by reflexivity;
    rewrite ?ref_eqb;
    destruct (Nat.eqb j i); rewrite ?andb_true_r, ?andb_false_r;
    try reflexivity;
    repeat match goal with
           | |- context [if ?c then _ else _] => destruct c
           end; reflexivity.
Qed.

Lemma attached_elsewhere t i seg l :
  t = nacl_association_type \/ t = route_association_type ->
  ~ In i (map fst l) ->
  filter (attached_to t (mk i seg)) (flat_map block l) = [].
Proof.
  intros Ht. induction l as [|[j seg'] l IH]; intros N;
    [reflexivity|].
  cbn [flat_map]. simpl in N.
  rewrite filter_app, attached_in_block by assumption.
  destruct (Nat.eqb_spec j i) as [->|_]; [tauto|].
  cbn [app]. apply IH. tauto.
Qed.

(** Among all returned resources, those attached to the subnet of a segment
    are the associations that follow it. *)
Lemma attached_in_result t i seg l :
  t = nacl_association_type \/ t = route_association_type ->
  NoDup (map fst l) -> In (i, seg) l ->
  filter (attached_to t (mk i seg)) (flat_map block l)
  = filter (has_type t) (associations (mk i seg) acl_id rt_id).
Proof.
  intros Ht. induction l as [|[j seg'] l IH]; intros ND I;
    [contradiction|].
  cbn [flat_map]. simpl in ND, I.
  inversion ND as [|? ? N ND']; subst.
  rewrite filter_app, attached_in_block by assumption.
  destruct I as [E|I].
  - injection E as -> ->. rewrite Nat.eqb_refl.
    rewrite attached_elsewhere by assumption. apply app_nil_r.
  - assert (j <> i).
    { intros ->. apply N. change i with (fst (i, seg)). now apply in_map. }
    destruct (Nat.eqb_spec j i); [contradiction|]. cbn [app]. auto.
Qed.

Lemma subnets_of_result s l :
  In s (flat_map block l) -> is_subnet s = true ->
  exists i seg, In (i, seg) l /\ s = mk i seg.
Proof.
  intros I Hs. apply in_flat_map in I. destruct I as ([i seg] & Il & I).
  unfold block, segment_resources, associations in I. simpl in I.
  destruct I as [<-|I]; [eauto|].
  exfalso. apply in_app_or in I.
  destruct acl_id, rt_id; simpl in I;
    repeat match goal with
           | H : _ \/ _ |- _ => destruct H
           | H : False |- _ => contradiction
           end; subst; discriminate.
Qed.

(** the keys of the titles of one segment's resources *)
Let block_keys (n : nat) : list Ec2.RKey :=
  (Ec2.KSubnet n
   :: match acl_id with Some _ => [Ec2.KNaclAssociation n] | None => [] end
   ++ match rt_id with Some _ => [Ec2.KRouteAssociation n] | None => [] end)%list.

Lemma block_titles i seg :
  map title (block (i, seg))
  = map (Ec2.key_title prefix) (block_keys (i + 1)).
Proof.
  unfold block, segment_resources, associations, block_keys.
  cbn [fst snd]. destruct acl_id, rt_id; simpl; rewrite !mk_title;
    reflexivity.
Qed.

Lemma result_titles l :
  map title (flat_map block l)
  = map (Ec2.key_title prefix)
      (flat_map (fun p => block_keys (fst p + 1)) l).
Proof.
  induction l as [|[i seg] l IH]; [reflexivity|].
  cbn [flat_map]. rewrite !map_app, block_titles, IH. reflexivity.
Qed.

Lemma block_keys_nodup n : NoDup (block_keys n).
Proof.
  unfold block_keys. destruct acl_id, rt_id; simpl;
    repeat constructor; simpl; intuition discriminate.
Qed.

Lemma block_keys_number n m k :
  In k (block_keys n) -> In k (block_keys m) -> n = m.
Proof.
  unfold block_keys. destruct acl_id, rt_id; simpl; intros H1 H2;
    repeat match goal with
           | H : _ \/ _ |- _ => destruct H
           | H : False |- _ => contradiction
           end; subst; congruence.
Qed.

(** the titles of the returned resources are pairwise different *)
Lemma result_titles_nodup (l : list (nat * Pawslib.Segment)) :
  NoDup (map fst l) -> NoDup (map title (flat_map block l)).
Proof.
  intros ND. rewrite result_titles.
  apply nodup_map_inj.
  - intros x y. apply TitleFacts.key_title_inj.
  - apply nodup_flat_map.
    + eapply NoDup_map_inv. exact ND.
    + intros. apply block_keys_nodup.
    + intros p q k Ip Iq Hp Hq.
      apply (nodup_map_in_inj fst l); auto.
      generalize (block_keys_number _ _ _ Hp Hq). lia.
Qed.

Lemma only_subnets l :
  acl_id = None -> rt_id = None ->
  forallb is_subnet (flat_map block l) = true.
Proof.
  intros Ha Hr. induction l as [|[i seg] l IH]; [reflexivity|].
  cbn [flat_map]. rewrite forallb_app, IH.
  unfold block, segment_resources, associations. rewrite Ha, Hr. simpl.
  unfold is_subnet. rewrite subnet_has_type. reflexivity.
Qed.

End Returned.


Lemma nacl_of_associations s a b :
  filter (has_type nacl_association_type) (associations s a b)
  = match a with
    | Some id =>
        [Ec2.SubnetNetworkAclAssociation
           (title s ++ "NaclAssociation") (Ref s) id]
    | None => []
    end.
Proof. destruct a, b; reflexivity. Qed.

Lemma route_of_associations s a b :
  filter (has_type route_association_type) (associations s a b)
  = match b with
    | Some id =>
        [Ec2.SubnetRouteTableAssociation
           (title s ++ "RouteAssociation") (Ref s) id]
    | None => []
    end.
Proof. destruct a, b; reflexivity. Qed.

(** the associations of every subnet of a returned list *)
Lemma associations_of_blocks raw mk a b segs :
  (forall i seg,
      title (mk i seg)
      = PyStr.capitalize (PyStr.lower raw) ++ PyStr.str_of_nat (i + 1)) ->
  (forall i seg, rtype (mk i seg) = subnet_type) ->
  let res := flat_map (segment_resources mk a b) (enumerate 0 segs) in
  NoDup (map title res) /\
  (forall subnet, In subnet res -> is_subnet subnet = true ->
     filter (attached_to nacl_association_type subnet) res
     = match a with
       | Some id =>
           [Ec2.SubnetNetworkAclAssociation
              (title subnet ++ "NaclAssociation") (Ref subnet) id]
       | None => []
       end /\
     filter (attached_to route_association_type subnet) res
     = match b with
       | Some id =>
           [Ec2.SubnetRouteTableAssociation
              (title subnet ++ "RouteAssociation") (Ref subnet) id]
       | None => []
       end) /\
  (a = None -> b = None -> forallb is_subnet res = true).
Proof.
  intros Ht Hy res. split; [|split].
  - apply (result_titles_nodup raw mk Ht). apply enumerate_nodup.
  - intros subnet I Hs.
    destruct (subnets_of_result mk a b subnet _ I Hs)
      as (i & seg & Il & ->).
    unfold res.
    rewrite !(attached_in_result raw mk Ht Hy a b)
      by (auto using enumerate_nodup).
    rewrite nacl_of_associations, route_of_associations. auto.
  - apply (only_subnets mk Hy).
Qed.

(** the subnets of the returned list are the subnets of the segments *)
Lemma subnets_of_segments mk a b (l : list (nat * Pawslib.Segment)) :
  (forall i seg, rtype (mk i seg) = subnet_type) ->
  filter is_subnet (flat_map (segment_resources mk a b) l)
  = map (fun p => mk (fst p) (snd p)) l.
Proof.
  intros Hy. induction l as [|p l IH]; [reflexivity|].
  cbn [flat_map map]. rewrite filter_app, IH.
  unfold segment_resources at 1. cbn [filter].
  unfold is_subnet at 1, has_type. rewrite Hy, String.eqb_refl.
  cbn [app]. f_equal.
  assert (E : filter is_subnet (associations (mk (fst p) (snd p)) a b) = [])
    by (unfold associations; destruct a, b; reflexivity).
  now rewrite E.
Qed.

Lemma subnet_titles_of_segments raw mk a b segs :
  (forall i seg,
      title (mk i seg)
      = PyStr.capitalize (PyStr.lower raw) ++ PyStr.str_of_nat (i + 1)) ->
  (forall i seg, rtype (mk i seg) = subnet_type) ->
  map title
    (filter is_subnet (flat_map (segment_resources mk a b) (enumerate 0 segs)))
  = map (fun i => PyStr.capitalize (PyStr.lower raw)
                  ++ PyStr.str_of_nat (i + 1))
      (seq 0 (length segs)).
Proof.
  intros Ht Hy. rewrite (subnets_of_segments mk a b _ Hy), map_map.
  rewrite <- (enumerate_fst segs 0), map_map.
  apply map_ext. intros p. apply Ht.
Qed.

Lemma filter_by_title (res : list Resource) x :
  NoDup (map title res) -> In x res ->
  filter (fun r => (title r =? title x)%string) res = [x].
Proof.
  induction res as [|y res IH]; intros ND I; [contradiction|].
  cbn [map] in ND. inversion ND as [|? ? N ND']; subst.
  cbn [filter]. destruct I as [->|I].
  - rewrite String.eqb_refl. f_equal.
    clear IH ND ND'. induction res as [|z res IH]; [reflexivity|].
    cbn [filter]. destruct (String.eqb_spec (title z) (title x)) as [E|_].
    + exfalso. apply N. left. exact E.
    + apply IH. intros J. apply N. now right.
  - destruct (String.eqb_spec (title y) (title x)) as [E|_].
    + exfalso. apply N. rewrite E. now apply in_map.
    + now apply IH.
Qed.

Import AssociationViews.

Lemma associations_explicit raw mk a b segs :
  (forall i seg,
      title (mk i seg)
      = PyStr.capitalize (PyStr.lower raw) ++ PyStr.str_of_nat (i + 1)) ->
  (forall i seg, rtype (mk i seg) = subnet_type) ->
  let res := flat_map (segment_resources mk a b) (enumerate 0 segs) in
  forall subnet, In subnet res -> is_subnet subnet = true ->
    one_association res subnet "AWS::EC2::SubnetNetworkAclAssociation"
      "NaclAssociation" "NetworkAclId" a /\
    one_association res subnet "AWS::EC2::SubnetRouteTableAssociation"
      "RouteAssociation" "RouteTableId" b.
Proof.
  intros Ht Hy res subnet I Hs.
  destruct (associations_of_blocks raw mk a b segs Ht Hy) as (ND & H & _).
  destruct (H subnet I Hs) as (Ha & Hb). fold res in ND, Ha, Hb.
  assert (One : forall (x : Resource) t,
             filter (attached_to t subnet) res = [x] -> In x res).
  { intros x t E. assert (J : In x (filter (attached_to t subnet) res))
      by (rewrite E; now left).
    now apply filter_In in J. }
  split.
  - unfold one_association. destruct a as [id|]; [|exact Ha].
    eexists. split; [exact Ha|].
    split; [|repeat split; reflexivity].
    apply (filter_by_title res _ ND (One _ _ Ha)).
  - unfold one_association. destruct b as [id|]; [|exact Hb].
    eexists. split; [exact Hb|].
    split; [|repeat split; reflexivity].
    apply (filter_by_title res _ ND (One _ _ Hb)).
Qed.

End MultiAzFacts.

Example sample_split_ex :
  Sample.split "10.0.0.0/24" "eu-west-1" 4
  = inr [Pawslib.mkSegment "eu-west-1a" "10.0.0.0/26";
         Pawslib.mkSegment "eu-west-1b" "10.0.0.64/26";
         Pawslib.mkSegment "eu-west-1c" "10.0.0.128/26";
         Pawslib.mkSegment "eu-west-1d" "10.0.0.192/26"].
Proof. vm_compute. reflexivity. Qed.

Example ec2_multiaz_ex :
  Ec2.multiaz_subnets Sample.alphanum Sample.split "pub net" "10.0.0.0/24"
    "eu-west-1" (Some Sample.vpc) None 2 None (Some "acl-1") None None
  = Ok [set_Metadata
          (Ec2.Subnet "Pubnet1" "eu-west-1a" "10.0.0.0/25" (ARef "MainVpc")
             "pub net A")
          (mkMeta "eu-west-1a" "A" 1);
        Ec2.SubnetNetworkAclAssociation "Pubnet1NaclAssociation"
          (ARef "Pubnet1") (AStr "acl-1");
        set_Metadata
          (Ec2.Subnet "Pubnet2" "eu-west-1b" "10.0.0.128/25" (ARef "MainVpc")
             "pub net B")
          (mkMeta "eu-west-1b" "B" 2);
        Ec2.SubnetNetworkAclAssociation "Pubnet2NaclAssociation"
          (ARef "Pubnet2") (AStr "acl-1")].
Proof. vm_compute. reflexivity. Qed.

Example init_multiaz_ex :
  Tropolib.multiaz_subnets Sample.alphanum Sample.split "pub net"
    "10.0.0.0/24" "eu-west-1" (Some Sample.vpc) None 2 None None None None
  = Ok [Ec2.Subnet "Pubnet1" "eu-west-1a" "10.0.0.0/25" (ARef "MainVpc")
          "pub net 1(A)";
        Ec2.Subnet "Pubnet2" "eu-west-1b" "10.0.0.128/25" (ARef "MainVpc")
          "pub net 2(B)"].
Proof. vm_compute. reflexivity. Qed.

(** * What [multiaz_subnets] returns and raises *)

Section MultiAzSpec.
Import Views MultiAzFacts.
Variable alphanum : string -> string.
Variable split : string -> string -> Z -> ExtExc + list Pawslib.Segment.

(** C2.  Either definition of [multiaz_subnets] raises its [ValueError]
    exactly when both [vpc] and [vpc_id] are [None].  When one of them is
    given, the only exception that can leave the function is one raised by
    the external splitter, passed on unchanged; and when the splitter returns,
    the function returns a list. *)
Theorem multiaz_subnets_value_error
    name_prefix cidr_block region vpc vpc_id n acl acl_id rt rt_id :
  let ec2 :=
    Ec2.multiaz_subnets alphanum split name_prefix cidr_block region vpc
      vpc_id n acl acl_id rt rt_id in
  let init :=
    Tropolib.multiaz_subnets alphanum split name_prefix cidr_block region vpc
      vpc_id n acl acl_id rt rt_id in
  ((exists msg, ec2 = Raise (ValueError msg)) <-> vpc = None /\ vpc_id = None)
  /\ ((exists msg, init = Raise (ValueError msg))
      <-> vpc = None /\ vpc_id = None)
  /\ (~ (vpc = None /\ vpc_id = None) ->
      match split cidr_block region n with
      | inl e => ec2 = Raise (CalleeError e) /\ init = Raise (CalleeError e)
      | inr _ => (exists l, ec2 = Ok l) /\ (exists l, init = Ok l)
      end).
Proof.
  cbv zeta. unfold Ec2.multiaz_subnets, Tropolib.multiaz_subnets.
  destruct vpc as [v|], vpc_id as [id|]; simpl;
    destruct (split cidr_block region n) as [e|segs]; simpl;
    repeat split; intros;
    repeat match goal with
           | H : exists _, _ |- _ => destruct H
           | H : _ /\ _ |- _ => destruct H
           end;
    try discriminate;
    try (exfalso; match goal with
                  | H : ~ _ |- _ => apply H; split; reflexivity
                  end);
    eauto.
Qed.

Lemma ec2_make_subnet_title prefix name_prefix vid i seg :
  title (Ec2.make_subnet prefix name_prefix vid i seg)
  = prefix ++ PyStr.str_of_nat (i + 1).
Proof. reflexivity. Qed.

Lemma init_make_subnet_title prefix name_prefix vid i seg :
  title (Tropolib.make_subnet prefix name_prefix vid i seg)
  = prefix ++ PyStr.str_of_nat (i + 1).
Proof. reflexivity. Qed.

(** C3.  In the list returned by either definition there is one subnet per
    segment the splitter returned, titled <prefix><number> in order, and no
    two returned resources share a title.  When a network ACL is supplied,
    each returned subnet has exactly one resource of type
    [SubnetNetworkAclAssociation] whose [SubnetId] references it; that
    resource is the only one titled <subnet title>NaclAssociation, its
    [SubnetId] is a [Ref] to the subnet and its [NetworkAclId] is the
    supplied id (the id if given, else a [Ref] to the resource); when none is
    supplied there is no such resource.  The same holds for
    [SubnetRouteTableAssociation], <subnet title>RouteAssociation and
    [RouteTableId] when a route table is supplied; and with neither supplied
    the list holds subnets only. *)
Theorem multiaz_subnets_associations
    name_prefix cidr_block region vpc vpc_id n acl acl_id rt rt_id res :
  Ec2.multiaz_subnets alphanum split name_prefix cidr_block region vpc vpc_id
    n acl acl_id rt rt_id = Ok res
  \/ Tropolib.multiaz_subnets alphanum split name_prefix cidr_block region vpc
       vpc_id n acl acl_id rt rt_id = Ok res ->
  let given (object : option Resource) (id : option string) :=
    match id, object with
    | Some s, _ => Some (AStr s)
    | None, Some r => Some (ARef (title r))
    | None, None => None
    end in
  NoDup (map title res) /\
  (exists segs,
     split cidr_block region n = inr segs /\
     map title (filter is_subnet res)
     = map (fun i =>
              PyStr.capitalize (PyStr.lower (alphanum name_prefix))
              ++ PyStr.str_of_nat (i + 1))
         (seq 0 (length segs))) /\
  (forall subnet, In subnet res -> is_subnet subnet = true ->
     match given acl acl_id with
     | Some id =>
         exists x,
           filter (attached_to "AWS::EC2::SubnetNetworkAclAssociation" subnet)
             res = [x] /\
           filter (fun r => (title r =? title subnet ++ "NaclAssociation")
                            %string) res = [x] /\
           rtype x = "AWS::EC2::SubnetNetworkAclAssociation" /\
           title x = title subnet ++ "NaclAssociation" /\
           prop x "SubnetId" = Some (VAtom (ARef (title subnet))) /\
           prop x "NetworkAclId" = Some (VAtom id)
     | None =>
         filter (attached_to "AWS::EC2::SubnetNetworkAclAssociation" subnet)
           res = []
     end /\
     match given rt rt_id with
     | Some id =>
         exists x,
           filter (attached_to "AWS::EC2::SubnetRouteTableAssociation" subnet)
             res = [x] /\
           filter (fun r => (title r =? title subnet ++ "RouteAssociation")
                            %string) res = [x] /\
           rtype x = "AWS::EC2::SubnetRouteTableAssociation" /\
           title x = title subnet ++ "RouteAssociation" /\
           prop x "SubnetId" = Some (VAtom (ARef (title subnet))) /\
           prop x "RouteTableId" = Some (VAtom id)
     | None =>
         filter (attached_to "AWS::EC2::SubnetRouteTableAssociation" subnet)
           res = []
     end) /\
  (given acl acl_id = None -> given rt rt_id = None ->
   forallb is_subnet res = true).
Proof.
  intros H. cbv beta zeta.
  assert (G : forall (object : option Resource) (id : option string),
             match id, object with
             | Some s, _ => Some (AStr s)
             | None, Some r => Some (ARef (title r))
             | None, None => None
             end = supplied object id)
    by (intros [r|] [s|]; reflexivity).
  rewrite !G.
  destruct H as [H|H].
  - apply ec2_result in H. destruct H as (vid & segs & _ & Hs & ->).
    pose proof (associations_of_blocks (alphanum name_prefix)
                  (Ec2.make_subnet (title_prefix alphanum name_prefix)
                     name_prefix vid)
                  (supplied acl acl_id) (supplied rt rt_id) segs
                  (fun i seg => eq_refl) (fun i seg => eq_refl))
      as (ND & _ & Only).
    split; [exact ND|]. split; [|split; [|exact Only]].
    + exists segs. split; [exact Hs|].
      now apply (subnet_titles_of_segments (alphanum name_prefix)).
    + intros subnet I S.
      exact (associations_explicit (alphanum name_prefix)
               (Ec2.make_subnet (title_prefix alphanum name_prefix)
                  name_prefix vid)
               _ _ segs (fun i seg => eq_refl) (fun i seg => eq_refl)
               subnet I S).
  - apply init_result in H. destruct H as (vid & segs & _ & Hs & ->).
    pose proof (associations_of_blocks (alphanum name_prefix)
                  (Tropolib.make_subnet (title_prefix alphanum name_prefix)
                     name_prefix vid)
                  (supplied acl acl_id) (supplied rt rt_id) segs
                  (fun i seg => eq_refl) (fun i seg => eq_refl))
      as (ND & _ & Only).
    split; [exact ND|]. split; [|split; [|exact Only]].
    + exists segs. split; [exact Hs|].
      now apply (subnet_titles_of_segments (alphanum name_prefix)).
    + intros subnet I S.
      exact (associations_explicit (alphanum name_prefix)
               (Tropolib.make_subnet (title_prefix alphanum name_prefix)
                  name_prefix vid)
               _ _ segs (fun i seg => eq_refl) (fun i seg => eq_refl)
               subnet I S).
Qed.

Lemma forall2_flat_map {A B C} (R : B -> C -> Prop) (f : A -> list B)
    (g : A -> list C) l :
  (forall x, In x l -> Forall2 R (f x) (g x)) ->
  Forall2 R (flat_map f l) (flat_map g l).
Proof.
  induction l as [|x l IH]; simpl; intros H; [constructor|].
  apply Forall2_app; auto.
Qed.

Lemma forall2_refl {A} (R : A -> A -> Prop) l :
  (forall x, In x l -> R x x) -> Forall2 R l l.
Proof.
  induction l as [|x l IH]; simpl; intros H; constructor; auto.
Qed.

(** the two [Name] tags of a subnet are never the same string *)
Lemma name_tags_differ name_prefix i seg :
  name_prefix ++ " " ++ PyStr.str_of_nat (i + 1)
    ++ "(" ++ zone_letter seg ++ ")"
  <> name_prefix ++ " " ++ zone_letter seg.
Proof.
  intros H. apply PyStrFacts.append_inv_head in H.
  injection H as H. apply (f_equal String.length) in H.
  rewrite !PyStrFacts.length_append in H. simpl in H.
  rewrite PyStrFacts.length_append in H. simpl in H. lia.
Qed.

(** C8.  On an input where both definitions of [multiaz_subnets] return, the
    two lists have the same length and, position by position, the same titles
    and resource types; the subnets agree on [AvailabilityZone], [CidrBlock]
    and [VpcId], differ in their [Name] tag, and carry [Metadata] only in
    [src/ec2.py]; the associations are identical. *)
Theorem multiaz_subnets_definitions_agree
    name_prefix cidr_block region vpc vpc_id n acl acl_id rt rt_id
    l_init l_ec2 :
  Tropolib.multiaz_subnets alphanum split name_prefix cidr_block region vpc
    vpc_id n acl acl_id rt rt_id = Ok l_init ->
  Ec2.multiaz_subnets alphanum split name_prefix cidr_block region vpc vpc_id
    n acl acl_id rt rt_id = Ok l_ec2 ->
  length l_init = length l_ec2 /\ Forall2 agree l_init l_ec2.
Proof.
  intros H1 H2.
  apply init_result in H1. destruct H1 as (vid & segs & Hv & Hs & ->).
  apply ec2_result in H2. destruct H2 as (vid' & segs' & Hv' & Hs' & ->).
  rewrite Hv in Hv'. injection Hv' as <-.
  rewrite Hs in Hs'. injection Hs' as <-.
  assert (F : Forall2 agree
                (flat_map
                   (segment_resources
                      (Tropolib.make_subnet (title_prefix alphanum name_prefix)
                         name_prefix vid)
                      (supplied acl acl_id) (supplied rt rt_id))
                   (enumerate 0 segs))
                (flat_map
                   (segment_resources
                      (Ec2.make_subnet (title_prefix alphanum name_prefix)
                         name_prefix vid)
                      (supplied acl acl_id) (supplied rt rt_id))
                   (enumerate 0 segs))).
  { apply forall2_flat_map. intros [i seg] _.
    unfold segment_resources. cbn [fst snd]. constructor.
    - unfold agree. simpl. repeat split; try reflexivity; try discriminate.
      intros E. injection E as E. revert E. apply name_tags_differ.
    - change (associations
                (Ec2.make_subnet (title_prefix alphanum name_prefix)
                   name_prefix vid i seg))
        with (associations
                (Tropolib.make_subnet (title_prefix alphanum name_prefix)
                   name_prefix vid i seg)).
      apply forall2_refl. intros x I. unfold agree.
      assert (Hx : is_subnet x = false).
      { unfold associations in I.
        destruct (supplied acl acl_id), (supplied rt rt_id); simpl in I;
          repeat match goal with
                 | H : _ \/ _ |- _ => destruct H
                 | H : False |- _ => contradiction
                 end; subst; reflexivity. }
      rewrite Hx. auto. }
  split; [eapply Forall2_length; exact F | exact F].
Qed.

End MultiAzSpec.

(** C3 at a call with a network ACL id and a route table resource *)
Lemma multiaz_subnets_associations_witness :
  exists res,
    Ec2.multiaz_subnets Sample.alphanum Sample.split "pub net" "10.0.0.0/24"
      "eu-west-1" (Some Sample.vpc) None 2 (Some Sample.nacl) (Some "acl-1")
      (Some Sample.route_table) None = Ok res /\
    length res = 6 /\
    NoDup (map title res) /\
    forall subnet, In subnet res -> Views.is_subnet subnet = true ->
      (exists x,
         filter (Views.attached_to "AWS::EC2::SubnetNetworkAclAssociation"
                   subnet) res = [x] /\
         filter (fun r => (title r =? title subnet ++ "NaclAssociation")
                          %string) res = [x] /\
         rtype x = "AWS::EC2::SubnetNetworkAclAssociation" /\
         title x = title subnet ++ "NaclAssociation" /\
         prop x "SubnetId" = Some (VAtom (ARef (title subnet))) /\
         prop x "NetworkAclId" = Some (VAtom (AStr "acl-1"))) /\
      (exists x,
         filter (Views.attached_to "AWS::EC2::SubnetRouteTableAssociation"
                   subnet) res = [x] /\
         filter (fun r => (title r =? title subnet ++ "RouteAssociation")
                          %string) res = [x] /\
         rtype x = "AWS::EC2::SubnetRouteTableAssociation" /\
         title x = title subnet ++ "RouteAssociation" /\
         prop x "SubnetId" = Some (VAtom (ARef (title subnet))) /\
         prop x "RouteTableId" = Some (VAtom (ARef "Routes"))).
Proof.
  eexists. split; [vm_compute; reflexivity|]. split; [reflexivity|].
  pose proof (multiaz_subnets_associations Sample.alphanum Sample.split
                "pub net" "10.0.0.0/24" "eu-west-1" (Some Sample.vpc) None 2
                (Some Sample.nacl) (Some "acl-1") (Some Sample.route_table)
                None _ (or_introl eq_refl)) as T.
  cbv beta zeta in T. destruct T as (ND & _ & H & _).
  split; [exact ND | exact H].
Defined.

(** C8 at a call with a network ACL *)
Lemma multiaz_subnets_definitions_agree_witness :
  exists l_init l_ec2,
    Tropolib.multiaz_subnets Sample.alphanum Sample.split "pub net"
      "10.0.0.0/24" "eu-west-1" (Some Sample.vpc) None 2 (Some Sample.nacl)
      None None None = Ok l_init /\
    Ec2.multiaz_subnets Sample.alphanum Sample.split "pub net" "10.0.0.0/24"
      "eu-west-1" (Some Sample.vpc) None 2 (Some Sample.nacl) None None None
    = Ok l_ec2 /\
    length l_init = 4 /\
    length l_init = length l_ec2 /\ Forall2 Views.agree l_init l_ec2.
Proof.
  eexists. eexists.
  split; [vm_compute; reflexivity|].
  split; [vm_compute; reflexivity|].
  split; [reflexivity|].
  apply (multiaz_subnets_definitions_agree Sample.alphanum Sample.split
           "pub net" "10.0.0.0/24" "eu-west-1" (Some Sample.vpc) None 2
           (Some Sample.nacl) None None None);
    vm_compute; reflexivity.
Defined.

(** * [HttpApi] *)

Module HttpApiFacts.
Import ApiGatewayV2 PyStr.

Lemma str_in_spec x l : str_in x l = true <-> In x l.
Proof.
  unfold str_in. rewrite existsb_exists. split.
  - intros (y & I & E). apply String.eqb_eq in E. now subst.
  - intros I. exists x. split; [assumption | apply String.eqb_refl].
Qed.

Lemma prefix_spec n h : prefix n h = true <-> exists post, h = n ++ post.
Proof.
  revert h. induction n as [|c n IH]; intros h.
  - split; [intros _; exists h; reflexivity | intros _; destruct h; reflexivity].
  - destruct h as [|c' h]; simpl.
    + split; [discriminate | intros [post H]; discriminate H].
    + destruct (ascii_dec c c') as [->|N].
      * rewrite IH. split; intros [post H]; exists post;
          [now rewrite H | now injection H].
      * split; [discriminate | intros [post H]; injection H; congruence].
Qed.

(** [contains] decides the substring test [needle in hay] *)
Lemma contains_spec n h : contains n h = true <-> substring_of n h.
Proof.
  unfold substring_of. induction h as [|c h IH].
  - cbn [contains]. rewrite prefix_spec. split.
    + intros [post H]. exists EmptyString, post. exact H.
    + intros (pre & post & H). destruct pre; [eauto | discriminate H].
  - cbn [contains]. rewrite orb_true_iff, IH, prefix_spec. split.
    + intros [[post H] | (pre & post & H)].
      * exists EmptyString, post. exact H.
      * exists (String c pre), post. simpl. now rewrite H.
    + intros (pre & post & H). destruct pre as [|c' pre].
      * left. exists post. exact H.
      * right. simpl in H. injection H as _ H. eauto.
Qed.

Lemma key_eqb_spec a b : key_eqb a b = true <-> a = b.
Proof.
  destruct a as [x|x], b as [y|y]; simpl;
    try (split; [discriminate | intros H; discriminate H]).
  - rewrite String.eqb_eq. split; congruence.
  - unfold Resource_eqb. destruct (Resource_eq_dec x y);
      split; congruence.
Qed.

Lemma in_set (d : list (Key * Resource)) k v k' v' :
  In (k', v') (Dict.set key_eqb d k v) ->
  In (k', v') d \/ (k' = k /\ v' = v).
Proof.
  induction d as [|[k0 v0] d IH]; simpl.
  - intros [E|[]]. injection E as <- <-. auto.
  - destruct (key_eqb k k0) eqn:E; simpl.
    + apply key_eqb_spec in E. subst k0.
      intros [H|H]; [injection H as <- <-|]; auto.
    + intros [H|H]; auto. apply IH in H. tauto.
Qed.

Lemma get_none (d : list (Key * Resource)) k :
  (forall v, ~ In (k, v) d) -> Dict.get key_eqb d k = None.
Proof.
  induction d as [|[k0 v0] d IH]; simpl; intros H; [reflexivity|].
  destruct (key_eqb k k0) eqn:E.
  - apply key_eqb_spec in E. subst. exfalso. apply (H v0). now left.
  - apply IH. intros v I. apply (H v). now right.
Qed.

Section Invariant.
Variable alphanum : string -> string.

Lemma add_stage_state name auto_deploy log_format self :
  snd (add_stage alphanum name auto_deploy log_format self) = self.
Proof.
  unfold add_stage. destruct (log_format_ok log_format); reflexivity.
Qed.

Lemma add_stage_outcome name auto_deploy log_format self :
  fst (add_stage alphanum name auto_deploy log_format self)
  = if log_format_ok log_format then Ok tt
    else Raise (ValueError (log_format ++ " is not a valid log format")).
Proof.
  unfold add_stage. destruct (log_format_ok log_format); reflexivity.
Qed.

Lemma add_route_state path target m timeout d self :
  snd (add_route alphanum path target m timeout d self)
  = if str_in (upper m) http_methods then
      let i := integration alphanum self path target m timeout d in
      let r := route alphanum self i path m d in
      with_resources self
        (Dict.set key_eqb
           (Dict.set key_eqb (resources self) (KStr (title i)) i)
           (KObj r) r)
    else self.
Proof.
  unfold add_route, add_route_upper.
  destruct (str_in (upper m) http_methods); reflexivity.
Qed.

Lemma add_route_outcome path target m timeout d self :
  fst (add_route alphanum path target m timeout d self)
  = if str_in (upper m) http_methods then Ok tt
    else Raise (ValueError (m ++ " is not a valid HTTP METHOD")).
Proof.
  unfold add_route, add_route_upper.
  destruct (str_in (upper m) http_methods); reflexivity.
Qed.

(** the same for any [upper] *)
Lemma add_route_upper_state up path target m timeout d self :
  snd (add_route_upper alphanum up path target m timeout d self)
  = if str_in (up m) http_methods then
      let i := integration alphanum self path target m timeout d in
      let r := route alphanum self i path m d in
      with_resources self
        (Dict.set key_eqb
           (Dict.set key_eqb (resources self) (KStr (title i)) i)
           (KObj r) r)
    else self.
Proof.
  unfold add_route_upper. destruct (str_in (up m) http_methods); reflexivity.
Qed.

Lemma add_route_upper_outcome up path target m timeout d self :
  fst (add_route_upper alphanum up path target m timeout d self)
  = if str_in (up m) http_methods then Ok tt
    else Raise (ValueError (m ++ " is not a valid HTTP METHOD")).
Proof.
  unfold add_route_upper. destruct (str_in (up m) http_methods); reflexivity.
Qed.

Lemma integration_title self path target m timeout d :
  title (integration alphanum self path target m timeout d)
  = alphanum path ++ "Integration".
Proof.
  unfold integration, set_opt.
  destruct d; destruct (_ || _); reflexivity.
Qed.

Lemma integration_type self path target m timeout d :
  rtype (integration alphanum self path target m timeout d)
  = "AWS::ApiGatewayV2::Integration".
Proof.
  unfold integration, set_opt.
  destruct d; destruct (_ || _); reflexivity.
Qed.

Lemma route_title self i path m d :
  title (route alphanum self i path m d) = alphanum path ++ "Route".
Proof. unfold route, set_opt. destruct d; reflexivity. Qed.

Lemma route_type self i path m d :
  rtype (route alphanum self i path m d) = "AWS::ApiGatewayV2::Route".
Proof. unfold route, set_opt. destruct d; reflexivity. Qed.

Lemma reachable_ok self : reachable alphanum self -> resources_ok self.
Proof.
  induction 1 as [name description | self name a l R IH
                 | self path target m timeout d R IH].
  - intros k v. unfold init. simpl. intros [E|[]]. injection E as <- <-.
    split.
    + destruct description; discriminate.
    + left. exists (alphanum name). destruct description; reflexivity.
  - now rewrite add_stage_state.
  - rewrite add_route_state.
    destruct (str_in (upper m) http_methods); [|assumption].
    intros k v I. cbn [resources with_resources] in I.
    apply in_set in I. destruct I as [I | [-> ->]].
    + apply in_set in I. destruct I as [I | [-> ->]]; [now apply IH|].
      rewrite integration_type, integration_title. split; [discriminate|].
      right. now exists (alphanum path).
    + rewrite route_type. split; discriminate.
Qed.

End Invariant.
End HttpApiFacts.

(** * What the methods of [HttpApi] do *)

Section HttpApiSpec.
Import ApiGatewayV2 HttpApiFacts.
Variable alphanum : string -> string.

(** C6.  Whatever Python's [str.upper] computes, [add_route] raises
    [ValueError] exactly when the upper-cased [http_method] is not one of
    ANY, GET, POST, PUT, PATCH, HEAD, DELETE, OPTIONS; it raises nothing else,
    and an [HttpApi] on which it raises is left as it was, its [resources]
    included.  On a method name that [str.upper] maps as the ASCII table
    does, the call is the one of [add_route]. *)
Theorem add_route_value_error (upper : string -> string)
    path target http_method timeout description self :
  let r := add_route_upper alphanum upper path target http_method timeout
             description self in
  ((exists msg, fst r = Raise (ValueError msg))
   <-> ~ In (upper http_method)
           ["ANY"; "GET"; "POST"; "PUT"; "PATCH"; "HEAD"; "DELETE"; "OPTIONS"])
  /\ (forall e, fst r = Raise e ->
       e = ValueError (http_method ++ " is not a valid HTTP METHOD")
       /\ snd r = self
       /\ resources (snd r) = resources self)
  /\ (upper http_method = PyStr.upper http_method ->
      r = add_route alphanum path target http_method timeout description
            self).
Proof.
  cbv zeta. rewrite add_route_upper_outcome, add_route_upper_state.
  change ["ANY"; "GET"; "POST"; "PUT"; "PATCH"; "HEAD"; "DELETE"; "OPTIONS"]
    with http_methods.
  split; [|split].
  - destruct (PyStr.str_in (upper http_method) http_methods) eqn:E.
    + apply str_in_spec in E. split.
      * intros [msg H]. discriminate H.
      * intros N. contradiction.
    + split.
      * intros _ I. apply str_in_spec in I. congruence.
      * eauto.
  - destruct (PyStr.str_in (upper http_method) http_methods);
      intros e H; [discriminate H|]. injection H as <-. auto.
  - intros E. unfold add_route, add_route_upper. now rewrite E.
Qed.

(** C7.  [add_stage] raises [ValueError] exactly when the lower-cased
    [log_format] is not one of none, clf, json, xml, csv and [log_format]
    does not contain [$context.requestId]; it raises nothing else. *)
Theorem add_stage_value_error name auto_deploy log_format self :
  let r := add_stage alphanum name auto_deploy log_format self in
  ((exists msg, fst r = Raise (ValueError msg))
   <-> ~ In (PyStr.lower log_format) ["none"; "clf"; "json"; "xml"; "csv"]
       /\ ~ substring_of "$context.requestId" log_format)
  /\ (forall e, fst r = Raise e ->
       e = ValueError (log_format ++ " is not a valid log format")).
Proof.
  cbv zeta. rewrite add_stage_outcome. unfold log_format_ok.
  change ["none"; "clf"; "json"; "xml"; "csv"] with log_formats.
  destruct (PyStr.str_in (PyStr.lower log_format) log_formats) eqn:E1;
    [|destruct (PyStr.contains "$context.requestId" log_format) eqn:E2].
  - apply str_in_spec in E1. split; [split|].
    + intros [msg H]. discriminate H.
    + intros [N _]. contradiction.
    + intros e H. discriminate H.
  - apply contains_spec in E2. split; [split|].
    + intros [msg H]. discriminate H.
    + intros [_ N]. contradiction.
    + intros e H. discriminate H.
  - split; [split|].
    + intros _. split.
      * intros I. apply str_in_spec in I. congruence.
      * intros I. apply contains_spec in I. congruence.
    + eauto.
    + intros e H. injection H as <-. reflexivity.
Qed.

(** C9.  A call of [add_stage] that is accepted leaves the [HttpApi] as it
    was, its [resources] included; and on an [HttpApi] built by [__init__]
    and the two methods, neither a key nor a value of [resources] is a
    [Stage]. *)
Theorem add_stage_frame name auto_deploy log_format self :
  fst (add_stage alphanum name auto_deploy log_format self) = Ok tt ->
  let self' := snd (add_stage alphanum name auto_deploy log_format self) in
  self' = self /\
  resources self' = resources self /\
  rtype (fst (stage_objects alphanum self name auto_deploy log_format))
  = stage_type /\
  (reachable alphanum self ->
   forall k v, In (k, v) (resources self') ->
     rtype v <> stage_type /\
     forall r, k = KObj r -> rtype r <> stage_type).
Proof.
  intros _. cbv zeta. rewrite add_stage_state.
  repeat split; try reflexivity.
  - apply (reachable_ok alphanum self H k v H0).
  - intros r ->. apply (reachable_ok alphanum self H _ v H0).
Qed.

(** C10, as the code has it.  After a successful [add_route] on an [HttpApi]
    built by [__init__] and the two methods, the integration is stored under
    its title <alphanum(path)>Integration, the route under the route object
    itself, and nothing under the route's title <alphanum(path)>Route; every
    other key keeps its entry; and the mapping grows by one entry for each of
    the two keys that was not present before. *)
Theorem add_route_entries path target http_method timeout description self :
  reachable alphanum self ->
  fst (add_route alphanum path target http_method timeout description self)
  = Ok tt ->
  let self' :=
    snd (add_route alphanum path target http_method timeout description self)
  in
  let i := integration alphanum self path target http_method timeout
             description in
  let r := route alphanum self i path http_method description in
  title i = alphanum path ++ "Integration" /\
  title r = alphanum path ++ "Route" /\
  Dict.get key_eqb (resources self') (KStr (title i)) = Some i /\
  Dict.get key_eqb (resources self') (KObj r) = Some r /\
  Dict.get key_eqb (resources self') (KStr (title r)) = None /\
  (forall k, k <> KStr (title i) -> k <> KObj r ->
     Dict.get key_eqb (resources self') k
     = Dict.get key_eqb (resources self) k) /\
  length (resources self')
  = length (resources self)
    + (if Dict.mem key_eqb (resources self) (KStr (title i)) then 0 else 1)
    + (if Dict.mem key_eqb (resources self) (KObj r) then 0 else 1).
Proof.
  intros R H. cbv zeta.
  rewrite add_route_outcome in H. rewrite add_route_state.
  destruct (PyStr.str_in (PyStr.upper http_method) http_methods);
    [clear H | discriminate H].
  cbv zeta. cbn [resources with_resources].
  set (i := integration alphanum self path target http_method timeout
              description).
  set (r := route alphanum self i path http_method description).
  assert (Ti : title i = alphanum path ++ "Integration")
    by apply integration_title.
  assert (Tr : title r = alphanum path ++ "Route") by apply route_title.
  assert (Nk : KStr (title i) <> KObj r) by discriminate.
  repeat split; auto.
  - rewrite (DictFacts.get_set_other key_eqb key_eqb_spec)
      by (intros E; discriminate E).
    apply (DictFacts.get_set_same key_eqb key_eqb_spec).
  - apply (DictFacts.get_set_same key_eqb key_eqb_spec).
  - apply get_none. intros v I.
    apply in_set in I. destruct I as [I | [E _]]; [|discriminate E].
    apply in_set in I. destruct I as [I | [E _]].
    + apply (reachable_ok alphanum self R) in I.
      destruct I as [_ [[x E]|[x E]]];
        rewrite Tr in E; revert E;
        apply TitleFacts.suffix_clash_neq; reflexivity.
    + assert (E' : title r = title i) by congruence.
      rewrite Tr, Ti in E'. revert E'.
      apply TitleFacts.suffix_clash_neq. reflexivity.
  - intros k N1 N2.
    rewrite !(DictFacts.get_set_other key_eqb key_eqb_spec) by congruence.
    reflexivity.
  - rewrite !(DictFacts.length_set key_eqb).
    rewrite (DictFacts.mem_set_other key_eqb key_eqb_spec) by assumption.
    lia.
Qed.

End HttpApiSpec.

Example add_route_ex :
  map fst (ApiGatewayV2.resources Sample.api_with_route)
  = [ApiGatewayV2.KStr "myapiHTTPApi";
     ApiGatewayV2.KStr "usersIntegration";
     ApiGatewayV2.KObj
       (new "AWS::ApiGatewayV2::Route" "usersRoute"
          [("ApiId", VAtom (ARef "myapiHTTPApi"));
           ("RouteKey", VAtom (AStr "GET /users"));
           ("Target",
            VJoin "/" [AStr "integrations"; ARef "usersIntegration"])])].
Proof. vm_compute. reflexivity. Qed.

Example add_route_integration_ex :
  Dict.get ApiGatewayV2.key_eqb (ApiGatewayV2.resources Sample.api_with_route)
    (ApiGatewayV2.KStr "usersIntegration")
  = Some (new "AWS::ApiGatewayV2::Integration" "usersIntegration"
            [("ApiId", VAtom (ARef "myapiHTTPApi"));
             ("IntegrationMethod", VAtom (AStr "GET"));
             ("IntegrationUri", VAtom (AStr "https://example.org/users"));
             ("IntegrationType", VAtom (AStr "HTTP_PROXY"));
             ("PayloadFormatVersion", VAtom (AStr "1.0"));
             ("TimeoutInMillis", VAtom (AInt 10000))]).
Proof. vm_compute. reflexivity. Qed.

Example add_route_rejects_ex :
  ApiGatewayV2.add_route Sample.alphanum "users" "arn:aws:lambda:f" "FETCH"
    10000 None Sample.api
  = (Raise (ValueError "FETCH is not a valid HTTP METHOD"), Sample.api).
Proof. vm_compute. reflexivity. Qed.

Example add_stage_accepts_ex :
  ApiGatewayV2.add_stage Sample.alphanum "prod" true
    "$context.requestId $context.status" Sample.api
  = (Ok tt, Sample.api).
Proof. vm_compute. reflexivity. Qed.

Example add_stage_rejects_ex :
  fst (ApiGatewayV2.add_stage Sample.alphanum "prod" true "yaml" Sample.api)
  = Raise (ValueError "yaml is not a valid log format").
Proof. vm_compute. reflexivity. Qed.

(** C9 at an accepted call *)
Lemma add_stage_frame_witness :
  fst (ApiGatewayV2.add_stage Sample.alphanum "prod" true "JSON" Sample.api)
  = Ok tt /\
  snd (ApiGatewayV2.add_stage Sample.alphanum "prod" true "JSON" Sample.api)
  = Sample.api.
Proof.
  split; [reflexivity|].
  exact (proj1 (add_stage_frame Sample.alphanum "prod" true "JSON" Sample.api
                  eq_refl)).
Defined.

(** C10 at the first route of an API *)
Lemma add_route_entries_witness :
  ApiGatewayV2.reachable Sample.alphanum Sample.api /\
  fst (ApiGatewayV2.add_route Sample.alphanum "users"
         "https://example.org/users" "GET" 10000 None Sample.api) = Ok tt /\
  Dict.get ApiGatewayV2.key_eqb
    (ApiGatewayV2.resources Sample.api_with_route)
    (ApiGatewayV2.KStr "usersRoute") = None /\
  length (ApiGatewayV2.resources Sample.api_with_route)
  = length (ApiGatewayV2.resources Sample.api) + 2.
Proof.
  split; [apply ApiGatewayV2.reach_init|]. split; [reflexivity|].
  pose proof (add_route_entries Sample.alphanum "users"
                "https://example.org/users" "GET" 10000 None Sample.api
                (ApiGatewayV2.reach_init Sample.alphanum "my api" None)
                eq_refl) as H.
  cbv zeta in H. destruct H as (_ & _ & _ & _ & H & _ & L).
  split; [exact H | exact L].
Defined.

(** C10 as stated fails when a path is routed a second time: the integration
    replaces the one stored under the same title and the mapping grows by one
    entry, not two. *)
Lemma add_route_two_entries_counterexample :
  ApiGatewayV2.reachable Sample.alphanum Sample.api_with_route /\
  fst (ApiGatewayV2.add_route Sample.alphanum "users"
         "https://example.org/users" "POST" 10000 None Sample.api_with_route)
  = Ok tt /\
  length (ApiGatewayV2.resources Sample.api_with_route) = 3 /\
  length (ApiGatewayV2.resources
            (snd (ApiGatewayV2.add_route Sample.alphanum "users"
                    "https://example.org/users" "POST" 10000 None
                    Sample.api_with_route))) = 4.
Proof.
  split; [apply ApiGatewayV2.reach_route, ApiGatewayV2.reach_init|].
  repeat split; vm_compute; reflexivity.
Qed.

(** * The splitter's contract *)

Module PawslibFacts.
Import Pawslib.
Local Open Scope Z_scope.

Lemma power_of_two_spec n :
  is_power_of_two n = true -> 0 < n /\ n = 2 ^ Z.log2 n /\ 0 <= Z.log2 n.
Proof.
  unfold is_power_of_two. intros H. apply andb_prop in H.
  destruct H as [H1 H2]. apply Z.ltb_lt in H1. apply Z.eqb_eq in H2.
  auto using Z.log2_nonneg.
Qed.

(** what the two guards leave: the count fits the block and the zones *)
Lemma fits_log2 base n :
  0 <= prefixlen base <= 32 -> is_power_of_two n = true ->
  n <= block_size base -> Z.log2 n <= 32 - prefixlen base.
Proof.
  intros Hp Hn Hle. unfold block_size in Hle.
  apply power_of_two_spec in Hn. destruct Hn as (Hpos & _ & _).
  rewrite <- (Z.log2_pow2 (32 - prefixlen base)) by lia.
  now apply Z.log2_le_mono.
Qed.

Lemma sub_block_size base n :
  0 <= prefixlen base <= 32 -> is_power_of_two n = true ->
  n <= block_size base ->
  forall i, block_size (sub_block base n i) * n = block_size base.
Proof.
  intros Hp Hn Hle i.
  pose proof (fits_log2 base n Hp Hn Hle) as Hk.
  apply power_of_two_spec in Hn. destruct Hn as (Hpos & Hn & Hk0).
  unfold block_size, sub_block. cbn [prefixlen].
  rewrite Hn at 2. rewrite <- Z.pow_add_r by lia. f_equal. lia.
Qed.

Lemma sub_block_size_pos base n i :
  0 <= prefixlen base <= 32 -> is_power_of_two n = true ->
  n <= block_size base -> 0 < block_size (sub_block base n i).
Proof.
  intros Hp Hn Hle. pose proof (fits_log2 base n Hp Hn Hle).
  apply power_of_two_spec in Hn.
  unfold block_size, sub_block. cbn [prefixlen].
  apply Z.pow_pos_nonneg; lia.
Qed.

Lemma sub_block_size_eq base n i :
  block_size (sub_block base n i) = 2 ^ (32 - (prefixlen base + Z.log2 n)).
Proof. reflexivity. Qed.

Lemma sub_block_addr base n i :
  addr (sub_block base n i)
  = addr base + Z.of_nat i * block_size (sub_block base n i).
Proof. reflexivity. Qed.

Lemma sub_block_well_formed base n i :
  well_formed base -> is_power_of_two n = true -> n <= block_size base ->
  Z.of_nat i < n -> well_formed (sub_block base n i).
Proof.
  intros (Hp & Ha & Hb & Hm) Hn Hle Hi.
  pose proof (fits_log2 base n Hp Hn Hle) as Hk.
  pose proof (sub_block_size base n Hp Hn Hle i) as Hs.
  pose proof (sub_block_size_pos base n i Hp Hn Hle) as Hpos.
  pose proof (power_of_two_spec n Hn) as (Hn0 & _ & Hk0).
  unfold well_formed. rewrite sub_block_addr.
  set (s := block_size (sub_block base n i)) in *.
  repeat split.
  - cbn. lia.
  - cbn. lia.
  - nia.
  - nia.
  - apply Z.mod_divide in Hm; [|lia]. destruct Hm as [q Hq].
    apply Z.mod_divide; [lia|].
    exists (q * n + Z.of_nat i). rewrite Hq, <- Hs. ring.
Qed.

Lemma nth_error_map_seq {A} (f : nat -> A) m i b :
  nth_error (map f (seq 0 m)) i = Some b -> (i < m)%nat /\ b = f i.
Proof.
  intros H.
  assert (L : (i < m)%nat).
  { rewrite <- (length_seq m 0%nat), <- (length_map f).
    apply nth_error_Some. congruence. }
  split; [assumption|].
  rewrite nth_error_map, nth_error_seq in H.
  destruct (Nat.ltb_spec i m); [|lia]. simpl in H. congruence.
Qed.

Lemma covers_split base n a :
  well_formed base -> is_power_of_two n = true -> n <= block_size base ->
  covers base a <->
  exists i, (i < Z.to_nat n)%nat /\ covers (sub_block base n i) a.
Proof.
  intros W Hn Hle. pose proof W as (Hp & Ha & Hb & Hm).
  pose proof (sub_block_size base n Hp Hn Hle 0) as Hs.
  pose proof (sub_block_size_pos base n 0 Hp Hn Hle) as Hpos.
  pose proof (power_of_two_spec n Hn) as (Hn0 & _ & _).
  unfold covers. rewrite sub_block_size_eq in Hs, Hpos.
  set (s := 2 ^ (32 - (prefixlen base + Z.log2 n))) in *.
  split.
  - intros Hc. exists (Z.to_nat ((a - addr base) / s)).
    assert (Hq : 0 <= (a - addr base) / s < n).
    { split; [apply Z.div_pos; lia|].
      apply Z.div_lt_upper_bound; [lia|]. nia. }
    split; [lia|].
    rewrite sub_block_addr, sub_block_size_eq, Z2Nat.id by lia.
    fold s.
    pose proof (Z.mul_div_le (a - addr base) _ Hpos).
    pose proof (Z.mul_succ_div_gt (a - addr base) _ Hpos).
    lia.
  - intros (i & Hi & Hc). rewrite sub_block_addr, sub_block_size_eq in Hc.
    fold s in Hc.
    assert (Z.of_nat i < n) by lia. nia.
Qed.

Lemma covers_disjoint base n i j a :
  0 <= prefixlen base <= 32 -> is_power_of_two n = true ->
  n <= block_size base ->
  covers (sub_block base n i) a -> covers (sub_block base n j) a -> i = j.
Proof.
  intros Hp Hn Hle. unfold covers.
  pose proof (sub_block_size_pos base n 0 Hp Hn Hle) as Hpos.
  rewrite !sub_block_addr, !sub_block_size_eq. rewrite sub_block_size_eq in Hpos.
  set (s := 2 ^ (32 - (prefixlen base + Z.log2 n))) in *.
  intros Hi Hj.
  destruct (Nat.lt_trichotomy i j) as [L|[E|L]]; [|assumption|]; nia.
Qed.

End PawslibFacts.

Section SplitterSpec.
Import Pawslib PawslibFacts.
Local Open Scope Z_scope.

(** C1.  For a well-formed base block, the zones of a region and a subnet
    count that is a power of two, the splitter (a function of its arguments)
    fails exactly when the count exceeds the addresses of the block or the
    number of zones; otherwise it returns as many sub-blocks as asked, no more
    than there are zones, all of the same size and well formed, the [i]-th at
    offset [i] sizes in zone [i mod N], and the sub-blocks tile the base
    block without overlap. *)
Theorem split_net_across_zones_contract base zones n :
  well_formed base -> is_power_of_two n = true ->
  ((exists e, split_net_across_zones base zones n = inl e)
   <-> block_size base < n \/ Z.of_nat (length zones) < n)
  /\ forall blocks, split_net_across_zones base zones n = inr blocks ->
       Z.of_nat (length blocks) = n /\
       (length blocks <= length zones)%nat /\
       (forall i b, nth_error blocks i = Some b ->
          zone b = nth (i mod length zones) zones EmptyString /\
          In (zone b) zones /\
          well_formed (net b) /\
          block_size (net b) * n = block_size base /\
          addr (net b) = addr base + Z.of_nat i * block_size (net b)) /\
       (forall a, covers base a
                  <-> exists b, In b blocks /\ covers (net b) a) /\
       (forall i j bi bj a,
          nth_error blocks i = Some bi -> nth_error blocks j = Some bj ->
          covers (net bi) a -> covers (net bj) a -> i = j).
Proof.
  intros W Hn. pose proof W as (Hp & _).
  pose proof (power_of_two_spec n Hn) as (Hn0 & _ & _).
  unfold split_net_across_zones.
  destruct (Z.ltb_spec (block_size base) n) as [L1|L1].
  { split; [split; eauto | intros blocks H; discriminate H]. }
  destruct (Z.ltb_spec (Z.of_nat (length zones)) n) as [L2|L2].
  { split; [split; eauto | intros blocks H; discriminate H]. }
  split.
  { split; [intros [e H]; discriminate H | lia]. }
  intros blocks H. injection H as <-.
  rewrite length_map, length_seq.
  split; [lia|]. split; [lia|]. split; [|split].
  - intros i b Hb. apply nth_error_map_seq in Hb. destruct Hb as [Hi ->].
    cbn [zone net].
    assert (Hz : (i mod length zones < length zones)%nat)
      by (apply Nat.mod_upper_bound; lia).
    split; [reflexivity|]. split; [|split; [|split]].
    + now apply nth_In.
    + apply sub_block_well_formed; auto; lia.
    + now apply sub_block_size.
    + reflexivity.
  - intros a. rewrite (covers_split base n a W Hn L1). split.
    + intros (i & Hi & Hc).
      exists (mkBlock (nth (i mod length zones) zones EmptyString)
                (sub_block base n i)).
      split; [|exact Hc].
      apply in_map_iff. exists i. split; [reflexivity|].
      apply in_seq. lia.
    + intros (b & Hb & Hc). apply in_map_iff in Hb.
      destruct Hb as (i & <- & Hi). apply in_seq in Hi.
      exists i. split; [lia | exact Hc].
  - intros i j bi bj a Hi Hj.
    apply nth_error_map_seq in Hi, Hj.
    destruct Hi as [_ ->], Hj as [_ ->]. cbn [net].
    now apply covers_disjoint.
Qed.

End SplitterSpec.

(** C1 at 10.0.0.0/24 cut in four over four zones *)
Lemma split_net_across_zones_contract_witness :
  Pawslib.well_formed Sample.base /\
  Pawslib.is_power_of_two 4 = true /\
  exists blocks,
    Pawslib.split_net_across_zones Sample.base (Sample.zones "eu-west-1") 4
    = inr blocks /\
    Z.of_nat (length blocks) = 4%Z /\
    forall i j bi bj a,
      nth_error blocks i = Some bi -> nth_error blocks j = Some bj ->
      Pawslib.covers (Pawslib.net bi) a -> Pawslib.covers (Pawslib.net bj) a ->
      i = j.
Proof.
  assert (W : Pawslib.well_formed Sample.base).
  { unfold Pawslib.well_formed. vm_compute. intuition discriminate. }
  split; [exact W|]. split; [reflexivity|].
  eexists. split; [vm_compute; reflexivity|].
  destruct (split_net_across_zones_contract Sample.base
              (Sample.zones "eu-west-1") 4 W eq_refl) as [_ H].
  specialize (H _ eq_refl). destruct H as (H1 & _ & _ & _ & H5).
  split; [exact H1 | exact H5].
Defined.

Example split_too_many_ex :
  Pawslib.split_net_across_zones Sample.base (Sample.zones "eu-west-1") 8
  = inl (mkExtExc "ValueError" "more subnets than availability zones").
Proof. vm_compute. reflexivity. Qed.

(** * [VpcTemplate] *)

Module VpcFacts.
Import Views DictFacts.

Lemma update_id self :
  update self (Ec2.nat_gateways self) (Ec2.natted_route_tables self)
    (Ec2._r self) = self.
Proof. destruct self; reflexivity. Qed.

Lemma metadata_meta_of res :
  has_metadata res -> Metadata res = Some (meta_of res).
Proof. unfold has_metadata, meta_of. destruct (Metadata res); congruence. Qed.

(** one step of the loop of [add_public_subnet_group] *)
Lemma public_step_eq nat res self :
  (builds_nat nat res = true -> has_metadata res) ->
  Ec2.public_subnet_step nat res self
  = (Ok tt,
     update self
       (Ec2.nat_gateways self ++ public_gateways nat res)
       (Ec2.natted_route_tables self
          ++ public_tables (Ec2.vpc self) nat res)
       (Ec2.assign_all (Ec2._r self)
          (public_writes (Ec2.vpc self) nat res))).
Proof.
  intros Hm.
  unfold Ec2.public_subnet_step, public_gateways, public_tables,
    public_writes, builds_nat in *.
  change (rtype res =? "AWS::EC2::Subnet")%string with (is_subnet res).
  destruct (nat && is_subnet res).
  - specialize (Hm eq_refl). apply metadata_meta_of in Hm.
    unfold bind, Ec2.set_r, modify, lift, get_self, Ec2.metadata_of.
    rewrite Hm. destruct self. reflexivity.
  - unfold bind, Ec2.set_r, modify, ret. rewrite !app_nil_r.
    destruct self. reflexivity.
Qed.

(** the whole loop of [add_public_subnet_group] *)
Lemma public_loop_eq nat l :
  forall self,
    (forall res, In res l -> builds_nat nat res = true -> has_metadata res) ->
    for_each l (Ec2.public_subnet_step nat) self
    = (Ok tt,
       update self
         (Ec2.nat_gateways self ++ flat_map (public_gateways nat) l)
         (Ec2.natted_route_tables self
            ++ flat_map (public_tables (Ec2.vpc self) nat) l)
         (Ec2.assign_all (Ec2._r self)
            (flat_map (public_writes (Ec2.vpc self) nat) l))).
Proof.
  induction l as [|res l IH]; intros self Hm.
  - simpl. unfold ret. rewrite !app_nil_r. now rewrite update_id.
  - cbn [for_each flat_map]. unfold bind at 1.
    rewrite public_step_eq by (apply Hm; now left).
    rewrite IH by (intros; apply Hm; [now right | assumption]).
    cbn [update Ec2.nat_gateways Ec2.natted_route_tables Ec2._r Ec2.vpc].
    rewrite <- !app_assoc, assign_all_app. destruct self. reflexivity.
Qed.

(** the inner loop of [add_natted_subnet_group] is a search *)
Lemma find_route_table_eq subnet tables :
  has_metadata subnet -> Forall has_metadata tables ->
  Ec2.find_route_table subnet tables = Ok (matching_table tables subnet).
Proof.
  intros Hs. induction 1 as [|t tables Ht _ IH]; [reflexivity|].
  cbn [Ec2.find_route_table]. unfold Ec2.metadata_of.
  rewrite (metadata_meta_of t Ht), (metadata_meta_of subnet Hs).
  unfold matching_table in *. cbn [find].
  destruct (az (meta_of t) =? az (meta_of subnet))%string; auto.
Qed.

Lemma matching_table_some tables subnet t :
  matching_table tables subnet = Some t ->
  In t tables /\ az (meta_of t) = az (meta_of subnet).
Proof.
  unfold matching_table. intros H. apply find_some in H.
  destruct H as [I E]. apply String.eqb_eq in E. auto.
Qed.

Lemma matching_table_none tables subnet :
  matching_table tables subnet = None <->
  forall t, In t tables -> az (meta_of t) <> az (meta_of subnet).
Proof.
  unfold matching_table. split.
  - intros H t I. apply String.eqb_neq. revert t I.
    now apply find_none.
  - intros H. destruct (find _ tables) as [t|] eqn:E; [|reflexivity].
    apply find_some in E. destruct E as [I E].
    apply String.eqb_eq in E. exfalso. now apply (H t).
Qed.

(** one step of the loop of [add_natted_subnet_group] *)
Lemma natted_step_eq res self :
  (is_subnet res = true -> has_metadata res) ->
  Forall has_metadata (Ec2.natted_route_tables self) ->
  Ec2.natted_subnet_step res self
  = if unmatched (Ec2.natted_route_tables self) res then
      (Raise (NotImplementedError (not_found_message res)),
       update self (Ec2.nat_gateways self) (Ec2.natted_route_tables self)
         (sset (Ec2._r self) (title res) res))
    else
      (Ok tt,
       update self (Ec2.nat_gateways self) (Ec2.natted_route_tables self)
         (Ec2.assign_all (Ec2._r self)
            (natted_writes (Ec2.natted_route_tables self) res))).
Proof.
  intros Hm Ht.
  unfold Ec2.natted_subnet_step, natted_writes, unmatched.
  change (rtype res =? "AWS::EC2::Subnet")%string with (is_subnet res).
  destruct (is_subnet res).
  - specialize (Hm eq_refl).
    unfold bind, Ec2.set_r, modify, lift, get_self.
    cbn [Ec2.natted_route_tables Ec2.with_r].
    rewrite (find_route_table_eq res _ Hm Ht).
    destruct (matching_table (Ec2.natted_route_tables self) res) as [t|].
    + destruct self. reflexivity.
    + unfold Ec2.metadata_of, raise, not_found_message.
      rewrite (metadata_meta_of res Hm). destruct self. reflexivity.
  - unfold bind, Ec2.set_r, modify, ret. destruct self. reflexivity.
Qed.

(** the loop of [add_natted_subnet_group] when every subnet has a table *)
Lemma natted_loop_ok l :
  forall self,
    (forall res, In res l -> is_subnet res = true -> has_metadata res) ->
    Forall has_metadata (Ec2.natted_route_tables self) ->
    (forall res, In res l ->
       unmatched (Ec2.natted_route_tables self) res = false) ->
    for_each l Ec2.natted_subnet_step self
    = (Ok tt,
       update self (Ec2.nat_gateways self) (Ec2.natted_route_tables self)
         (Ec2.assign_all (Ec2._r self)
            (flat_map (natted_writes (Ec2.natted_route_tables self)) l))).
Proof.
  induction l as [|res l IH]; intros self Hm Ht Hu.
  - simpl. unfold ret. now rewrite update_id.
  - cbn [for_each flat_map]. unfold bind at 1.
    rewrite natted_step_eq by (auto; apply Hm; now left).
    rewrite (Hu res) by now left.
    rewrite IH; cbn [update Ec2.nat_gateways Ec2.natted_route_tables Ec2._r];
      auto.
    + rewrite assign_all_app. reflexivity.
    + intros r I. apply Hm. now right.
    + intros r I. apply Hu. now right.
Qed.

Lemma filter_none {A} (p : A -> bool) l :
  (forall y, In y l -> p y = false) -> filter p l = [].
Proof.
  induction l as [|a l IH]; simpl; intros H; [reflexivity|].
  rewrite (H a) by now left. apply IH. intros y I. apply H. now right.
Qed.


(** ** Keys of the assignments *)



Lemma sget_entries raw (E : list (Ec2.RKey * Resource)) d k v :
  NoDup (map fst E) -> In (k, v) E ->
  sget (Ec2.assign_all d
          (map (titled (PyStr.capitalize (PyStr.lower raw))) E))
    (Ec2.key_title (PyStr.capitalize (PyStr.lower raw)) k)
  = Some v.
Proof.
  intros ND I. apply sget_assign_all_nodup.
  - rewrite map_map. cbn [titled fst].
    rewrite <- (map_map fst (Ec2.key_title _)).
    apply MultiAzFacts.nodup_map_inj; [|assumption].
    intros x y. apply TitleFacts.key_title_inj.
  - change (Ec2.key_title (PyStr.capitalize (PyStr.lower raw)) k, v)
      with (titled (PyStr.capitalize (PyStr.lower raw)) (k, v)).
    now apply in_map.
Qed.

Ltac split_in :=
  repeat match goal with
         | H : In _ (_ :: _) |- _ => destruct H as [H|H]
         | H : In _ [] |- _ => contradiction H
         | H : _ \/ _ |- _ => destruct H as [H|H]
         | H : False |- _ => contradiction H
         end.

Lemma natted_entries_nodup tables a subnets :
  NoDup (map (fun s => suffix (meta_of s)) subnets) ->
  NoDup (map fst (flat_map (natted_entries tables a) subnets)).
Proof.
  intros Hn. rewrite flat_map_concat_map, concat_map, map_map.
  rewrite <- flat_map_concat_map.
  apply MultiAzFacts.nodup_flat_map.
  - eapply NoDup_map_inv. exact Hn.
  - intros s _. unfold natted_entries.
    destruct (matching_table tables s); cbn;
      repeat constructor; simpl; intuition discriminate.
  - intros s t k Is It Hs Ht. unfold natted_entries in Hs, Ht.
    destruct (matching_table tables s), (matching_table tables t);
      cbn in Hs, Ht; split_in; subst; try discriminate;
      apply (MultiAzFacts.nodup_map_in_inj
               (fun s => suffix (meta_of s)) subnets); auto; congruence.
Qed.

Lemma sget_entries_agree raw (E : list (Ec2.RKey * Resource)) d k v :
  In (k, v) E -> (forall v', In (k, v') E -> v' = v) ->
  sget (Ec2.assign_all d
          (map (titled (PyStr.capitalize (PyStr.lower raw))) E))
    (Ec2.key_title (PyStr.capitalize (PyStr.lower raw)) k)
  = Some v.
Proof.
  intros I A. apply sget_assign_all_agree.
  - change (Ec2.key_title (PyStr.capitalize (PyStr.lower raw)) k, v)
      with (titled (PyStr.capitalize (PyStr.lower raw)) (k, v)).
    now apply in_map.
  - intros v' I'. apply in_map_iff in I'. destruct I' as ([k' w] & E' & I').
    unfold titled in E'. cbn [fst snd] in E'. injection E' as Ek ->.
    apply TitleFacts.key_title_inj in Ek. subst k'. now apply A.
Qed.

(** In the assignments of a call, all entries under the key of a NAT
    resource of a subnet carry that resource; for the NAT route, provided no
    other subnet of the call has the same zone letter. *)
Lemma public_entries_agree vpc a b subnets s k v v' :
  NoDup (map (fun s => suffix (meta_of s)) subnets) ->
  In s subnets ->
  In (k, v) (public_entries vpc a b s) ->
  (forall letter, k = Ec2.KNatRoute letter ->
     forall other, In other subnets ->
       PyStr.upper (az_index (meta_of other))
       = PyStr.upper (az_index (meta_of s)) -> other = s) ->
  In (k, v') (flat_map (public_entries vpc a b) subnets) ->
  v' = v.
Proof.
  intros ND Is I Hl I'. apply in_flat_map in I'.
  destruct I' as (s' & Is' & I').
  assert (E : s' = s).
  { cbn in I, I'. split_in;
      try (injection I as <- <-); try (injection I' as Ek _);
      try discriminate;
      first
        [ apply (MultiAzFacts.nodup_map_in_inj
                   (fun s => suffix (meta_of s)) subnets); auto; congruence
        | eapply Hl; [reflexivity | exact Is' | congruence] ]. }
  subst s'. cbn in I, I'. split_in; congruence.
Qed.

(** ** The resources of [src/ec2.py]'s [multiaz_subnets] in the two loops *)

Section Blocks.
Variables (raw name_prefix : string) (vid : Atom).
Let prefix := PyStr.capitalize (PyStr.lower raw).
Let mk (p : nat * Pawslib.Segment) : Resource :=
  Ec2.make_subnet prefix name_prefix vid (fst p) (snd p).

Lemma subnets_of_blocks a b l :
  filter is_subnet
    (flat_map
       (segment_resources (Ec2.make_subnet prefix name_prefix vid) a b) l)
  = map mk l.
Proof.
  induction l as [|p l IH]; [reflexivity|].
  cbn [flat_map map]. rewrite filter_app, IH.
  unfold segment_resources, associations. destruct a, b; reflexivity.
Qed.

Lemma blocks_have_metadata a b l res :
  In res
    (flat_map
       (segment_resources (Ec2.make_subnet prefix name_prefix vid) a b) l) ->
  is_subnet res = true -> has_metadata res.
Proof.
  intros I Hs.
  assert (I' : In res (map mk l)).
  { rewrite <- (subnets_of_blocks a b). apply filter_In. auto. }
  apply in_map_iff in I'. destruct I' as (p & <- & _). discriminate.
Qed.

Lemma subnet_numbers_nodup (l : list (nat * Pawslib.Segment)) :
  NoDup (map fst l) -> NoDup (map (fun s => suffix (meta_of s)) (map mk l)).
Proof.
  intros ND. rewrite map_map. cbn.
  rewrite <- (map_map fst (fun i => i + 1)).
  apply MultiAzFacts.nodup_map_inj; [intros x y; lia | assumption].
Qed.


Lemma public_writes_blocks vpc a b l :
  flat_map (public_writes vpc true)
    (flat_map
       (segment_resources (Ec2.make_subnet prefix name_prefix vid)
          (Some a) (Some b)) l)
  = map (titled prefix) (flat_map (public_entries vpc a b) (map mk l)).
Proof.
  induction l as [|p l IH]; [reflexivity|].
  cbn [flat_map map]. rewrite flat_map_app, map_app, IH. reflexivity.
Qed.

Lemma public_gateways_blocks a b l :
  flat_map (public_gateways true)
    (flat_map
       (segment_resources (Ec2.make_subnet prefix name_prefix vid)
          (Some a) (Some b)) l)
  = map nat_gateway_of (map mk l).
Proof.
  induction l as [|p l IH]; [reflexivity|].
  cbn [flat_map map]. rewrite flat_map_app, IH. reflexivity.
Qed.

Lemma public_tables_blocks vpc a b l :
  flat_map (public_tables vpc true)
    (flat_map
       (segment_resources (Ec2.make_subnet prefix name_prefix vid)
          (Some a) (Some b)) l)
  = map (route_table_of vpc) (map mk l).
Proof.
  induction l as [|p l IH]; [reflexivity|].
  cbn [flat_map map]. rewrite flat_map_app, IH. reflexivity.
Qed.

Lemma natted_writes_blocks tables a l :
  flat_map (natted_writes tables)
    (flat_map
       (segment_resources (Ec2.make_subnet prefix name_prefix vid)
          (Some a) None) l)
  = map (titled prefix) (flat_map (natted_entries tables a) (map mk l)).
Proof.
  induction l as [|p l IH]; [reflexivity|].
  cbn [flat_map map]. rewrite flat_map_app, map_app, IH.
  f_equal. unfold segment_resources, associations, natted_entries.
  cbn [flat_map app natted_writes].
  change (is_subnet (Ec2.make_subnet prefix name_prefix vid (fst p) (snd p)))
    with true.
  cbn iota. fold (mk p).
  destruct (matching_table tables (mk p)); reflexivity.
Qed.



End Blocks.

(** the loop of [add_natted_subnet_group] up to the first subnet that has no
    route table: what was written before stays written *)
Lemma natted_loop_partial before s after :
  forall self,
    (forall res, In res (before ++ [s]) -> is_subnet res = true ->
                 has_metadata res) ->
    Forall has_metadata (Ec2.natted_route_tables self) ->
    (forall res, In res before ->
       unmatched (Ec2.natted_route_tables self) res = false) ->
    unmatched (Ec2.natted_route_tables self) s = true ->
    for_each (before ++ s :: after) Ec2.natted_subnet_step self
    = (Raise (NotImplementedError (not_found_message s)),
       update self (Ec2.nat_gateways self) (Ec2.natted_route_tables self)
         (sset
            (Ec2.assign_all (Ec2._r self)
               (flat_map (natted_writes (Ec2.natted_route_tables self))
                  before))
            (title s) s)).
Proof.
  induction before as [|res before IH]; intros self Hm Ht Hb Hs.
  - cbn [app for_each flat_map Ec2.assign_all fold_left]. unfold bind at 1.
    rewrite natted_step_eq by (auto; apply Hm; now left).
    now rewrite Hs.
  - cbn [app for_each flat_map]. unfold bind at 1.
    rewrite natted_step_eq by (auto; apply Hm; now left).
    rewrite (Hb res) by now left.
    rewrite IH;
      cbn [update Ec2.nat_gateways Ec2.natted_route_tables Ec2._r]; auto.
    + now rewrite assign_all_app.
    + intros r I. apply Hm. now right.
    + intros r I. apply Hb. now right.
Qed.

Lemma first_failing {A} (q : A -> bool) l :
  (forall x, In x l -> q x = false) \/
  exists l1 x l2,
    l = (l1 ++ x :: l2)%list /\ (forall y, In y l1 -> q y = false) /\
    q x = true.
Proof.
  induction l as [|x l IH]; [left; intros x []|].
  destruct (q x) eqn:E.
  - right. exists [], x, l. repeat split; auto. intros y [].
  - destruct IH as [IH|(l1 & y & l2 & -> & H1 & Hy)].
    + left. intros z [<-|I]; auto.
    + right. exists (x :: l1), y, l2. repeat split; auto.
      intros z [<-|I]; auto.
Qed.

(** The outcome of the loop of [add_natted_subnet_group] over the resources
    of the segments [l]: either every subnet has a table, the loop returns
    and every association is stored; or the loop raises at the first subnet
    without one, with the associations of the subnets before it stored. *)
Lemma natted_blocks_outcome raw name_prefix vid a self
    (l : list (nat * Pawslib.Segment)) :
  NoDup (map fst l) ->
  Forall has_metadata (Ec2.natted_route_tables self) ->
  let mk := fun p : nat * Pawslib.Segment =>
              Ec2.make_subnet (PyStr.capitalize (PyStr.lower raw))
                name_prefix vid (fst p) (snd p) in
  let tables := Ec2.natted_route_tables self in
  let r :=
    for_each
      (flat_map
         (segment_resources
            (Ec2.make_subnet (PyStr.capitalize (PyStr.lower raw))
               name_prefix vid) (Some a) None) l)
      Ec2.natted_subnet_step self in
  let stored := fun p =>
    exists t,
      matching_table tables (mk p) = Some t /\
      sget (Ec2._r (snd r)) (title (mk p) ++ "RouteAssociation")
      = Some (route_association_of (mk p) t) in
  (fst r = Ok tt /\ forall p, In p l -> stored p)
  \/ (exists l1 p l2,
        l = (l1 ++ p :: l2)%list /\
        (forall q, In q l1 -> stored q) /\
        matching_table tables (mk p) = None /\
        fst r = Raise (NotImplementedError (not_found_message (mk p)))).
Proof.
  intros ND Wt. cbv zeta.
  set (prefix := PyStr.capitalize (PyStr.lower raw)).
  set (mk := fun p : nat * Pawslib.Segment =>
               Ec2.make_subnet prefix name_prefix vid (fst p) (snd p)).
  set (block := segment_resources (Ec2.make_subnet prefix name_prefix vid)
                  (Some a) None).
  set (tables := Ec2.natted_route_tables self).
  assert (Hm : forall l0 res, In res (flat_map block l0) ->
                 is_subnet res = true -> has_metadata res)
    by (intros l0 res; apply (blocks_have_metadata raw)).
  assert (Hu : forall l0,
             (forall x, In x l0 -> unmatched tables (mk x) = false) ->
             forall res, In res (flat_map block l0) ->
                         unmatched tables res = false).
  { intros l0 H0 res I. unfold unmatched.
    destruct (is_subnet res) eqn:Es; [|reflexivity].
    destruct (MultiAzFacts.subnets_of_result _ _ _ _ _ I Es)
      as (i & seg & Ii & ->).
    exact (H0 (i, seg) Ii). }
  assert (Hget : forall l0 d x,
             NoDup (map fst l0) -> In x l0 ->
             unmatched tables (mk x) = false ->
             exists t,
               matching_table tables (mk x) = Some t /\
               sget (Ec2.assign_all d
                       (flat_map (natted_writes tables) (flat_map block l0)))
                 (title (mk x) ++ "RouteAssociation")
               = Some (route_association_of (mk x) t)).
  { intros l0 d x ND0 I U. unfold unmatched in U.
    change (is_subnet (mk x)) with true in U. cbn [andb] in U.
    destruct (matching_table tables (mk x)) as [t|] eqn:Em; [|discriminate].
    exists t. split; [reflexivity|].
    unfold block. rewrite (natted_writes_blocks raw).
    change (title (mk x) ++ "RouteAssociation")%string
      with (Ec2.key_title prefix
              (Ec2.KRouteAssociation (suffix (meta_of (mk x))))).
    apply sget_entries.
    - apply natted_entries_nodup.
      now apply (subnet_numbers_nodup raw name_prefix vid l0).
    - apply in_flat_map. exists (mk x). split; [now apply in_map|].
      unfold natted_entries. rewrite Em. cbn. auto. }
  destruct (first_failing (fun p => unmatched tables (mk p)) l)
    as [Hall|(l1 & p & l2 & -> & H1 & Hp)].
  - left.
    rewrite (natted_loop_ok _ self (Hm l) Wt (Hu l Hall)).
    cbn [fst snd update Ec2._r]. split; [reflexivity|].
    intros p I. exact (Hget l _ p ND I (Hall p I)).
  - right. exists l1, p, l2. split; [reflexivity|].
    assert (E : flat_map block (l1 ++ p :: l2)
                = (flat_map block l1
                   ++ mk p :: (associations (mk p) (Some a) None
                               ++ flat_map block l2))%list)
      by (rewrite flat_map_app; reflexivity).
    rewrite E. clear E.
    rewrite map_app in ND. apply NoDup_app_remove_r in ND.
    rewrite natted_loop_partial; auto.
    + cbn [fst snd update Ec2._r].
      unfold unmatched in Hp. change (is_subnet (mk p)) with true in Hp.
      cbn [andb] in Hp.
      destruct (matching_table tables (mk p)) eqn:Em; [discriminate|].
      split; [|split; reflexivity].
      intros q I.
      destruct (Hget l1 (Ec2._r self) q ND I (H1 q I)) as (t & Et & G).
      exists t. split; [exact Et|].
      rewrite sget_sset_other; [exact G|].
      change (title (mk p))
        with (Ec2.key_title prefix (Ec2.KSubnet (suffix (meta_of (mk p))))).
      change (title (mk q) ++ "RouteAssociation")%string
        with (Ec2.key_title prefix
                (Ec2.KRouteAssociation (suffix (meta_of (mk q))))).
      intros E. apply TitleFacts.key_title_inj in E. discriminate E.
    + intros res I. apply in_app_iff in I. destruct I as [I|[<-|[]]].
      * now apply (Hm l1).
      * intros _. discriminate.
    + intros res I. now apply (Hu l1).
Qed.

End VpcFacts.

(** * What the subnet-group methods of [VpcTemplate] do *)

Section VpcSpec.
Import Views VpcFacts MultiAzFacts.
Variable alphanum : string -> string.
Variable split : string -> string -> Z -> ExtExc + list Pawslib.Segment.

(** X4.  A call of [multiaz_subnets] that returns has handed [cidr_block],
    [region] and [no_of_subnets] to the splitter, and the subnets of the
    returned list are one per segment the splitter returned, in order, each
    in the segment's zone and block. *)
Lemma multiaz_subnets_follows_splitter
    name_prefix cidr_block region vpc vpc_id n acl acl_id rt rt_id res :
  Ec2.multiaz_subnets alphanum split name_prefix cidr_block region vpc vpc_id
    n acl acl_id rt rt_id = Ok res ->
  exists segs,
    split cidr_block region n = inr segs /\
    map (fun s => (prop s "AvailabilityZone", prop s "CidrBlock"))
      (filter is_subnet res)
    = map (fun seg => (Some (VAtom (AStr (Pawslib.az seg))),
                       Some (VAtom (AStr (Pawslib.cidr seg))))) segs.
Proof.
  intros H. apply ec2_result in H. destruct H as (vid & segs & _ & Hs & ->).
  exists segs. split; [exact Hs|].
  rewrite (subnets_of_blocks (alphanum name_prefix)).
  rewrite map_map. cbn.
  rewrite <- (map_map snd
                (fun seg => (Some (VAtom (AStr (Pawslib.az seg))),
                             Some (VAtom (AStr (Pawslib.cidr seg)))))).
  now rewrite enumerate_snd.
Qed.


(** C5.  On a template whose natted route tables carry their [Metadata], a
    call of [add_natted_subnet_group] whose [multiaz_subnets] has returned
    returns exactly when every created subnet has a natted route table whose
    [az] equals the subnet's.  It has then stored, for each created subnet,
    under <subnet title>RouteAssociation a [SubnetRouteTableAssociation] of
    that title whose [SubnetId] references the subnet and whose
    [RouteTableId] references the first natted route table of equal [az].
    Otherwise it raises [NotImplementedError], and nothing else, naming the
    [az] of the first created subnet without such a table; the subnets
    created before that one have their association stored in the same way. *)
Theorem add_natted_subnet_group_routes
    self cidr_block name_prefix n resources :
  Ec2.multiaz_subnets alphanum split name_prefix cidr_block (Ec2.region self)
    (Some (Ec2.vpc self)) None 4 (Some (Ec2.internal_nacl self)) None
    None None = Ok resources ->
  Forall has_metadata (Ec2.natted_route_tables self) ->
  let subnets := filter is_subnet resources in
  let tables := Ec2.natted_route_tables self in
  let r :=
    Ec2.add_natted_subnet_group alphanum split cidr_block name_prefix n self
  in
  let matched := fun subnet =>
    exists t, In t tables /\ az (meta_of t) = az (meta_of subnet) in
  let associated := fun subnet =>
    exists t x,
      matching_table tables subnet = Some t /\
      In t tables /\
      az (meta_of t) = az (meta_of subnet) /\
      sget (Ec2._r (snd r)) (title subnet ++ "RouteAssociation") = Some x /\
      rtype x = "AWS::EC2::SubnetRouteTableAssociation" /\
      title x = title subnet ++ "RouteAssociation" /\
      prop x "SubnetId" = Some (VAtom (ARef (title subnet))) /\
      prop x "RouteTableId" = Some (VAtom (ARef (title t))) in
  (fst r = Ok tt <-> forall subnet, In subnet subnets -> matched subnet)
  /\ (fst r = Ok tt -> forall subnet, In subnet subnets -> associated subnet)
  /\ ((exists subnet, In subnet subnets /\ ~ matched subnet) ->
      exists e, fst r = Raise e)
  /\ (forall e, fst r = Raise e ->
       exists before s after,
         subnets = (before ++ s :: after)%list /\
         (forall x, In x before -> associated x) /\
         ~ matched s /\
         e = NotImplementedError
               ("Can't find NAT gateway in " ++ az (meta_of s))).
Proof.
  intros H Wt. cbv beta zeta.
  assert (Hr : Ec2.add_natted_subnet_group alphanum split cidr_block
                 name_prefix n self
               = for_each resources Ec2.natted_subnet_step self).
  { unfold Ec2.add_natted_subnet_group, bind, get_self, lift.
    now rewrite H. }
  rewrite Hr. clear Hr.
  apply ec2_result in H. destruct H as (vid & segs & Hv & _ & ->).
  injection Hv as <-. cbn [supplied].
  set (raw := alphanum name_prefix).
  set (l := enumerate 0 segs).
  assert (NDl : NoDup (map fst l)) by apply enumerate_nodup.
  fold (title_prefix alphanum name_prefix).
  change (title_prefix alphanum name_prefix)
    with (PyStr.capitalize (PyStr.lower raw)).
  rewrite (subnets_of_blocks raw).
  set (mk := fun p : nat * Pawslib.Segment =>
               Ec2.make_subnet (PyStr.capitalize (PyStr.lower raw))
                 name_prefix (Ref (Ec2.vpc self)) (fst p) (snd p)).
  set (tables := Ec2.natted_route_tables self).
  pose proof (natted_blocks_outcome raw name_prefix (Ref (Ec2.vpc self))
                (Ref (Ec2.internal_nacl self)) self l NDl Wt) as O.
  cbv zeta in O. fold mk tables in O.
  set (r := for_each _ Ec2.natted_subnet_step self) in *.
  assert (A : forall p t,
             matching_table tables (mk p) = Some t ->
             sget (Ec2._r (snd r)) (title (mk p) ++ "RouteAssociation")
             = Some (route_association_of (mk p) t) ->
             exists t x,
               matching_table tables (mk p) = Some t /\
               In t tables /\
               az (meta_of t) = az (meta_of (mk p)) /\
               sget (Ec2._r (snd r)) (title (mk p) ++ "RouteAssociation")
               = Some x /\
               rtype x = "AWS::EC2::SubnetRouteTableAssociation" /\
               title x = title (mk p) ++ "RouteAssociation" /\
               prop x "SubnetId" = Some (VAtom (ARef (title (mk p)))) /\
               prop x "RouteTableId" = Some (VAtom (ARef (title t)))).
  { intros p t Em G. exists t, (route_association_of (mk p) t).
    destruct (matching_table_some _ _ _ Em) as [It Ez].
    repeat split; auto. }
  assert (N : forall p,
             matching_table tables (mk p) = None ->
             ~ (exists t, In t tables /\
                          az (meta_of t) = az (meta_of (mk p)))).
  { intros p Em (t & It & Ez).
    exact (proj1 (matching_table_none _ _) Em t It Ez). }
  destruct O as [(Hok & Hall)|(l1 & p & l2 & El & H1 & Em & Hf)].
  - assert (All : forall subnet, In subnet (map mk l) ->
                    exists t x,
                      matching_table tables subnet = Some t /\
                      In t tables /\
                      az (meta_of t) = az (meta_of subnet) /\
                      sget (Ec2._r (snd r))
                        (title subnet ++ "RouteAssociation") = Some x /\
                      rtype x = "AWS::EC2::SubnetRouteTableAssociation" /\
                      title x = title subnet ++ "RouteAssociation" /\
                      prop x "SubnetId"
                      = Some (VAtom (ARef (title subnet))) /\
                      prop x "RouteTableId" = Some (VAtom (ARef (title t)))).
    { intros subnet I. apply in_map_iff in I. destruct I as (p & <- & I).
      destruct (Hall p I) as (t & Em & G). exact (A p t Em G). }
    split; [|split; [|split]].
    + split; [|intros _; exact Hok].
      intros _ subnet I. destruct (All subnet I) as (t & _ & _ & It & Ez & _).
      now exists t.
    + intros _. exact All.
    + intros (subnet & I & Hn). exfalso. apply Hn.
      destruct (All subnet I) as (t & _ & _ & It & Ez & _). now exists t.
    + intros e He. rewrite Hok in He. discriminate He.
  - split; [|split; [|split]].
    + split; [intros He; rewrite Hf in He; discriminate He|].
      intros Hm. exfalso. apply (N p Em). apply Hm.
      apply in_map. rewrite El. apply in_or_app. right. now left.
    + intros He. rewrite Hf in He. discriminate He.
    + intros _. eexists. exact Hf.
    + intros e He. rewrite Hf in He. injection He as <-.
      exists (map mk l1), (mk p), (map mk l2).
      split; [now rewrite El, map_app|].
      split; [|split; [exact (N p Em) | reflexivity]].
      intros x I. apply in_map_iff in I. destruct I as (q & <- & I).
      destruct (H1 q I) as (t & Et & G). exact (A q t Et G).
Qed.

(** [add_public_subnet_group] keeps the natted route tables' [Metadata] *)
Lemma natted_tables_keep_metadata self name_prefix cidr_block n nat :
  Forall has_metadata (Ec2.natted_route_tables self) ->
  Forall has_metadata
    (Ec2.natted_route_tables
       (snd (Ec2.add_public_subnet_group alphanum split name_prefix
               cidr_block n nat self))).
Proof.
  intros W. unfold Ec2.add_public_subnet_group, bind, get_self, lift.
  destruct (Ec2.multiaz_subnets alphanum split name_prefix cidr_block
              (Ec2.region self) (Some (Ec2.vpc self)) None n
              (Some (Ec2.public_nacl self)) None
              (Some (Ec2.public_route_table self)) None)
    as [resources|e] eqn:H; [|exact W].
  apply ec2_result in H. destruct H as (vid & segs & _ & _ & ->).
  rewrite public_loop_eq
    by (intros res I Hb; apply (blocks_have_metadata _ _ _ _ _ _ _ I);
        unfold builds_nat in Hb; apply andb_prop in Hb; tauto).
  cbn [snd update Ec2.natted_route_tables].
  apply Forall_app. split; [exact W|].
  apply Forall_forall. intros t I. apply in_flat_map in I.
  destruct I as (res & _ & I). unfold public_tables in I.
  destruct (builds_nat nat res); [|contradiction].
  destruct I as [<-|[]]. discriminate.
Qed.

Lemma for_each_invariant {S X} (I : S -> Prop) (body : X -> M S unit) l :
  (forall x s, I s -> I (snd (body x s))) ->
  forall s, I s -> I (snd (for_each l body s)).
Proof.
  intros Hb. induction l as [|x l IH]; intros s Hs; [exact Hs|].
  cbn [for_each]. unfold bind. specialize (Hb x s Hs).
  destruct (body x s) as [[[]|e] s']; cbn [snd] in *; auto.
Qed.

Lemma natted_step_tables res self :
  Ec2.natted_route_tables (snd (Ec2.natted_subnet_step res self))
  = Ec2.natted_route_tables self.
Proof.
  unfold Ec2.natted_subnet_step, bind, Ec2.set_r, modify, get_self, lift,
    raise, ret.
  destruct (rtype res =? "AWS::EC2::Subnet")%string; [|reflexivity].
  cbn [snd Ec2.natted_route_tables Ec2.with_r].
  destruct (Ec2.find_route_table res (Ec2.natted_route_tables self))
    as [[t|]|e]; try reflexivity.
  destruct (Ec2.metadata_of res); reflexivity.
Qed.

Lemma bind_invariant {S A B} (I : S -> Prop) (m : M S A) (k : A -> M S B) s :
  I (snd (m s)) -> (forall a s', I s' -> I (snd (k a s'))) ->
  I (snd (bind m k s)).
Proof.
  unfold bind. intros Hm Hk.
  destruct (m s) as [[a|e] s']; cbn [snd] in *; auto.
Qed.

Lemma peer_keeps_tables (I : Ec2.VpcTemplate -> Prop)
    peer_vpc_id peer_vpc_name peer_role_arn peer_owner_id peer_region
    peer_cidrs private public self :
  (forall k v s, I s -> I (snd (Ec2.set_r k v s))) ->
  I self ->
  I (snd (Ec2.peer_with_another_vpc alphanum peer_vpc_id peer_vpc_name
            peer_role_arn peer_owner_id peer_region peer_cidrs private
            public self)).
Proof.
  intros Hset Hs. unfold Ec2.peer_with_another_vpc.
  apply bind_invariant; [exact Hs|]. intros self0 s0 H0.
  apply bind_invariant; [now apply Hset|]. intros _ s1 H1.
  apply bind_invariant.
  - destruct private; [|exact H1].
    apply for_each_invariant; [|exact H1]. intros cidr s2 H2.
    apply bind_invariant; [exact H2|]. intros self2 s3 H3.
    apply for_each_invariant; [|exact H3]. intros t s4 H4. now apply Hset.
  - intros _ s2 H2. destruct public; [|exact H2].
    apply for_each_invariant; [|exact H2]. intros cidr s3 H3.
    apply bind_invariant; [exact H3|]. intros self3 s4 H4. now apply Hset.
Qed.

(** Every natted route table of a template built by [__init__] and the
    methods of the class carries its [Metadata]. *)
Lemma reachable_tables_have_metadata self :
  Ec2.reachable alphanum split self ->
  Forall has_metadata (Ec2.natted_route_tables self).
Proof.
  induction 1 as [| self np cidr n nat R IH | self cidr np n R IH
                 | self np cidr v n acl rt R IH
                 | self a b c d e f g h R IH | self R IH].
  - constructor.
  - now apply natted_tables_keep_metadata.
  - unfold Ec2.add_natted_subnet_group, bind, get_self, lift.
    destruct (Ec2.multiaz_subnets _ _ _ _ _ _ _ _ _ _ _ _) as [l|e];
      [|exact IH].
    apply (for_each_invariant
             (fun s => Forall has_metadata (Ec2.natted_route_tables s)));
      [|exact IH].
    intros x s Hs. now rewrite natted_step_tables.
  - unfold Ec2.add_subnet_group, bind, get_self, lift.
    destruct (Ec2.multiaz_subnets _ _ _ _ _ _ _ _ _ _ _ _) as [l|e];
      [|exact IH].
    apply (for_each_invariant
             (fun s => Forall has_metadata (Ec2.natted_route_tables s)));
      [|exact IH].
    intros x s Hs. exact Hs.
  - apply (peer_keeps_tables
             (fun s => Forall has_metadata (Ec2.natted_route_tables s)));
      [|exact IH].
    intros k v s Hs. exact Hs.
  - exact IH.
Qed.

End VpcSpec.

Example template_keys_ex :
  map fst (Ec2._r Sample.template)
  = ["Vpc"; "Igw"; "igw_attachment"; "PubRouteTable"; "pub_rtt_rt_pub";
     "PubNacl"; "pub_nacl_out_all"; "pub_nacl_in_icmp"; "pub_nacl_in_vpc";
     "pub_nacl_in_internal_0"; "pub_nacl_in_ssh"; "pub_nacl_in_http";
     "pub_nacl_in_https"; "pub_nacl_in_nat_tcp"; "pub_nacl_in_nat_udp";
     "InternalNacl"; "internal_nacl_out_all"; "internal_nacl_in_icmp";
     "internal_nacl_in_vpc"; "internal_nacl_in_internal_0";
     "internal_nacl_in_nat_tcp"; "internal_nacl_in_nat_udp"].
Proof. vm_compute. reflexivity. Qed.

Example template_with_nat_ex :
  map title (Ec2.nat_gateways Sample.template_with_nat)
  = ["NatGw1"; "NatGw2"; "NatGw3"; "NatGw4"] /\
  map title (Ec2.natted_route_tables Sample.template_with_nat)
  = ["PrivRouteTable1"; "PrivRouteTable2"; "PrivRouteTable3";
     "PrivRouteTable4"] /\
  sget (Ec2._r Sample.template_with_nat) "NatRouteC"
  = Some (new "AWS::EC2::Route" "NatRouteC"
            [("RouteTableId", VAtom (ARef "PrivRouteTable3"));
             ("DestinationCidrBlock", VAtom (AStr "0.0.0.0/0"));
             ("NatGatewayId", VAtom (ARef "NatGw3"))]).
Proof. repeat split; vm_compute; reflexivity. Qed.

(** two subnets in one zone: the second NAT route replaces the first *)
Example same_zone_route_ex :
  let self' :=
    snd (Ec2.add_public_subnet_group Sample.alphanum Sample.split_one_zone
           "public" "10.0.0.0/24" 2 true Sample.template) in
  map title (Ec2.natted_route_tables self')
  = ["PrivRouteTable1"; "PrivRouteTable2"] /\
  sget (Ec2._r self') "NatRouteA"
  = Some (new "AWS::EC2::Route" "NatRouteA"
            [("RouteTableId", VAtom (ARef "PrivRouteTable2"));
             ("DestinationCidrBlock", VAtom (AStr "0.0.0.0/0"));
             ("NatGatewayId", VAtom (ARef "NatGw2"))]).
Proof. split; vm_compute; reflexivity. Qed.

Example natted_without_nat_ex :
  fst (Ec2.add_natted_subnet_group Sample.alphanum Sample.split "10.0.1.0/24"
         "private" 4 Sample.template)
  = Raise (NotImplementedError "Can't find NAT gateway in eu-west-1a").
Proof. vm_compute. reflexivity. Qed.



(** C5 at a call on a template with a NAT gateway in each zone *)
Lemma add_natted_subnet_group_routes_witness :
  exists resources,
    Ec2.multiaz_subnets Sample.alphanum Sample.split "private" "10.0.1.0/24"
      (Ec2.region Sample.template_with_nat)
      (Some (Ec2.vpc Sample.template_with_nat)) None 4
      (Some (Ec2.internal_nacl Sample.template_with_nat)) None None None
    = Ok resources /\
    Forall Views.has_metadata
      (Ec2.natted_route_tables Sample.template_with_nat) /\
    length (filter Views.is_subnet resources) = 4 /\
    fst (Ec2.add_natted_subnet_group Sample.alphanum Sample.split
           "10.0.1.0/24" "private" 4 Sample.template_with_nat) = Ok tt /\
    forall subnet, In subnet (filter Views.is_subnet resources) ->
      exists t x,
        Views.matching_table
          (Ec2.natted_route_tables Sample.template_with_nat) subnet = Some t /\
        In t (Ec2.natted_route_tables Sample.template_with_nat) /\
        az (Views.meta_of t) = az (Views.meta_of subnet) /\
        sget (Ec2._r
                (snd (Ec2.add_natted_subnet_group Sample.alphanum Sample.split
                        "10.0.1.0/24" "private" 4 Sample.template_with_nat)))
          (title subnet ++ "RouteAssociation") = Some x /\
        rtype x = "AWS::EC2::SubnetRouteTableAssociation" /\
        title x = title subnet ++ "RouteAssociation" /\
        prop x "SubnetId" = Some (VAtom (ARef (title subnet))) /\
        prop x "RouteTableId" = Some (VAtom (ARef (title t))).
Proof.
  assert (W : Forall Views.has_metadata
                (Ec2.natted_route_tables Sample.template_with_nat)).
  { vm_compute. repeat constructor; discriminate. }
  eexists. split; [vm_compute; reflexivity|]. split; [exact W|].
  split; [reflexivity|].
  assert (R : fst (Ec2.add_natted_subnet_group Sample.alphanum Sample.split
                     "10.0.1.0/24" "private" 4 Sample.template_with_nat)
              = Ok tt) by (vm_compute; reflexivity).
  split; [exact R|].
  pose proof (add_natted_subnet_group_routes Sample.alphanum Sample.split
                Sample.template_with_nat "10.0.1.0/24" "private" 4 _
                ltac:(vm_compute; reflexivity) W) as T.
  cbv beta zeta in T. destruct T as (_ & T2 & _). exact (T2 R).
Defined.

Example peer_routes_ex :
  let self' :=
    snd (Ec2.peer_with_another_vpc Sample.alphanum "vpc-1" "shared" None None
           None ["10.1.0.0/16"] true true Sample.template_with_nat) in
  map fst (skipn (length (Ec2._r Sample.template_with_nat)) (Ec2._r self'))
  = ["PeerSharedWithMain";
     "PrivRouteTable1Peer1010016Route"; "PrivRouteTable2Peer1010016Route";
     "PrivRouteTable3Peer1010016Route"; "PrivRouteTable4Peer1010016Route";
     "PubRouteTablePeer1010016Route"].
Proof. vm_compute. reflexivity. Qed.

(** * [VpcTemplate.__init__] *)

Module InitFacts.
Import Views DictFacts Observe.

Lemma sset_fresh {V} (d : sdict V) k v :
  ~ In k (map fst d) -> sset d k v = (d ++ [(k, v)])%list.
Proof.
  unfold sset. induction d as [|[k0 v0] d IH]; simpl; intros N;
    [reflexivity|].
  destruct (String.eqb_spec k k0) as [->|_]; [tauto|].
  rewrite IH by tauto. reflexivity.
Qed.

(** assignments under keys that are new and pairwise different append *)
Lemma assign_all_fresh {V} (l : list (string * V)) d :
  NoDup (map fst (d ++ l)) -> Ec2.assign_all d l = (d ++ l)%list.
Proof.
  revert d. induction l as [|[k v] l IH]; intros d ND.
  - simpl. now rewrite app_nil_r.
  - cbn [Ec2.assign_all fold_left fst snd].
    change (fold_left (fun d0 kv => sset d0 (fst kv) (snd kv)) l
              (sset d k v))
      with (Ec2.assign_all (sset d k v) l).
    assert (Nk : ~ In k (map fst d)).
    { rewrite map_app in ND. cbn [map fst] in ND.
      apply NoDup_remove_2 in ND. intros I. apply ND, in_or_app. now left. }
    rewrite sset_fresh by assumption.
    rewrite IH by (rewrite <- app_assoc; exact ND).
    now rewrite <- app_assoc.
Qed.

Lemma distinct_nodup l : distinct l = true -> NoDup l.
Proof.
  induction l as [|x l IH]; simpl; intros H; constructor;
    apply andb_prop in H; destruct H as [H1 H2]; auto.
  intros I. apply negb_true_iff in H1.
  assert (E : existsb (String.eqb x) l = true)
    by (apply existsb_exists; exists x; auto using String.eqb_refl).
  congruence.
Qed.

(** a list is free of repetitions when each of its classes is *)
Lemma nodup_by_class {A} (f : A -> nat) (l : list A) :
  (forall c, NoDup (filter (fun x => Nat.eqb (f x) c) l)) -> NoDup l.
Proof.
  induction l as [|x l IH]; intros H; constructor.
  - intros I. specialize (H (f x)). cbn [filter] in H.
    rewrite Nat.eqb_refl in H. inversion H as [|? ? N _]; subst.
    apply N. apply filter_In. split; [exact I | apply Nat.eqb_refl].
  - apply IH. intros c. specialize (H c). cbn [filter] in H.
    destruct (Nat.eqb (f x) c); [now inversion H | exact H].
Qed.

Lemma family_numbered (f : ascii) (a : string) (i : nat) :
  family (String f a ++ PyStr.str_of_nat i)
  = if (Ascii.eqb f "P" || Ascii.eqb f "p")%bool then 1 else 2.
Proof.
  unfold family. rewrite PyStrFacts.rchars_app.
  destruct (PyStrFacts.str_of_nat_last i) as (d & r & -> & Hd).
  cbn [app]. rewrite Hd. reflexivity.
Qed.

Lemma family_word (a w : string) (c : ascii) (t : list ascii) :
  PyStr.rchars w = c :: t -> PyStr.is_digit c = false ->
  family (a ++ w) = 0.
Proof.
  intros Hw Hc. unfold family. rewrite PyStrFacts.rchars_app, Hw.
  cbn [app]. now rewrite Hc.
Qed.

Lemma filter_all {A} (p : A -> bool) l :
  (forall x, In x l -> p x = true) -> filter p l = l.
Proof.
  induction l as [|x l IH]; simpl; intros H; [reflexivity|].
  rewrite (H x) by now left. f_equal. apply IH. intros y I. apply H.
  now right.
Qed.

(** the members of a numbered family all lie in its class *)
Lemma filter_family (f : ascii) (a : string) (l : list nat) (c : nat) :
  filter (fun s => Nat.eqb (family s) c)
    (map (fun i => String f a ++ PyStr.str_of_nat i) l)
  = if Nat.eqb (if (Ascii.eqb f "P" || Ascii.eqb f "p")%bool then 1 else 2) c
    then map (fun i => String f a ++ PyStr.str_of_nat i) l
    else [].
Proof.
  destruct (Nat.eqb _ c) eqn:E.
  - apply filter_all. intros x I. apply in_map_iff in I.
    destruct I as (i & <- & _). now rewrite family_numbered.
  - apply VpcFacts.filter_none. intros x I. apply in_map_iff in I.
    destruct I as (i & <- & _). now rewrite family_numbered.
Qed.

Lemma numbered_nodup (a : string) (l : list nat) :
  NoDup l -> NoDup (map (fun i => a ++ PyStr.str_of_nat i) l).
Proof.
  apply MultiAzFacts.nodup_map_inj. intros x y H.
  apply PyStrFacts.append_inv_head in H.
  now apply PyStrFacts.str_of_nat_inj.
Qed.

Lemma internal_entries_keys kp tp nacl nets :
  forall k,
    map fst (Ec2.internal_entries kp tp nacl k nets)
    = map (fun i => kp ++ PyStr.str_of_nat i) (seq k (length nets)).
Proof.
  induction nets as [|c nets IH]; intros k; [reflexivity|].
  cbn [Ec2.internal_entries map fst length seq]. now rewrite IH.
Qed.

Lemma internal_entries_titles kp tp nacl nets :
  forall k,
    titles (Ec2.internal_entries kp tp nacl k nets)
    = map (fun i => tp ++ PyStr.str_of_nat i) (seq k (length nets)).
Proof.
  unfold titles.
  induction nets as [|c nets IH]; intros k; [reflexivity|].
  cbn [Ec2.internal_entries map fst length seq]. now rewrite IH.
Qed.

Ltac eval_fixed_filters :=
  repeat match goal with
         | |- context [filter ?p (?a :: ?l)] =>
             let r := eval vm_compute in (filter p (a :: l)) in
             change (filter p (a :: l)) with r
         end.

(** No assignment of [__init__] to [self._r] replaces an earlier one. *)
Lemma init_keys_nodup vpc igw pub_rt pub_nacl int_nacl (internet : bool)
    (nets : list string) (a b c d e f g h i j k l m n o : Resource) :
  NoDup
    (map fst
       ([("Vpc", vpc)]
        ++ (if internet then [("Igw", igw); ("igw_attachment", a)] else [])
        ++ [("PubRouteTable", pub_rt)]
        ++ (if internet then [("pub_rtt_rt_pub", b)] else [])
        ++ [("PubNacl", pub_nacl); ("pub_nacl_out_all", c);
            ("pub_nacl_in_icmp", d); ("pub_nacl_in_vpc", e)]
        ++ Ec2.internal_entries "pub_nacl_in_internal_" "PubNaclInInternal"
             pub_nacl 0 nets
        ++ [("pub_nacl_in_ssh", f); ("pub_nacl_in_http", g);
            ("pub_nacl_in_https", h); ("pub_nacl_in_nat_tcp", i);
            ("pub_nacl_in_nat_udp", j); ("InternalNacl", int_nacl);
            ("internal_nacl_out_all", k); ("internal_nacl_in_icmp", l);
            ("internal_nacl_in_vpc", m)]
        ++ Ec2.internal_entries "internal_nacl_in_internal_"
             "InternalNaclInInternal" int_nacl 0 nets
        ++ [("internal_nacl_in_nat_tcp", n);
            ("internal_nacl_in_nat_udp", o)])%list).
Proof.
  rewrite !map_app, !internal_entries_keys.
  apply (nodup_by_class family). intros cl.
  rewrite !filter_app.
  rewrite (filter_family "p" "ub_nacl_in_internal_"),
    (filter_family "i" "nternal_nacl_in_internal_").
  destruct internet; cbn [map fst];
    destruct cl as [|[|[|cl]]]; eval_fixed_filters;
    cbn [Nat.eqb orb Ascii.eqb Bool.eqb app];
    rewrite ?app_nil_r;
    try (apply distinct_nodup; vm_compute; reflexivity);
    try (apply numbered_nodup, seq_NoDup).
Qed.

(** the dictionary left by [__init__] is the list of its assignments *)
Lemma init_r region cidr_block name internet nets :
  ltac:(let t := eval cbv beta zeta iota delta [Ec2.init Ec2._r] in
          (Ec2._r (Ec2.init region cidr_block name internet nets)) in
        match t with
        | Ec2.assign_all _ ?l =>
            exact (Ec2._r (Ec2.init region cidr_block name internet nets) = l)
        end).
Proof.
  unfold Ec2.init. cbv zeta. cbn [Ec2._r].
  rewrite assign_all_fresh by (cbn [app]; apply init_keys_nodup).
  reflexivity.
Qed.

Lemma entry_of_entry nacl eg t nacl' eg' n c p extra :
  entry_of nacl eg (Ec2.NetworkAclEntry t nacl' eg' n c p extra)
  = ((title nacl' =? title nacl)%string && Bool.eqb eg' eg)%bool.
Proof.
  unfold entry_of, has_type, prop_is, Ec2.NetworkAclEntry, Tropo.new, prop,
    acl_entry_type, sget, Ref.
  cbn -[Value_eq_dec].
  destruct (Value_eq_dec (VAtom (ARef (title nacl'))) _) as [E|E];
    destruct (String.eqb_spec (title nacl') (title nacl)) as [T|T];
    try congruence; cbn -[Value_eq_dec]; [|reflexivity].
  destruct (Value_eq_dec _ _) as [E'|E'];
    destruct eg', eg; cbn; congruence.
Qed.

Lemma rule_number_entry t nacl eg n c p extra :
  rule_number (Ec2.NetworkAclEntry t nacl eg n c p extra) = [n].
Proof. reflexivity. Qed.

Lemma rule_numbers_app nacl eg (a b : sdict Resource) :
  rule_numbers nacl eg (a ++ b)%list
  = (rule_numbers nacl eg a ++ rule_numbers nacl eg b)%list.
Proof. apply flat_map_app. Qed.

Lemma rule_numbers_internal nacl eg kp tp nacl' nets :
  forall k,
    rule_numbers nacl eg (Ec2.internal_entries kp tp nacl' k nets)
    = if ((title nacl' =? title nacl)%string && negb eg)%bool
      then map (fun i => (101 + Z.of_nat i)%Z) (seq k (length nets))
      else [].
Proof.
  induction nets as [|c nets IH]; intros k.
  - cbn. now destruct (_ && _)%bool.
  - cbn [Ec2.internal_entries rule_numbers flat_map snd length seq map].
    fold (rule_numbers nacl eg
            (Ec2.internal_entries kp tp nacl' (S k) nets)).
    rewrite IH, entry_of_entry, rule_number_entry.
    destruct (title nacl' =? title nacl)%string, eg; reflexivity.
Qed.

Lemma internal_rules_in n z :
  In z (internal_rules n) <-> (101 <= z < 101 + Z.of_nat n)%Z.
Proof.
  unfold internal_rules. rewrite in_map_iff. split.
  - intros (i & <- & I). apply in_seq in I. lia.
  - intros H. exists (Z.to_nat (z - 101)). split; [lia|].
    apply in_seq. lia.
Qed.

Lemma internal_rules_nodup n : NoDup (internal_rules n).
Proof.
  apply MultiAzFacts.nodup_map_inj; [|apply seq_NoDup].
  intros x y H. lia.
Qed.

Lemma nodup_app_disjoint {A} (a b : list A) :
  NoDup (a ++ b) -> forall x, In x a -> ~ In x b.
Proof.
  induction a as [|y a IH]; cbn; intros N x I J; [assumption|].
  inversion N as [|? ? Ny Na]; subst. destruct I as [->|I].
  - apply Ny, in_or_app. now right.
  - exact (IH Na x I J).
Qed.

Lemma rules_nodup (tail : list Z) (bound : Z) n :
  NoDup tail -> In bound tail ->
  (forall z, In z tail -> (bound <= z)%Z) -> (101 <= bound)%Z ->
  NoDup ([99; 100]%Z ++ internal_rules n ++ tail)
  <-> (101 + Z.of_nat n <= bound)%Z.
Proof.
  intros Nt Ib Hb Hl. split.
  - intros N.
    destruct (Z_le_gt_dec (101 + Z.of_nat n) bound) as [?|G]; [assumption|].
    exfalso. apply NoDup_app_remove_l in N.
    apply (nodup_app_disjoint _ _ N bound);
      [apply internal_rules_in; lia | exact Ib].
  - intros L. apply NoDup_app.
    + repeat constructor; cbn; intuition lia.
    + apply NoDup_app; [apply internal_rules_nodup | exact Nt |].
      intros z I J. apply internal_rules_in in I. apply Hb in J. lia.
    + intros z I J. apply in_app_iff in J.
      assert (z = 99 \/ z = 100)%Z as Hz by (cbn in I; intuition lia).
      destruct J as [J|J].
      * apply internal_rules_in in J. lia.
      * apply Hb in J. lia.
Qed.

Ltac rules_side :=
  first [ lia
        | now (cbn; auto)
        | now (repeat constructor; cbn; intuition lia)
        | now (cbn; intuition lia) ].

Lemma public_rules_nodup n :
  NoDup ([99; 100] ++ internal_rules n ++ [210; 220; 221; 500; 501])%Z%list
  <-> n <= 109.
Proof.
  etransitivity; [apply (rules_nodup _ 210%Z); rules_side | lia].
Qed.

Lemma internal_acl_rules_nodup n :
  NoDup ([99; 100] ++ internal_rules n ++ [500; 501])%Z%list <-> n <= 399.
Proof.
  etransitivity; [apply (rules_nodup _ 500%Z); rules_side | lia].
Qed.

End InitFacts.

Section InitSpec.

Import Views DictFacts Observe InitFacts.

Variables (region cidr_block name : string) (internet : bool)
  (nets : list string).

Let self := Ec2.init region cidr_block name internet nets.

(** X1. No assignment of [VpcTemplate.__init__] to [self._r] replaces an
earlier one: the dictionary holds, in program order, the seventeen keys
written unconditionally outside the two loops, three more keys exactly when
[internet_access_enabled] is true, and one key per internal network for
each of the two network ACLs. *)
Theorem init_keys :
  map fst (Ec2._r self)
  = (["Vpc"]
     ++ (if internet then ["Igw"; "igw_attachment"] else [])
     ++ ["PubRouteTable"]
     ++ (if internet then ["pub_rtt_rt_pub"] else [])
     ++ ["PubNacl"; "pub_nacl_out_all"; "pub_nacl_in_icmp";
         "pub_nacl_in_vpc"]
     ++ numbered "pub_nacl_in_internal_" (length nets)
     ++ ["pub_nacl_in_ssh"; "pub_nacl_in_http"; "pub_nacl_in_https";
         "pub_nacl_in_nat_tcp"; "pub_nacl_in_nat_udp"; "InternalNacl";
         "internal_nacl_out_all"; "internal_nacl_in_icmp";
         "internal_nacl_in_vpc"]
     ++ numbered "internal_nacl_in_internal_" (length nets)
     ++ ["internal_nacl_in_nat_tcp"; "internal_nacl_in_nat_udp"])%list
  /\ length (Ec2._r self)
     = 17 + (if internet then 3 else 0) + 2 * length nets.
Proof.
  unfold self. rewrite init_r.
  split.
  - rewrite !map_app, !internal_entries_keys.
    destruct internet; reflexivity.
  - rewrite <- (length_map fst).
    rewrite !map_app, !internal_entries_keys, !length_app, !length_map,
      !length_seq.
    destruct internet; cbn [length map]; lia.
Qed.

Lemma vpc_title_class : family (name ++ "Vpc") = 0.
Proof. now apply (family_word name "Vpc" "c" ["p"; "V"]%char). Qed.

Lemma vpc_title_numbered prefix n :
  prefix <> EmptyString -> ~ In (name ++ "Vpc")%string (numbered prefix n).
Proof.
  intros Hp I. apply in_map_iff in I. destruct I as (i & E & _).
  destruct prefix as [|f a]; [congruence|].
  pose proof (family_numbered f a i) as F. rewrite E, vpc_title_class in F.
  destruct (_ || _)%bool; discriminate.
Qed.

Lemma vpc_title_eq (w : string) :
  (name ++ "Vpc")%string = (w ++ "Vpc")%string -> name = w.
Proof. apply PyStrFacts.append_inv_tail. Qed.

Ltac vpc_title_clash H :=
  apply (f_equal PyStr.rchars) in H;
  rewrite PyStrFacts.rchars_app in H;
  discriminate H.

Lemma nodup_head {A} (x : A) r :
  NoDup ([x] ++ r) <-> ~ In x r /\ NoDup r.
Proof. apply NoDup_cons_iff. Qed.

Lemma titles_app {K} (a b : list (K * Resource)) :
  titles (a ++ b) = (titles a ++ titles b)%list.
Proof. apply map_app. Qed.

(** X2. The titles of the resources stored by [VpcTemplate.__init__] are
pairwise different, except when [name] is ["PubNaclIn"] or
["InternalNaclIn"]: the VPC's title [name + "Vpc"] is then the title of the
network ACL entry that admits the VPC's own range. *)
Theorem init_titles_distinct :
  NoDup (titles (Ec2._r self))
  <-> name <> "PubNaclIn" /\ name <> "InternalNaclIn".
Proof.
  unfold self. rewrite init_r.
  rewrite !titles_app, !internal_entries_titles.
  fold (numbered "PubNaclInInternal" (length nets)).
  fold (numbered "InternalNaclInInternal" (length nets)).
  destruct internet;
    cbn [titles map snd title Tropo.new Ec2.NetworkAclEntry];
    (etransitivity; [apply nodup_head|]);
    (split; [intros [N _]; split; intros ->; apply N;
               repeat (rewrite in_app_iff; cbn [In]);
               cbn [append]; tauto
            | intros [H1 H2]; split]).
  all: try (repeat (rewrite in_app_iff; cbn [In]);
            intros I;
            repeat match type of I with
                   | _ \/ _ => destruct I as [I|I]
                   | False => destruct I
                   | In _ (numbered _ _) =>
                       now apply vpc_title_numbered in I
                   | "PubNaclInVpc"%string = _ =>
                       symmetry in I;
                       apply (vpc_title_eq "PubNaclIn") in I; congruence
                   | "InternalNaclInVpc"%string = _ =>
                       symmetry in I;
                       apply (vpc_title_eq "InternalNaclIn") in I;
                       congruence
                   | _ = _ => symmetry in I; vpc_title_clash I
                   end; fail).
  all: apply (nodup_by_class family); intros cl;
    rewrite !filter_app; unfold numbered;
    rewrite (filter_family "P" "ubNaclInInternal"),
      (filter_family "I" "nternalNaclInInternal");
    destruct cl as [|[|[|cl]]]; eval_fixed_filters;
    cbn [Nat.eqb orb Ascii.eqb Bool.eqb app filter];
    rewrite ?app_nil_r;
    try (apply distinct_nodup; vm_compute; reflexivity);
    try (apply numbered_nodup, seq_NoDup).
Qed.

(** X3. After [VpcTemplate.__init__] the inbound entries of the public ACL
carry the rule numbers 99, 100, then [101 + i] for the i-th internal
network, then 210, 220, 221, 500 and 501; those of the internal ACL carry
99, 100, [101 + i], 500 and 501; each ACL has the single outbound rule 500.
The inbound numbers of the public ACL are pairwise different exactly when
there are at most 109 internal networks, those of the internal ACL exactly
when there are at most 399. *)
Theorem init_rule_numbers :
  rule_numbers (Ec2.public_nacl self) false (Ec2._r self)
  = ([99; 100] ++ internal_rules (length nets)
     ++ [210; 220; 221; 500; 501])%Z%list
  /\ rule_numbers (Ec2.internal_nacl self) false (Ec2._r self)
     = ([99; 100] ++ internal_rules (length nets) ++ [500; 501])%Z%list
  /\ rule_numbers (Ec2.public_nacl self) true (Ec2._r self) = [500%Z]
  /\ rule_numbers (Ec2.internal_nacl self) true (Ec2._r self) = [500%Z]
  /\ (NoDup (rule_numbers (Ec2.public_nacl self) false (Ec2._r self))
      <-> length nets <= 109)
  /\ (NoDup (rule_numbers (Ec2.internal_nacl self) false (Ec2._r self))
      <-> length nets <= 399).
Proof.
  assert (P : forall eg,
             rule_numbers (Ec2.public_nacl self) eg (Ec2._r self)
             = if eg then [500%Z]
               else ([99; 100] ++ internal_rules (length nets)
                     ++ [210; 220; 221; 500; 501])%Z%list).
  { intros eg. unfold self. rewrite init_r.
    unfold Ec2.init. cbv zeta. cbn [Ec2.public_nacl].
    rewrite !rule_numbers_app, !rule_numbers_internal.
    unfold rule_numbers.
    destruct internet; cbn [flat_map snd];
      rewrite !entry_of_entry, !rule_number_entry;
      destruct eg; reflexivity. }
  assert (I : forall eg,
             rule_numbers (Ec2.internal_nacl self) eg (Ec2._r self)
             = if eg then [500%Z]
               else ([99; 100] ++ internal_rules (length nets)
                     ++ [500; 501])%Z%list).
  { intros eg. unfold self. rewrite init_r.
    unfold Ec2.init. cbv zeta. cbn [Ec2.internal_nacl].
    rewrite !rule_numbers_app, !rule_numbers_internal.
    unfold rule_numbers.
    destruct internet; cbn [flat_map snd];
      rewrite !entry_of_entry, !rule_number_entry;
      destruct eg; reflexivity. }
  rewrite (P false), (I false), (P true), (I true).
  do 4 (split; [reflexivity|]).
  split; [apply public_rules_nodup | apply internal_acl_rules_nodup].
Qed.

End InitSpec.

(** * Titles of the subnet resources *)

Module AlnumFacts.
Import PyStr PyStrFacts Observe.

Lemma all_chars_app p (a b : string) :
  all_chars p (a ++ b) = (all_chars p a && all_chars p b)%bool.
Proof.
  induction a as [|c a IH]; cbn; [reflexivity|].
  now rewrite IH, Bool.andb_assoc.
Qed.

Lemma alnum_lower_ascii c :
  Sample.is_alnum c = true -> Sample.is_alnum (lower_ascii c) = true.
Proof.
  destruct c as [[] [] [] [] [] [] [] []]; vm_compute; auto.
Qed.

Lemma alnum_upper_ascii c :
  Sample.is_alnum c = true -> Sample.is_alnum (upper_ascii c) = true.
Proof.
  destruct c as [[] [] [] [] [] [] [] []]; vm_compute; auto.
Qed.

Lemma alnum_map_string f s :
  (forall c, Sample.is_alnum c = true -> Sample.is_alnum (f c) = true) ->
  all_chars Sample.is_alnum s = true ->
  all_chars Sample.is_alnum (map_string f s) = true.
Proof.
  intros Hf. induction s as [|c s IH]; cbn; [reflexivity|].
  intros H. apply andb_prop in H. destruct H as [Hc Hs].
  now rewrite (Hf c Hc), IH.
Qed.

Lemma alnum_capitalize_lower s :
  all_chars Sample.is_alnum s = true ->
  all_chars Sample.is_alnum (capitalize (lower s)) = true.
Proof.
  destruct s as [|c s]; cbn; [reflexivity|].
  intros H. apply andb_prop in H. destruct H as [Hc Hs].
  rewrite (alnum_upper_ascii _ (alnum_lower_ascii c Hc)). cbn.
  apply alnum_map_string; [apply alnum_lower_ascii|].
  apply alnum_map_string; [apply alnum_lower_ascii | exact Hs].
Qed.

Lemma digits_alnum s :
  all_chars is_digit s = true -> all_chars Sample.is_alnum s = true.
Proof.
  induction s as [|c s IH]; cbn; [reflexivity|].
  intros H. apply andb_prop in H. destruct H as [Hc Hs].
  rewrite (IH Hs). unfold Sample.is_alnum. rewrite Hc.
  now rewrite !Bool.orb_true_r.
Qed.

Lemma alphanumeric_intro s :
  s <> EmptyString -> all_chars Sample.is_alnum s = true ->
  alphanumeric s = true.
Proof. destruct s; [congruence | auto]. Qed.

Lemma append_nonempty (a b : string) :
  b <> EmptyString -> (a ++ b)%string <> EmptyString.
Proof. destruct a, b; cbn; congruence. Qed.

(** the titles the subnet functions give are letters and digits *)
Lemma key_title_alphanumeric prefix k :
  all_chars Sample.is_alnum prefix = true ->
  match k with
  | Ec2.KSubnet _ | Ec2.KNaclAssociation _ | Ec2.KRouteAssociation _ => True
  | _ => False
  end ->
  alphanumeric (Ec2.key_title prefix k) = true.
Proof.
  intros Hp Hk.
  destruct k as [n|n|n| | | |]; try contradiction; cbn [Ec2.key_title];
    (apply alphanumeric_intro;
     [ repeat apply append_nonempty;
       first [apply str_of_nat_nonempty | discriminate]
     | rewrite ?all_chars_app, Hp,
         (digits_alnum _ (str_of_nat_digits n)); reflexivity ]).
Qed.

Lemma filter_string_all p s : all_chars p (Sample.filter_string p s) = true.
Proof.
  induction s as [|c s IH]; cbn; [reflexivity|].
  destruct (p c) eqn:E; cbn; [now rewrite E|exact IH].
Qed.

End AlnumFacts.

Section TitleSpec.
Import Views MultiAzFacts AlnumFacts Observe.
Variable alphanum : string -> string.
Variable split : string -> string -> Z -> ExtExc + list Pawslib.Segment.

Lemma block_titles_alphanumeric raw mk a b (l : list (nat * Pawslib.Segment)) :
  PyStr.all_chars Sample.is_alnum raw = true ->
  (forall i seg,
      title (mk i seg)
      = PyStr.capitalize (PyStr.lower raw) ++ PyStr.str_of_nat (i + 1)) ->
  Forall (fun r => alphanumeric (title r) = true)
    (flat_map (segment_resources mk a b) l).
Proof.
  intros Hraw Hmk. apply Forall_forall. intros r I.
  apply (in_map title) in I. rewrite (result_titles raw mk Hmk) in I.
  apply in_map_iff in I. destruct I as (k & <- & I).
  apply key_title_alphanumeric;
    [now apply alnum_capitalize_lower|].
  apply in_flat_map in I. destruct I as (p & _ & I).
  destruct I as [<-|I]; [exact Logic.I|].
  apply in_app_iff in I.
  destruct I as [I|I]; [destruct a | destruct b];
    try contradiction; destruct I as [<-|[]]; exact Logic.I.
Qed.

(** X5.  When the external [alphanum] returns only ASCII letters and digits,
    every resource returned by either [multiaz_subnets] (the one of
    [ec2.py] and the one of the package) has a title made of letters and
    digits only, and not empty; this holds also when [alphanum] returns the
    empty string, since the subnet's number is then the whole title. *)
Theorem multiaz_subnets_titles_alphanumeric
    name_prefix cidr_block region vpc vpc_id n acl acl_id rt rt_id :
  (forall s, PyStr.all_chars Sample.is_alnum (alphanum s) = true) ->
  (forall res,
      Ec2.multiaz_subnets alphanum split name_prefix cidr_block region vpc
        vpc_id n acl acl_id rt rt_id = Ok res ->
      Forall (fun r => alphanumeric (title r) = true) res)
  /\ (forall res,
        Tropolib.multiaz_subnets alphanum split name_prefix cidr_block region
          vpc vpc_id n acl acl_id rt rt_id = Ok res ->
        Forall (fun r => alphanumeric (title r) = true) res).
Proof.
  intros Ha. split; intros res H.
  - apply ec2_result in H. destruct H as (vid & segs & _ & _ & ->).
    apply (block_titles_alphanumeric (alphanum name_prefix));
      [apply Ha | reflexivity].
  - apply init_result in H. destruct H as (vid & segs & _ & _ & ->).
    apply (block_titles_alphanumeric (alphanum name_prefix));
      [apply Ha | reflexivity].
Qed.

End TitleSpec.

Lemma multiaz_subnets_follows_splitter_witness :
  exists res segs,
    Ec2.multiaz_subnets Sample.alphanum Sample.split "pub net" "10.0.0.0/24"
      "eu-west-1" (Some Sample.vpc) None 2 (Some Sample.nacl) None None None
    = Ok res /\
    length res = 4 /\
    Sample.split "10.0.0.0/24" "eu-west-1" 2 = inr segs /\
    map (fun s => (prop s "AvailabilityZone", prop s "CidrBlock"))
      (filter Views.is_subnet res)
    = map (fun seg => (Some (VAtom (AStr (Pawslib.az seg))),
                       Some (VAtom (AStr (Pawslib.cidr seg))))) segs.
Proof.
  destruct (multiaz_subnets_follows_splitter Sample.alphanum Sample.split
              "pub net" "10.0.0.0/24" "eu-west-1" (Some Sample.vpc) None 2
              (Some Sample.nacl) None None None _ eq_refl)
    as (segs & Hs & Hm).
  eexists. exists segs.
  split; [reflexivity|]. split; [reflexivity|]. split; [exact Hs | exact Hm].
Defined.

Lemma multiaz_subnets_titles_alphanumeric_witness :
  (forall s, PyStr.all_chars Sample.is_alnum (Sample.alphanum s) = true)
  /\ exists res,
       Ec2.multiaz_subnets Sample.alphanum Sample.split "pub net"
         "10.0.0.0/24" "eu-west-1" (Some Sample.vpc) None 2
         (Some Sample.nacl) None (Some Sample.route_table) None = Ok res
       /\ map title res
          = ["Pubnet1"; "Pubnet1NaclAssociation"; "Pubnet1RouteAssociation";
             "Pubnet2"; "Pubnet2NaclAssociation"; "Pubnet2RouteAssociation"]
       /\ Forall (fun r => Observe.alphanumeric (title r) = true) res.
Proof.
  assert (Ha : forall s,
             PyStr.all_chars Sample.is_alnum (Sample.alphanum s) = true)
    by (intros s; apply AlnumFacts.filter_string_all).
  split; [exact Ha|].
  eexists. split; [vm_compute; reflexivity|]. split; [reflexivity|].
  apply (proj1 (multiaz_subnets_titles_alphanumeric Sample.alphanum
                  Sample.split "pub net" "10.0.0.0/24" "eu-west-1"
                  (Some Sample.vpc) None 2 (Some Sample.nacl) None
                  (Some Sample.route_table) None Ha)).
  vm_compute. reflexivity.
Defined.

(** * The subnet-group methods of [VpcTemplate] *)

Module GroupFacts.
Import Views DictFacts VpcFacts.

(** the loop of [add_subnet_group] *)
Lemma plain_loop_eq l :
  forall self,
    for_each l (fun res => Ec2.set_r (title res) res) self
    = (Ok tt,
       update self (Ec2.nat_gateways self) (Ec2.natted_route_tables self)
         (Ec2.assign_all (Ec2._r self) (map (fun res => (title res, res)) l))).
Proof.
  induction l as [|res l IH]; intros self.
  - cbn. unfold ret. now rewrite update_id.
  - cbn [for_each map]. unfold bind at 1. unfold Ec2.set_r at 1, modify.
    rewrite IH. destruct self. reflexivity.
Qed.

(** without NAT gateways a step of [add_public_subnet_group] is one
    assignment *)
Lemma public_step_plain res self :
  Ec2.public_subnet_step false res self = Ec2.set_r (title res) res self.
Proof. reflexivity. Qed.

Lemma public_loop_plain l :
  forall self,
    for_each l (Ec2.public_subnet_step false) self
    = for_each l (fun res => Ec2.set_r (title res) res) self.
Proof.
  induction l as [|res l IH]; intros self; [reflexivity|].
  cbn [for_each]. unfold bind. rewrite public_step_plain.
  destruct (Ec2.set_r (title res) res self) as [[[]|e] s'];
    [apply IH | reflexivity].
Qed.

(** [multiaz_subnets], called with a VPC object, returns whenever the
    splitter does *)
Lemma ec2_ok alphanum split name_prefix cidr_block region vpc n acl rt segs :
  split cidr_block region n = inr segs ->
  Ec2.multiaz_subnets alphanum split name_prefix cidr_block region (Some vpc)
    None n acl None rt None
  = Ok (flat_map
          (segment_resources
             (Ec2.make_subnet (title_prefix alphanum name_prefix) name_prefix
                (Ref vpc))
             (supplied acl None) (supplied rt None))
          (enumerate 0 segs)).
Proof.
  intros H. unfold Ec2.multiaz_subnets. cbn [Ec2.resolve_vpc_id]. rewrite H.
  now rewrite MultiAzFacts.ec2_loop_eq, !MultiAzFacts.supplied_default.
Qed.

Lemma in_enumerate {A} (x : A) l k :
  In x l -> exists i, In (i, x) (enumerate k l).
Proof.
  intros I. rewrite <- (MultiAzFacts.enumerate_snd l k) in I.
  apply in_map_iff in I. destruct I as ([i y] & E & I). cbn in E. subst y.
  now exists i.
Qed.

Lemma enumerate_in {A} (i : nat) (x : A) l k :
  In (i, x) (enumerate k l) -> In x l.
Proof.
  intros I. rewrite <- (MultiAzFacts.enumerate_snd l k).
  apply in_map_iff. now exists (i, x).
Qed.

(** the subnets a call on [self] builds from the splitter's segments *)
Lemma public_nat_eq alphanum split self name_prefix cidr_block n segs :
  split cidr_block (Ec2.region self) n = inr segs ->
  let subnets :=
    map (fun p =>
           Ec2.make_subnet (title_prefix alphanum name_prefix) name_prefix
             (Ref (Ec2.vpc self)) (fst p) (snd p))
        (enumerate 0 segs) in
  Ec2.add_public_subnet_group alphanum split name_prefix cidr_block n true
    self
  = (Ok tt,
     update self
       (Ec2.nat_gateways self ++ map nat_gateway_of subnets)
       (Ec2.natted_route_tables self
          ++ map (route_table_of (Ec2.vpc self)) subnets)
       (Ec2.assign_all (Ec2._r self)
          (map (titled (title_prefix alphanum name_prefix))
             (flat_map
                (public_entries (Ec2.vpc self) (Ref (Ec2.public_nacl self))
                   (Ref (Ec2.public_route_table self)))
                subnets)))).
Proof.
  intros H. cbv zeta.
  unfold Ec2.add_public_subnet_group, bind, get_self, lift.
  rewrite (ec2_ok alphanum split _ _ _ _ _ _ _ _ H). cbn [supplied].
  unfold title_prefix.
  rewrite public_loop_eq
    by (intros res I Hb;
        apply (blocks_have_metadata _ _ _ _ _ _ _ I);
        unfold builds_nat in Hb; exact Hb).
  now rewrite public_gateways_blocks, public_tables_blocks,
    public_writes_blocks.
Qed.

End GroupFacts.

Section GroupSpec.
Import Views DictFacts VpcFacts MultiAzFacts GroupFacts.
Variable alphanum : string -> string.
Variable split : string -> string -> Z -> ExtExc + list Pawslib.Segment.

(** X6.  [add_subnet_group] calls [multiaz_subnets] with [self.region],
    [self.vpc] and four subnets, whatever [vpc] and [no_of_subnets] it was
    given.  When that call raises, the exception is passed on and the
    template is unchanged.  When it returns, [add_subnet_group] returns
    normally, every returned resource is then in [self._r] under its title,
    every other key of [self._r] is as before, and nothing else of the
    template changes. *)
Theorem add_subnet_group_outcome
    self name_prefix cidr_block vpc_arg no_of_subnets network_acl route_table :
  let r :=
    Ec2.add_subnet_group alphanum split name_prefix cidr_block vpc_arg
      no_of_subnets network_acl route_table self in
  match
    Ec2.multiaz_subnets alphanum split name_prefix cidr_block
      (Ec2.region self) (Some (Ec2.vpc self)) None 4 network_acl None
      route_table None
  with
  | Raise e => r = (Raise e, self)
  | Ok resources =>
      fst r = Ok tt /\
      snd r = update self (Ec2.nat_gateways self)
                (Ec2.natted_route_tables self) (Ec2._r (snd r)) /\
      (forall res, In res resources ->
         sget (Ec2._r (snd r)) (title res) = Some res) /\
      (forall k, ~ In k (map title resources) ->
         sget (Ec2._r (snd r)) k = sget (Ec2._r self) k)
  end.
Proof.
  cbv zeta. unfold Ec2.add_subnet_group, bind, get_self, lift.
  destruct (Ec2.multiaz_subnets _ _ _ _ _ _ _ _ _ _ _ _)
    as [resources|e] eqn:H; [|reflexivity].
  rewrite plain_loop_eq. cbn [fst snd update Ec2._r].
  split; [reflexivity|]. split; [reflexivity|].
  apply ec2_result in H. destruct H as (vid & segs & _ & _ & ->).
  split.
  - intros res I. apply sget_assign_all_nodup.
    + rewrite map_map. cbn [fst].
      apply (result_titles_nodup (alphanum name_prefix));
        [reflexivity | apply enumerate_nodup].
    + apply in_map_iff. exists res. auto.
  - intros k N. apply sget_assign_all_other.
    now rewrite map_map.
Qed.

(** X7.  With its default arguments (four subnets, no NAT gateways)
    [add_public_subnet_group] does what [add_subnet_group] does when given
    the public network ACL and the public route table of the template: both
    have the same outcome and leave the same template. *)
Theorem add_public_subnet_group_plain
    self name_prefix cidr_block vpc_arg no_of_subnets :
  Ec2.add_public_subnet_group alphanum split name_prefix cidr_block 4 false
    self
  = Ec2.add_subnet_group alphanum split name_prefix cidr_block vpc_arg
      no_of_subnets (Some (Ec2.public_nacl self))
      (Some (Ec2.public_route_table self)) self.
Proof.
  unfold Ec2.add_public_subnet_group, Ec2.add_subnet_group, bind, get_self,
    lift.
  destruct (Ec2.multiaz_subnets _ _ _ _ _ _ _ _ _ _ _ _)
    as [resources|e]; [|reflexivity].
  apply public_loop_plain.
Qed.

(** X8.  [add_natted_subnet_group] does not undo its work when it raises:
    if [s] is the first returned subnet that has no natted route table in
    its zone, the call raises [NotImplementedError] naming the zone of [s],
    and [self._r] then holds the resources returned before [s], with the
    route associations built for the subnets among them, and [s] itself. *)
Theorem add_natted_subnet_group_partial
    self cidr_block name_prefix no_of_subnets before s after :
  Ec2.multiaz_subnets alphanum split name_prefix cidr_block (Ec2.region self)
    (Some (Ec2.vpc self)) None 4 (Some (Ec2.internal_nacl self)) None
    None None = Ok (before ++ s :: after)%list ->
  Forall has_metadata (Ec2.natted_route_tables self) ->
  (forall res, In res before ->
     unmatched (Ec2.natted_route_tables self) res = false) ->
  unmatched (Ec2.natted_route_tables self) s = true ->
  Ec2.add_natted_subnet_group alphanum split cidr_block name_prefix
    no_of_subnets self
  = (Raise (NotImplementedError
              ("Can't find NAT gateway in " ++ az (meta_of s))),
     update self (Ec2.nat_gateways self) (Ec2.natted_route_tables self)
       (sset
          (Ec2.assign_all (Ec2._r self)
             (flat_map (natted_writes (Ec2.natted_route_tables self))
                before))
          (title s) s)).
Proof.
  intros H Ht Hb Hs.
  unfold Ec2.add_natted_subnet_group, bind, get_self, lift. rewrite H.
  apply ec2_result in H. destruct H as (vid & segs & _ & _ & E).
  apply natted_loop_partial; auto.
  intros res I. apply (blocks_have_metadata (alphanum name_prefix) name_prefix
                         vid (supplied (Some (Ec2.internal_nacl self)) None)
                         (supplied None None) (enumerate 0 segs)).
  fold (title_prefix alphanum name_prefix). rewrite <- E.
  apply in_app_iff. apply in_app_iff in I.
  destruct I as [I|[<-|[]]]; [now left | right; now left].
Qed.

(** X9.  On a template built by the class, [add_public_subnet_group] with
    [create_nat_gateways=True] returns normally when the splitter does, and
    a following [add_natted_subnet_group] returns normally too, provided
    every zone the splitter gives it is, up to letter case, among the zones
    of the public subnets just created. *)
Theorem add_natted_after_public
    self public_prefix public_cidr n public_segments
    cidr_block name_prefix no_of_subnets segments :
  Ec2.reachable alphanum split self ->
  split public_cidr (Ec2.region self) n = inr public_segments ->
  split cidr_block (Ec2.region self) 4 = inr segments ->
  (forall seg, In seg segments ->
     exists pub, In pub public_segments /\
       PyStr.lower (Pawslib.az pub) = PyStr.lower (Pawslib.az seg)) ->
  let first :=
    Ec2.add_public_subnet_group alphanum split public_prefix public_cidr n
      true self in
  fst first = Ok tt /\
  fst (Ec2.add_natted_subnet_group alphanum split cidr_block name_prefix
         no_of_subnets (snd first)) = Ok tt.
Proof.
  intros R H1 H2 Hz. cbv zeta.
  pose proof (reachable_tables_have_metadata alphanum split self R) as W.
  pose proof (natted_tables_keep_metadata alphanum split self public_prefix
                public_cidr n true W) as W1.
  revert W1.
  unfold Ec2.add_public_subnet_group, bind, get_self, lift.
  rewrite (ec2_ok alphanum split _ _ _ _ _ _ _ _ H1). cbn [supplied].
  unfold title_prefix.
  rewrite public_loop_eq
    by (intros res I Hb;
        apply (blocks_have_metadata _ _ _ _ _ _ _ I);
        unfold builds_nat in Hb; exact Hb).
  cbn [fst snd]. intros W1. split; [reflexivity|].
  rewrite public_tables_blocks in *.
  set (mk1 := fun p : nat * Pawslib.Segment =>
                Ec2.make_subnet
                  (PyStr.capitalize (PyStr.lower (alphanum public_prefix)))
                  public_prefix (Ref (Ec2.vpc self)) (fst p) (snd p)) in *.
  set (self1 := update self _ _ _) in *.
  unfold Ec2.add_natted_subnet_group, bind, get_self, lift.
  change (Ec2.region self1) with (Ec2.region self).
  rewrite (ec2_ok alphanum split _ _ _ _ _ _ _ _ H2). cbn [supplied].
  unfold title_prefix.
  rewrite natted_loop_ok; [reflexivity | | exact W1 |].
  - intros res I. apply (blocks_have_metadata _ _ _ _ _ _ _ I).
  - intros res I. unfold unmatched.
    destruct (is_subnet res) eqn:Es; [|reflexivity]. cbn [andb].
    destruct (subnets_of_result _ _ _ _ _ I Es) as (i & seg & Ii & ->).
    apply enumerate_in in Ii.
    destruct (Hz seg Ii) as (pub & Ip & Ez).
    destruct (in_enumerate pub public_segments 0 Ip) as (j & Ij).
    destruct (matching_table _ _) eqn:Em; [reflexivity|].
    exfalso.
    apply (proj1 (matching_table_none _ _) Em
             (route_table_of (Ec2.vpc self) (mk1 (j, pub)))).
    + cbn [Ec2.natted_route_tables self1 update]. apply in_or_app. right.
      apply in_map. apply (in_map mk1) in Ij. exact Ij.
    + exact Ez.
Qed.

(** X17.  NAT resources are titled by the number of their subnet alone, so
    a second [add_public_subnet_group] with [create_nat_gateways=True]
    reuses the keys of the first: [self.nat_gateways] then lists the NAT
    gateways of both calls, but for every subnet number that both calls
    created, [self._r] holds under NatGw<number> the gateway of the second
    call, which is another gateway than the first call's whenever the two
    title prefixes differ. *)
Theorem second_nat_group_replaces_first
    self prefix1 cidr1 n1 segs1 prefix2 cidr2 n2 segs2 :
  split cidr1 (Ec2.region self) n1 = inr segs1 ->
  split cidr2 (Ec2.region self) n2 = inr segs2 ->
  let self1 :=
    snd (Ec2.add_public_subnet_group alphanum split prefix1 cidr1 n1 true
           self) in
  let self2 :=
    snd (Ec2.add_public_subnet_group alphanum split prefix2 cidr2 n2 true
           self1) in
  let subnet1 :=
    Ec2.make_subnet (title_prefix alphanum prefix1) prefix1
      (Ref (Ec2.vpc self)) in
  let subnet2 :=
    Ec2.make_subnet (title_prefix alphanum prefix2) prefix2
      (Ref (Ec2.vpc self)) in
  Ec2.nat_gateways self2
  = (Ec2.nat_gateways self
     ++ map (fun p => nat_gateway_of (subnet1 (fst p) (snd p)))
          (enumerate 0 segs1)
     ++ map (fun p => nat_gateway_of (subnet2 (fst p) (snd p)))
          (enumerate 0 segs2))%list /\
  forall i seg1 seg2,
    In (i, seg1) (enumerate 0 segs1) -> In (i, seg2) (enumerate 0 segs2) ->
    let gw1 := nat_gateway_of (subnet1 i seg1) in
    let gw2 := nat_gateway_of (subnet2 i seg2) in
    In gw1 (Ec2.nat_gateways self2) /\
    title gw1 = "NatGw" ++ PyStr.str_of_nat (i + 1) /\
    title gw2 = "NatGw" ++ PyStr.str_of_nat (i + 1) /\
    sget (Ec2._r self2) ("NatGw" ++ PyStr.str_of_nat (i + 1)) = Some gw2 /\
    (title_prefix alphanum prefix1 <> title_prefix alphanum prefix2 ->
     gw1 <> gw2).
Proof.
  intros H1 H2. cbv zeta.
  rewrite (public_nat_eq alphanum split self prefix1 cidr1 n1 segs1 H1).
  cbv zeta. cbn [snd].
  set (self1 := update self _ _ _).
  assert (H2' : split cidr2 (Ec2.region self1) n2 = inr segs2) by exact H2.
  rewrite (public_nat_eq alphanum split self1 prefix2 cidr2 n2 segs2 H2').
  cbv zeta. cbn [snd update Ec2.nat_gateways Ec2._r].
  subst self1. cbn [update Ec2.vpc Ec2.nat_gateways Ec2._r Ec2.public_nacl
    Ec2.public_route_table].
  split; [now rewrite <- app_assoc, !map_map|].
  intros i seg1 seg2 I1 I2.
  split.
  { apply in_or_app. left. apply in_or_app. right. rewrite map_map.
    apply in_map_iff. now exists (i, seg1). }
  split; [reflexivity|]. split; [reflexivity|]. split.
  - unfold title_prefix.
    set (subnets2 := map _ (enumerate 0 segs2)).
    assert (Is : In (Ec2.make_subnet
                       (PyStr.capitalize (PyStr.lower (alphanum prefix2)))
                       prefix2 (Ref (Ec2.vpc self)) i seg2) subnets2)
      by (apply in_map_iff; now exists (i, seg2)).
    apply (sget_entries_agree (alphanum prefix2) _ _ (Ec2.KNatGw (i + 1))).
    + apply in_flat_map. eexists. split; [exact Is|]. cbn. auto.
    + intros v' Iv.
      apply (public_entries_agree (Ec2.vpc self)
               (Ref (Ec2.public_nacl self))
               (Ref (Ec2.public_route_table self)) subnets2 _
               (Ec2.KNatGw (i + 1)) _ v'
               (subnet_numbers_nodup (alphanum prefix2) prefix2
                  (Ref (Ec2.vpc self)) (enumerate 0 segs2)
                  (enumerate_nodup segs2 0)) Is);
        [cbn; auto | discriminate | exact Iv].
  - intros N E. apply N.
    apply (f_equal (fun g => prop g "SubnetId")) in E. cbn in E.
    injection E as E. now apply PyStrFacts.append_inv_tail in E.
Qed.

End GroupSpec.

Lemma add_natted_subnet_group_partial_witness :
  exists s after,
    Ec2.multiaz_subnets Sample.alphanum Sample.split "private" "10.0.1.0/24"
      (Ec2.region Sample.template) (Some (Ec2.vpc Sample.template)) None 4
      (Some (Ec2.internal_nacl Sample.template)) None None None
    = Ok ([] ++ s :: after)%list /\
    title s = "Private1" /\
    Ec2.natted_route_tables Sample.template = [] /\
    Views.unmatched (Ec2.natted_route_tables Sample.template) s = true /\
    Ec2.add_natted_subnet_group Sample.alphanum Sample.split "10.0.1.0/24"
      "private" 4 Sample.template
    = (Raise (NotImplementedError "Can't find NAT gateway in eu-west-1a"),
       Views.update Sample.template [] []
         (sset (Ec2._r Sample.template) "Private1" s)).
Proof.
  eexists. eexists.
  split; [vm_compute; reflexivity|].
  split; [reflexivity|]. split; [reflexivity|]. split; [reflexivity|].
  apply (add_natted_subnet_group_partial Sample.alphanum Sample.split
           Sample.template "10.0.1.0/24" "private" 4 [] _ _ eq_refl).
  - constructor.
  - intros res [].
  - reflexivity.
Defined.

Lemma add_natted_after_public_witness :
  Ec2.reachable Sample.alphanum Sample.split Sample.template /\
  (exists public_segments segments,
     Sample.split "10.0.0.0/24" "eu-west-1" 4 = inr public_segments /\
     Sample.split "10.0.1.0/24" "eu-west-1" 4 = inr segments /\
     (forall seg, In seg segments ->
        exists pub, In pub public_segments /\
          PyStr.lower (Pawslib.az pub) = PyStr.lower (Pawslib.az seg))) /\
  fst (Ec2.add_public_subnet_group Sample.alphanum Sample.split "public"
         "10.0.0.0/24" 4 true Sample.template) = Ok tt /\
  fst (Ec2.add_natted_subnet_group Sample.alphanum Sample.split "10.0.1.0/24"
         "private" 4 Sample.template_with_nat) = Ok tt.
Proof.
  assert (R : Ec2.reachable Sample.alphanum Sample.split Sample.template)
    by apply Ec2.reach_init.
  assert (Z : forall seg,
             In seg
               [Pawslib.mkSegment "eu-west-1a" "10.0.0.0/26";
                Pawslib.mkSegment "eu-west-1b" "10.0.0.64/26";
                Pawslib.mkSegment "eu-west-1c" "10.0.0.128/26";
                Pawslib.mkSegment "eu-west-1d" "10.0.0.192/26"] ->
             exists pub,
               In pub
                 [Pawslib.mkSegment "eu-west-1a" "10.0.0.0/26";
                  Pawslib.mkSegment "eu-west-1b" "10.0.0.64/26";
                  Pawslib.mkSegment "eu-west-1c" "10.0.0.128/26";
                  Pawslib.mkSegment "eu-west-1d" "10.0.0.192/26"] /\
               PyStr.lower (Pawslib.az pub) = PyStr.lower (Pawslib.az seg))
    by (intros seg I; exists seg; auto).
  split; [exact R|].
  split; [do 2 eexists; split; [vm_compute; reflexivity|];
          split; [vm_compute; reflexivity | exact Z]|].
  exact (add_natted_after_public Sample.alphanum Sample.split Sample.template
           "public" "10.0.0.0/24" 4 _ "10.0.1.0/24" "private" 4 _ R
           eq_refl eq_refl Z).
Defined.

(** * The keys of [__init__] and the keys of the subnet groups *)

Module ShapeFacts.
Import PyStr PyStrFacts Views DictFacts InitFacts.

Lemma init_like_numbered (f : ascii) (a : string) (i : nat) :
  init_like (String f a ++ str_of_nat i) = is_lower f.
Proof.
  unfold init_like. rewrite rchars_app.
  destruct (str_of_nat_last i) as (d & r & -> & Hd).
  cbn [app append]. now rewrite Hd.
Qed.

(** a string with a given end: its last character is that of the end *)
Lemma init_like_suffix (a w : string) (c : ascii) (t : list ascii) :
  rchars w = c :: t ->
  init_like (a ++ w)
  = match (a ++ w)%string with
    | String f _ =>
        if is_digit c then is_lower f
        else (negb (Ascii.eqb c "n") && negb (Ascii.eqb f "N"))%bool
    | EmptyString => false
    end.
Proof.
  intros Hw. unfold init_like. rewrite rchars_app, Hw. reflexivity.
Qed.

Lemma init_like_association (a : string) (w : string) (t : list ascii) :
  rchars w = "n"%char :: t -> init_like (a ++ w) = false.
Proof.
  intros Hw. rewrite (init_like_suffix a w _ _ Hw). cbn.
  now destruct (a ++ w)%string.
Qed.

(** no title or key that the subnet groups build has the shape of a key of
    [__init__] *)
Lemma generated_not_like raw k :
  init_like (Ec2.key_title (capitalize (lower raw)) k) = false.
Proof.
  destruct k as [n|n|n|n|n|n|letter]; cbn [Ec2.key_title].
  - destruct raw as [|c raw].
    + cbn [lower map_string capitalize append].
      destruct (str_of_nat_head n) as (d & r & E & Hd & _).
      destruct (str_of_nat_last n) as (l & t & El & Hl).
      unfold init_like. rewrite El, Hl, E.
      destruct d as [[] [] [] [] [] [] [] []]; try discriminate Hd;
        reflexivity.
    + destruct (str_of_nat_last n) as (l & t & El & Hl).
      rewrite (init_like_suffix _ _ _ _ El), Hl.
      cbn. apply upper_ascii_not_lower.
  - now apply (init_like_association _ "NaclAssociation"
                 (rchars "NaclAssociatio")).
  - now apply (init_like_association _ "RouteAssociation"
                 (rchars "RouteAssociatio")).
  - destruct (str_of_nat_last n) as (l & t & El & Hl).
    now rewrite (init_like_suffix _ _ _ _ El), Hl.
  - destruct (str_of_nat_last n) as (l & t & El & Hl).
    now rewrite (init_like_suffix _ _ _ _ El), Hl.
  - destruct (str_of_nat_last n) as (l & t & El & Hl).
    now rewrite (init_like_suffix _ _ _ _ El), Hl.
  - unfold init_like. cbn [append].
    destruct (rchars _) as [|l t]; [reflexivity|].
    destruct (is_digit l); [reflexivity|].
    now rewrite Bool.andb_false_r.
Qed.

Lemma like_neq k g : init_like k = true -> init_like g = false -> g <> k.
Proof. intros Hk Hg ->. congruence. Qed.

(** every key of [__init__] has the shape *)
Lemma init_keys_like region cidr_block name internet nets k :
  In k (map fst (Ec2._r (Ec2.init region cidr_block name internet nets))) ->
  init_like k = true.
Proof.
  rewrite init_r, !map_app, !internal_entries_keys.
  rewrite !in_app_iff. intros I.
  repeat match type of I with
         | _ \/ _ => destruct I as [I|I]
         | In _ (map _ (seq _ _)) =>
             apply in_map_iff in I; destruct I as (i & <- & _);
             apply init_like_numbered
         | In _ (if internet then _ else _) => destruct internet
         | In _ (map fst (if internet then _ else _)) => destruct internet
         | In _ (map fst (_ :: _)) => cbn [map fst In] in I
         | In _ (map fst []) => destruct I
         | In _ [] => destruct I
         | False => destruct I
         | _ = _ => subst k; reflexivity
         end.
Qed.

Lemma sset_keeps (d : sdict Resource) g v k :
  init_like k = true -> init_like g = false ->
  sget (sset d g v) k = sget d k.
Proof.
  intros Hk Hg. apply sget_sset_other. intros E. subst. congruence.
Qed.

Lemma nat_keys_not_like (m : Meta) vpc subnet :
  init_like (title (Ec2.nat_eip m)) = false /\
  init_like (title (Ec2.nat_gateway subnet m)) = false /\
  init_like (title (Ec2.private_route_table vpc m)) = false /\
  init_like
    (title (Ec2.nat_route (Ec2.private_route_table vpc m)
              (Ec2.nat_gateway subnet m) m)) = false.
Proof.
  repeat split.
  - apply (generated_not_like EmptyString (Ec2.KEip (suffix m))).
  - apply (generated_not_like EmptyString (Ec2.KNatGw (suffix m))).
  - apply (generated_not_like EmptyString (Ec2.KPrivRouteTable (suffix m))).
  - apply (generated_not_like EmptyString
             (Ec2.KNatRoute (upper (az_index m)))).
Qed.

(** a step of the three loops leaves the keys of that shape alone, also
    when it raises *)
Lemma public_step_keeps nat res s k :
  init_like k = true -> init_like (title res) = false ->
  sget (Ec2._r (snd (Ec2.public_subnet_step nat res s))) k
  = sget (Ec2._r s) k.
Proof.
  intros Hk Hr. unfold Ec2.public_subnet_step.
  destruct (nat && (rtype res =? "AWS::EC2::Subnet")%string)%bool.
  - unfold bind, Ec2.set_r, modify, lift, get_self, Ec2.metadata_of.
    destruct (Metadata res) as [m|]; cbn [fst snd Ec2._r Ec2.with_r
      Ec2.with_nat_gateways Ec2.with_natted_route_tables Ec2.vpc].
    + destruct (nat_keys_not_like m (Ec2.vpc s) res) as (E1 & E2 & E3 & E4).
      rewrite !sset_keeps; auto.
    + now apply sset_keeps.
  - unfold bind, Ec2.set_r, modify, ret. cbn [snd Ec2._r Ec2.with_r].
    now apply sset_keeps.
Qed.

Lemma natted_step_keeps res s k :
  init_like k = true -> init_like (title res) = false ->
  sget (Ec2._r (snd (Ec2.natted_subnet_step res s))) k = sget (Ec2._r s) k.
Proof.
  intros Hk Hr. unfold Ec2.natted_subnet_step.
  destruct (rtype res =? "AWS::EC2::Subnet")%string.
  - unfold bind, Ec2.set_r, modify, lift, get_self, raise.
    cbn [fst snd Ec2._r Ec2.with_r Ec2.natted_route_tables].
    destruct (Ec2.find_route_table res (Ec2.natted_route_tables s))
      as [[t|]|e]; cbn [fst snd Ec2._r Ec2.with_r].
    + rewrite !sset_keeps; auto.
      now apply (init_like_association _ "RouteAssociation"
                   (rchars "RouteAssociatio")).
    + destruct (Ec2.metadata_of res); cbn [snd Ec2._r Ec2.with_r];
        now apply sset_keeps.
    + now apply sset_keeps.
  - unfold bind, Ec2.set_r, modify, ret. cbn [snd Ec2._r Ec2.with_r].
    now apply sset_keeps.
Qed.

Lemma for_each_keeps {X} (body : X -> M Ec2.VpcTemplate unit) l k :
  (forall x s, In x l ->
     sget (Ec2._r (snd (body x s))) k = sget (Ec2._r s) k) ->
  forall s, sget (Ec2._r (snd (for_each l body s))) k = sget (Ec2._r s) k.
Proof.
  induction l as [|x l IH]; intros Hb s; [reflexivity|].
  cbn [for_each]. unfold bind.
  pose proof (Hb x s (or_introl eq_refl)) as Hx.
  destruct (body x s) as [[[]|e] s']; cbn [snd] in *; [|exact Hx].
  rewrite IH; [exact Hx|]. intros y s0 I. apply Hb. now right.
Qed.

(** the titles of the resources [multiaz_subnets] returns never have the
    shape *)
Lemma returned_not_like alphanum split name_prefix cidr_block region vpc
    vpc_id n acl acl_id rt rt_id resources res :
  Ec2.multiaz_subnets alphanum split name_prefix cidr_block region vpc vpc_id
    n acl acl_id rt rt_id = Ok resources ->
  In res resources -> init_like (title res) = false.
Proof.
  intros H I. apply MultiAzFacts.ec2_result in H.
  destruct H as (vid & segs & _ & _ & ->).
  apply (in_map title) in I.
  rewrite (MultiAzFacts.result_titles (alphanum name_prefix)) in I
    by reflexivity.
  apply in_map_iff in I. destruct I as (key & <- & _).
  apply generated_not_like.
Qed.

Section Groups.
Variable alphanum : string -> string.
Variable split : string -> string -> Z -> ExtExc + list Pawslib.Segment.
Variables (k : string) (self : Ec2.VpcTemplate).
Hypothesis Hk : init_like k = true.

Lemma plain_group_keeps name_prefix cidr vpc_arg n acl rt :
  sget (Ec2._r (snd (Ec2.add_subnet_group alphanum split name_prefix cidr
                       vpc_arg n acl rt self))) k
  = sget (Ec2._r self) k.
Proof.
  unfold Ec2.add_subnet_group, bind, get_self, lift.
  destruct (Ec2.multiaz_subnets _ _ _ _ _ _ _ _ _ _ _ _)
    as [resources|e] eqn:H; [|reflexivity].
  apply for_each_keeps. intros res s Ir.
  unfold Ec2.set_r, modify. cbn [snd Ec2._r Ec2.with_r].
  apply sset_keeps; [exact Hk|].
  exact (returned_not_like _ _ _ _ _ _ _ _ _ _ _ _ _ _ H Ir).
Qed.

Lemma public_group_keeps name_prefix cidr n nat :
  sget (Ec2._r (snd (Ec2.add_public_subnet_group alphanum split name_prefix
                       cidr n nat self))) k
  = sget (Ec2._r self) k.
Proof.
  unfold Ec2.add_public_subnet_group, bind, get_self, lift.
  destruct (Ec2.multiaz_subnets _ _ _ _ _ _ _ _ _ _ _ _)
    as [resources|e] eqn:H; [|reflexivity].
  apply for_each_keeps. intros res s Ir.
  apply public_step_keeps; [exact Hk|].
  exact (returned_not_like _ _ _ _ _ _ _ _ _ _ _ _ _ _ H Ir).
Qed.

Lemma natted_group_keeps cidr name_prefix n :
  sget (Ec2._r (snd (Ec2.add_natted_subnet_group alphanum split cidr
                       name_prefix n self))) k
  = sget (Ec2._r self) k.
Proof.
  unfold Ec2.add_natted_subnet_group, bind, get_self, lift.
  destruct (Ec2.multiaz_subnets _ _ _ _ _ _ _ _ _ _ _ _)
    as [resources|e] eqn:H; [|reflexivity].
  apply for_each_keeps. intros res s Ir.
  apply natted_step_keeps; [exact Hk|].
  exact (returned_not_like _ _ _ _ _ _ _ _ _ _ _ _ _ _ H Ir).
Qed.

End Groups.

End ShapeFacts.

Section FrameSpec.
Import Views ShapeFacts.
Variable alphanum : string -> string.
Variable split : string -> string -> Z -> ExtExc + list Pawslib.Segment.

(** X10.  No subnet-group method writes to a key of [self._r] that
    [__init__] uses: whatever the arguments and whether the call returns or
    raises, [add_subnet_group], [add_public_subnet_group] and
    [add_natted_subnet_group] leave the entry under every key written by
    the constructor (the VPC, the gateway, the public route table, the two
    network ACLs and their entries) as it was. *)
Theorem subnet_groups_keep_init_entries
    region cidr_block name internet internal_networks k
    self name_prefix cidr vpc_arg no_of_subnets network_acl route_table
    create_nat_gateways :
  In k (map fst
          (Ec2._r (Ec2.init region cidr_block name internet
                     internal_networks))) ->
  sget (Ec2._r (snd (Ec2.add_subnet_group alphanum split name_prefix cidr
                       vpc_arg no_of_subnets network_acl route_table self)))
    k = sget (Ec2._r self) k
  /\ sget (Ec2._r (snd (Ec2.add_public_subnet_group alphanum split
                          name_prefix cidr no_of_subnets create_nat_gateways
                          self))) k
     = sget (Ec2._r self) k
  /\ sget (Ec2._r (snd (Ec2.add_natted_subnet_group alphanum split cidr
                          name_prefix no_of_subnets self))) k
     = sget (Ec2._r self) k.
Proof.
  intros I. apply init_keys_like in I.
  split; [now apply plain_group_keeps|].
  split; [now apply public_group_keeps | now apply natted_group_keeps].
Qed.

End FrameSpec.

(** * [peer_with_another_vpc] *)

Module PeerFacts.
Import Views DictFacts VpcFacts PeerViews.

(** a loop of assignments *)
Lemma set_loop_eq {X} (f : X -> string * Resource) l :
  forall self,
    for_each l (fun x => Ec2.set_r (fst (f x)) (snd (f x))) self
    = (Ok tt,
       update self (Ec2.nat_gateways self) (Ec2.natted_route_tables self)
         (Ec2.assign_all (Ec2._r self) (map f l))).
Proof.
  induction l as [|x l IH]; intros self.
  - cbn. unfold ret. now rewrite update_id.
  - cbn [for_each map]. unfold bind at 1. unfold Ec2.set_r at 1, modify.
    rewrite IH. destruct self. reflexivity.
Qed.

(** a loop whose body reads the template and then assigns *)
Lemma read_loop_eq {X} (g : Ec2.VpcTemplate -> X -> list (string * Resource))
    (body : X -> M Ec2.VpcTemplate unit) l :
  (forall x self,
      body x self
      = (Ok tt,
         update self (Ec2.nat_gateways self) (Ec2.natted_route_tables self)
           (Ec2.assign_all (Ec2._r self) (g self x)))) ->
  (forall x self r,
      g (update self (Ec2.nat_gateways self) (Ec2.natted_route_tables self) r)
        x = g self x) ->
  forall self,
    for_each l body self
    = (Ok tt,
       update self (Ec2.nat_gateways self) (Ec2.natted_route_tables self)
         (Ec2.assign_all (Ec2._r self) (flat_map (g self) l))).
Proof.
  intros Hb Hg. induction l as [|x l IH]; intros self.
  - cbn. unfold ret. now rewrite update_id.
  - cbn [for_each flat_map]. unfold bind at 1. rewrite Hb, IH.
    cbn [update Ec2.nat_gateways Ec2.natted_route_tables Ec2._r].
    rewrite (flat_map_ext _ (g self)) by (intros y; apply Hg).
    rewrite assign_all_app. destruct self. reflexivity.
Qed.

(** what stays under a key after a run of assignments built by [f] *)
Lemma sget_assign_all_map {X V} (f : X -> string * V) l :
  forall d k,
    sget (Ec2.assign_all d (map f l)) k
    = match last_with (fun x => (fst (f x) =? k)%string) l with
      | Some x => Some (snd (f x))
      | None => sget d k
      end.
Proof.
  unfold last_with.
  induction l as [|x l IH] using rev_ind; intros d k; [reflexivity|].
  rewrite map_app, assign_all_app, rev_app_distr. cbn [map rev app find].
  unfold Ec2.assign_all at 1. cbn [fold_left fst snd].
  destruct (String.eqb_spec (fst (f x)) k) as [<-|N].
  - apply sget_sset_same.
  - rewrite sget_sset_other by congruence. apply IH.
Qed.

Lemma route_key_eqb (t a b : string) :
  ((t ++ "Peer" ++ a ++ "Route") =? (t ++ "Peer" ++ b ++ "Route"))%string
  = (a =? b)%string.
Proof.
  destruct (String.eqb_spec a b) as [->|N].
  - apply String.eqb_refl.
  - apply String.eqb_neq. intros E. apply N.
    apply PyStrFacts.append_inv_head in E.
    apply PyStrFacts.append_inv_head in E.
    now apply PyStrFacts.append_inv_tail in E.
Qed.

Lemma flat_map_single {A B} (f : A -> B) l :
  flat_map (fun x => [f x]) l = map f l.
Proof. induction l; cbn; congruence. Qed.

(** the method as one run of assignments *)
Lemma peer_eq alphanum peer_vpc_id peer_vpc_name peer_role_arn peer_owner_id
    peer_region peer_cidrs private public self :
  let conn :=
    peering_connection alphanum self peer_vpc_id peer_vpc_name peer_role_arn
      peer_owner_id peer_region in
  Ec2.peer_with_another_vpc alphanum peer_vpc_id peer_vpc_name peer_role_arn
    peer_owner_id peer_region peer_cidrs private public self
  = (Ok tt,
     update self (Ec2.nat_gateways self) (Ec2.natted_route_tables self)
       (Ec2.assign_all (Ec2._r self)
          ((title conn, conn)
           :: (if private then private_routes alphanum self conn peer_cidrs
               else [])
           ++ (if public then public_routes alphanum self conn peer_cidrs
               else [])))).
Proof.
  cbv zeta. unfold Ec2.peer_with_another_vpc.
  fold (peering_connection alphanum self peer_vpc_id peer_vpc_name
          peer_role_arn peer_owner_id peer_region).
  set (conn := peering_connection alphanum self peer_vpc_id peer_vpc_name
                 peer_role_arn peer_owner_id peer_region).
  unfold bind at 1. unfold get_self at 1.
  unfold bind at 1. unfold Ec2.set_r at 1, modify.
  set (s1 := Ec2.with_r self _).
  assert (P : forall s,
             (if private then
                for_each peer_cidrs (fun cidr =>
                  self <- get_self ;;
                  for_each (Ec2.natted_route_tables self) (fun route_table =>
                    let kv := Ec2.peer_route alphanum route_table conn cidr in
                    Ec2.set_r (fst kv) (snd kv)))
              else ret tt) s
             = (Ok tt,
                update s (Ec2.nat_gateways s) (Ec2.natted_route_tables s)
                  (Ec2.assign_all (Ec2._r s)
                     (if private then private_routes alphanum s conn peer_cidrs
                      else [])))).
  { intros s. destruct private.
    - unfold private_routes.
      apply (read_loop_eq
               (fun self cidr =>
                  map (fun t => Ec2.peer_route alphanum t conn cidr)
                    (Ec2.natted_route_tables self))).
      + intros cidr s0. unfold bind, get_self.
        apply (set_loop_eq (fun t => Ec2.peer_route alphanum t conn cidr)).
      + reflexivity.
    - unfold ret. cbn. now rewrite update_id. }
  assert (Q : forall s,
             (if public then
                for_each peer_cidrs (fun cidr =>
                  self <- get_self ;;
                  let kv :=
                    Ec2.peer_route alphanum (Ec2.public_route_table self) conn
                      cidr in
                  Ec2.set_r (fst kv) (snd kv))
              else ret tt) s
             = (Ok tt,
                update s (Ec2.nat_gateways s) (Ec2.natted_route_tables s)
                  (Ec2.assign_all (Ec2._r s)
                     (if public then public_routes alphanum s conn peer_cidrs
                      else [])))).
  { intros s. destruct public.
    - unfold public_routes. rewrite <- flat_map_single.
      apply (read_loop_eq
               (fun self cidr =>
                  [Ec2.peer_route alphanum (Ec2.public_route_table self) conn
                     cidr])).
      + intros cidr s0. unfold bind, get_self, Ec2.set_r, modify.
        destruct s0. reflexivity.
      + reflexivity.
    - unfold ret. cbn. now rewrite update_id. }
  unfold bind at 1. rewrite P. rewrite Q.
  subst s1. destruct self, private, public; cbn; rewrite ?app_nil_r;
    rewrite <- ?assign_all_app; reflexivity.
Qed.

Lemma last_with_ext {A} (p q : A -> bool) l :
  (forall x, p x = q x) -> last_with p l = last_with q l.
Proof.
  intros H. unfold last_with.
  induction (rev l) as [|x r IH]; cbn; [reflexivity|].
  now rewrite H, IH.
Qed.

Lemma last_with_some {A} (p : A -> bool) l x :
  In x l -> p x = true ->
  exists y, last_with p l = Some y /\ In y l /\ p y = true.
Proof.
  intros I Hx. unfold last_with.
  destruct (find p (rev l)) as [y|] eqn:E.
  - apply find_some in E. destruct E as [Iy Hy].
    exists y. rewrite <- in_rev in Iy. auto.
  - rewrite (find_none _ _ E x) in Hx; [discriminate|].
    now rewrite <- in_rev.
Qed.

Lemma last_with_app {A} (p : A -> bool) a b :
  last_with p (a ++ b)
  = match last_with p b with
    | Some x => Some x
    | None => last_with p a
    end.
Proof.
  unfold last_with. rewrite rev_app_distr.
  induction (rev b) as [|x r IH]; cbn; [reflexivity|].
  now destruct (p x).
Qed.

Lemma last_with_in {A} (p : A -> bool) l x :
  last_with p l = Some x -> In x l /\ p x = true.
Proof.
  unfold last_with. intros E. apply find_some in E.
  now rewrite <- in_rev in E.
Qed.

(** the last assignment to a NAT route key is that of the last subnet with
    the zone letter *)
Lemma last_nat_route raw vpc a b letter subnets :
  let P := PyStr.capitalize (PyStr.lower raw) in
  last_with
    (fun e => (fst (titled P e) =? Ec2.key_title P (Ec2.KNatRoute letter))
              %string)
    (flat_map (public_entries vpc a b) subnets)
  = option_map
      (fun s => (Ec2.KNatRoute (PyStr.upper (az_index (meta_of s))),
                 nat_route_of vpc s))
      (last_with
         (fun s => (PyStr.upper (az_index (meta_of s)) =? letter)%string)
         subnets).
Proof.
  cbv zeta. induction subnets as [|s l IH] using rev_ind; [reflexivity|].
  rewrite flat_map_app, !last_with_app, IH. cbn [flat_map].
  rewrite app_nil_r.
  assert (Q : forall k,
             (fst (titled (PyStr.capitalize (PyStr.lower raw))
                     (k, nat_route_of vpc s))
              =? Ec2.key_title (PyStr.capitalize (PyStr.lower raw))
                   (Ec2.KNatRoute letter))%string = true
             <-> k = Ec2.KNatRoute letter).
  { intros k. cbn [titled fst]. rewrite String.eqb_eq. split.
    - apply TitleFacts.key_title_inj.
    - now intros ->. }
  assert (F : forall k (v : Resource),
             (forall x, k <> Ec2.KNatRoute x) ->
             (fst (titled (PyStr.capitalize (PyStr.lower raw)) (k, v))
              =? Ec2.key_title (PyStr.capitalize (PyStr.lower raw))
                   (Ec2.KNatRoute letter))%string = false).
  { intros k v N. apply String.eqb_neq. cbn [titled fst]. intros E.
    apply TitleFacts.key_title_inj in E. now apply (N letter). }
  unfold last_with at 1 3. unfold public_entries.
  cbn [rev app find].
  rewrite ?(F (Ec2.KSubnet _)), ?(F (Ec2.KEip _)), ?(F (Ec2.KNatGw _)),
    ?(F (Ec2.KPrivRouteTable _)), ?(F (Ec2.KNaclAssociation _)),
    ?(F (Ec2.KRouteAssociation _)) by (intros x; discriminate).
  destruct (String.eqb_spec (PyStr.upper (az_index (meta_of s))) letter)
    as [E|N].
  - rewrite (proj2 (Q _)) by now rewrite E. reflexivity.
  - destruct (_ =? _)%string eqn:D; [|reflexivity].
    apply Q in D. congruence.
Qed.

End PeerFacts.

Section PeerSpec.
Import Views DictFacts PeerViews PeerFacts.
Variable alphanum : string -> string.

(** X11.  [peer_with_another_vpc] never raises and changes nothing of the
    template but [self._r].  It writes, in this order, the peering
    connection under its title; when [add_route_to_private_tables] is set,
    for each CIDR a route for each natted route table; and when
    [add_route_to_public_table] is set, for each CIDR a route for the public
    route table.  So with no CIDR, or with both flags off, the connection is
    the only thing it stores. *)
Theorem peer_with_another_vpc_outcome
    peer_vpc_id peer_vpc_name peer_role_arn peer_owner_id peer_region
    peer_cidrs private public self :
  let conn :=
    peering_connection alphanum self peer_vpc_id peer_vpc_name peer_role_arn
      peer_owner_id peer_region in
  let r :=
    Ec2.peer_with_another_vpc alphanum peer_vpc_id peer_vpc_name
      peer_role_arn peer_owner_id peer_region peer_cidrs private public self
  in
  fst r = Ok tt /\
  snd r = update self (Ec2.nat_gateways self) (Ec2.natted_route_tables self)
            (Ec2._r (snd r)) /\
  Ec2._r (snd r)
  = Ec2.assign_all (Ec2._r self)
      ((title conn, conn)
       :: (if private then private_routes alphanum self conn peer_cidrs
           else [])
       ++ (if public then public_routes alphanum self conn peer_cidrs
           else [])) /\
  (peer_cidrs = [] \/ (private = false /\ public = false) ->
   Ec2._r (snd r) = sset (Ec2._r self) (title conn) conn).
Proof.
  cbv zeta. rewrite peer_eq. cbn [fst snd update Ec2._r].
  repeat split.
  intros [->|[-> ->]]; [destruct private, public|]; reflexivity.
Qed.

(** X12.  When [add_route_to_public_table] is set, the route that
    [peer_with_another_vpc] leaves in [self._r] for a CIDR is the one of the
    last CIDR of [peer_cidrs] with the same [alphanum] image: two CIDRs that
    [alphanum] maps to the same string share one key, and the later
    replaces the earlier. *)
Theorem peer_public_route_last_wins
    peer_vpc_id peer_vpc_name peer_role_arn peer_owner_id peer_region
    peer_cidrs private self cidr :
  In cidr peer_cidrs ->
  let conn :=
    peering_connection alphanum self peer_vpc_id peer_vpc_name peer_role_arn
      peer_owner_id peer_region in
  let r :=
    Ec2.peer_with_another_vpc alphanum peer_vpc_id peer_vpc_name
      peer_role_arn peer_owner_id peer_region peer_cidrs private true self in
  let table := Ec2.public_route_table self in
  exists last route,
    last_with (fun c => (alphanum c =? alphanum cidr)%string) peer_cidrs
    = Some last /\
    In last peer_cidrs /\ alphanum last = alphanum cidr /\
    sget (Ec2._r (snd r)) (title table ++ "Peer" ++ alphanum cidr ++ "Route")
    = Some route /\
    route = snd (Ec2.peer_route alphanum table conn last) /\
    prop route "DestinationCidrBlock" = Some (VAtom (AStr last)) /\
    prop route "RouteTableId" = Some (VAtom (Ref table)) /\
    prop route "VpcPeeringConnectionId" = Some (VAtom (Ref conn)).
Proof.
  intros I. cbv zeta. rewrite peer_eq. cbn [fst snd update Ec2._r].
  destruct (last_with_some (fun c => (alphanum c =? alphanum cidr)%string)
              peer_cidrs cidr I (String.eqb_refl _)) as (last & El & Il & Hl).
  exists last. eexists. split; [exact El|]. split; [exact Il|].
  apply String.eqb_eq in Hl. split; [exact Hl|].
  split; [|split; [reflexivity|]; repeat split; reflexivity].
  rewrite app_comm_cons, assign_all_app. unfold public_routes.
  rewrite sget_assign_all_map.
  rewrite (last_with_ext _ (fun c => (alphanum c =? alphanum cidr)%string)).
  - now rewrite El.
  - intros c. unfold Ec2.peer_route. cbn [fst]. apply route_key_eqb.
Qed.

End PeerSpec.

Lemma peer_public_route_last_wins_witness :
  In "10.0.0.0/16" ["10.0.0.0/16"; "100.0.0.1/6"] /\
  Sample.alphanum "10.0.0.0/16" = Sample.alphanum "100.0.0.1/6" /\
  exists route,
    sget (Ec2._r
            (snd (Ec2.peer_with_another_vpc Sample.alphanum "vpc-1" "other"
                    None None None ["10.0.0.0/16"; "100.0.0.1/6"] false true
                    Sample.template)))
      "PubRouteTablePeer1000016Route" = Some route /\
    prop route "DestinationCidrBlock" = Some (VAtom (AStr "100.0.0.1/6")).
Proof.
  assert (I : In "10.0.0.0/16" ["10.0.0.0/16"; "100.0.0.1/6"]) by now left.
  split; [exact I|]. split; [reflexivity|].
  destruct (peer_public_route_last_wins Sample.alphanum "vpc-1" "other" None
              None None ["10.0.0.0/16"; "100.0.0.1/6"] false Sample.template
              "10.0.0.0/16" I)
    as (last & route & El & _ & _ & Hs & _ & Hd & _).
  injection El as <-.
  exists route. split; [exact Hs | exact Hd].
Defined.

Lemma subnet_groups_keep_init_entries_witness :
  In "PubNacl"
    (map fst
       (Ec2._r (Ec2.init "eu-west-1" "10.0.0.0/16" "Main" true
                  ["192.168.0.0/16"]))) /\
  sget (Ec2._r
          (snd (Ec2.add_subnet_group Sample.alphanum Sample.split "PubNacl"
                  "10.0.2.0/24" None 4 None None Sample.template_with_nat)))
    "PubNacl"
  = sget (Ec2._r Sample.template_with_nat) "PubNacl" /\
  sget (Ec2._r
          (snd (Ec2.add_public_subnet_group Sample.alphanum Sample.split
                  "PubNacl" "10.0.2.0/24" 4 true Sample.template_with_nat)))
    "PubNacl"
  = sget (Ec2._r Sample.template_with_nat) "PubNacl" /\
  sget (Ec2._r
          (snd (Ec2.add_natted_subnet_group Sample.alphanum Sample.split
                  "10.0.2.0/24" "PubNacl" 4 Sample.template_with_nat)))
    "PubNacl"
  = sget (Ec2._r Sample.template_with_nat) "PubNacl".
Proof.
  assert (I : In "PubNacl"
                (map fst
                   (Ec2._r (Ec2.init "eu-west-1" "10.0.0.0/16" "Main" true
                              ["192.168.0.0/16"]))))
    by (vm_compute; tauto).
  split; [exact I|].
  exact (subnet_groups_keep_init_entries Sample.alphanum Sample.split
           "eu-west-1" "10.0.0.0/16" "Main" true ["192.168.0.0/16"] "PubNacl"
           Sample.template_with_nat "PubNacl" "10.0.2.0/24" None 4 None None
           true I).
Defined.

(** * Invariants of [HttpApi] *)

Module ApiFacts.
Import ApiGatewayV2 ApiViews HttpApiFacts DictFacts.

Lemma prop_set_prop_other r k v k' :
  k <> k' -> prop (set_prop r k v) k' = prop r k'.
Proof. intros N. unfold prop, set_prop. cbn. now apply sget_sset_other. Qed.

Lemma prop_set_prop_same r k v : prop (set_prop r k v) k = Some v.
Proof. unfold prop, set_prop. cbn. apply sget_sset_same. Qed.

Lemma prop_set_opt_other r k v k' :
  k <> k' -> prop (set_opt r k v) k' = prop r k'.
Proof.
  intros N. destruct v; [now apply prop_set_prop_other | reflexivity].
Qed.

Ltac other_props :=
  repeat first [ rewrite prop_set_prop_other by discriminate
               | rewrite prop_set_opt_other by discriminate ].

Lemma integration_of_api alphanum self path target m timeout d :
  of_api self (integration alphanum self path target m timeout d).
Proof.
  unfold of_api, integration.
  destruct (_ || _)%bool; other_props; reflexivity.
Qed.

Lemma route_of_api alphanum self i path m d :
  of_api self (route alphanum self i path m d).
Proof. unfold of_api, route. other_props. reflexivity. Qed.

Lemma route_target alphanum self i path m d :
  prop (route alphanum self i path m d) "Target"
  = Some (VJoin "/" [AStr "integrations"; ARef (title i)]).
Proof. unfold route. now rewrite prop_set_prop_same. Qed.

Lemma title_set_opt r k v : title (set_opt r k v) = title r.
Proof. now destruct v. Qed.

Lemma rtype_set_opt r k v : rtype (set_opt r k v) = rtype r.
Proof. now destruct v. Qed.

(** the title of an integration is never the title of the API *)
Lemma integration_key_fresh (a b : string) :
  (a ++ "Integration")%string <> (b ++ "HTTPApi")%string.
Proof.
  intros E. apply (f_equal PyStr.rchars) in E.
  rewrite !PyStrFacts.rchars_app in E. discriminate E.
Qed.

Lemma get_str_set_obj (d : list (Key * Resource)) r v s :
  Dict.get key_eqb (Dict.set key_eqb d (KObj r) v) (KStr s)
  = Dict.get key_eqb d (KStr s).
Proof. apply (get_set_other key_eqb key_eqb_spec). discriminate. Qed.

Lemma get_str_set_str (d : list (Key * Resource)) s v t :
  Dict.get key_eqb (Dict.set key_eqb d (KStr s) v) (KStr t)
  = if (s =? t)%string then Some v else Dict.get key_eqb d (KStr t).
Proof.
  destruct (String.eqb_spec s t) as [->|N].
  - apply (get_set_same key_eqb key_eqb_spec).
  - apply (get_set_other key_eqb key_eqb_spec). congruence.
Qed.

Lemma init_consistent alphanum name description :
  consistent (init alphanum name description).
Proof.
  unfold consistent, init. cbn [t_api clean_name resources].
  rewrite title_set_opt, rtype_set_opt. cbn [title rtype new Dict.set].
  split; [reflexivity|]. split; [reflexivity|]. split.
  - cbn [Dict.get key_eqb]. now rewrite String.eqb_refl.
  - intros k v [E|[]]. injection E as <- <-. cbn [entry_ok].
    split; [now rewrite title_set_opt | now left].
Qed.

Lemma add_route_consistent alphanum path target m timeout d self :
  consistent self ->
  consistent (snd (add_route alphanum path target m timeout d self)).
Proof.
  intros (Ht & Hy & Hg & He). rewrite add_route_state.
  destruct (PyStr.str_in _ _); [|now repeat split].
  cbv zeta.
  set (i := integration alphanum self path target m timeout d).
  set (r := route alphanum self i path m d).
  assert (Ti : title i = (alphanum path ++ "Integration")%string)
    by apply integration_title.
  assert (Yi : rtype i = integration_rtype)
    by apply HttpApiFacts.integration_type.
  assert (Ai : of_api self i) by apply integration_of_api.
  assert (Yr : rtype r = route_rtype) by apply HttpApiFacts.route_type.
  assert (Ar : of_api self r) by apply route_of_api.
  assert (Tr : prop r "Target"
               = Some (VJoin "/" [AStr "integrations"; ARef (title i)]))
    by apply route_target.
  clearbody i r.
  unfold consistent, entry_ok, of_api in *.
  cbn [t_api clean_name resources with_resources].
  split; [exact Ht|]. split; [exact Hy|]. split.
  - rewrite get_str_set_obj, get_str_set_str.
    destruct (String.eqb_spec (title i) (title (t_api self))) as [E|N];
      [|exact Hg].
    rewrite Ti, Ht in E. now apply integration_key_fresh in E.
  - assert (Keep : forall t i0,
               Dict.get key_eqb (resources self) (KStr t) = Some i0 ->
               rtype i0 = integration_rtype ->
               exists i1,
                 Dict.get key_eqb
                   (Dict.set key_eqb
                      (Dict.set key_eqb (resources self) (KStr (title i)) i)
                      (KObj r) r) (KStr t) = Some i1 /\
                 rtype i1 = integration_rtype).
    { intros t i0 G Y. rewrite get_str_set_obj, get_str_set_str.
      destruct (title i =? t)%string; eauto. }
    intros k v I. apply in_set in I. destruct I as [I|[-> ->]].
    + apply in_set in I. destruct I as [I|[-> ->]].
      * specialize (He k v I). destruct k as [s|o].
        -- exact He.
        -- destruct He as (E & Y & A & t & i0 & T & G & Yi0).
           split; [exact E|]. split; [exact Y|]. split; [exact A|].
           destruct (Keep t i0 G Yi0) as (i1 & G1 & Y1).
           exists t, i1. auto.
      * split; [reflexivity|]. right. auto.
    + split; [reflexivity|]. split; [exact Yr|]. split; [exact Ar|].
      exists (title i), i. split; [exact Tr|]. split; [|exact Yi].
      rewrite get_str_set_obj, get_str_set_str. now rewrite String.eqb_refl.
Qed.

Lemma take_prefix (p s : string) :
  PyStr.take (String.length p) s = p <-> exists rest, s = (p ++ rest)%string.
Proof.
  revert s. induction p as [|c p IH]; intros s; cbn.
  - split; [intros _; now exists s | now destruct s].
  - destruct s as [|c' s]; cbn.
    + split; [discriminate | intros (rest & E); discriminate].
    + split.
      * intros E. injection E as -> E. apply IH in E.
        destruct E as (rest & ->). now exists rest.
      * intros (rest & E). injection E as -> E. f_equal.
        apply IH. now exists rest.
Qed.

(** the test [target.lower()[:5] == "http:" or target.lower()[:6] ==
    "https:"] *)
Lemma http_target_spec target :
  ((PyStr.take 5 (PyStr.lower target) =? "http:")%string
   || (PyStr.take 6 (PyStr.lower target) =? "https:")%string)%bool = true
  <-> exists rest,
        PyStr.lower target = ("http:" ++ rest)%string \/
        PyStr.lower target = ("https:" ++ rest)%string.
Proof.
  rewrite Bool.orb_true_iff, !String.eqb_eq.
  rewrite (take_prefix "http:"), (take_prefix "https:").
  split.
  - intros [(rest & E)|(rest & E)]; exists rest; auto.
  - intros (rest & [E|E]); [left | right]; now exists rest.
Qed.

Lemma prop_set_opt_same r k v :
  prop r k = None ->
  prop (set_opt r k v) k = option_map (fun s => VAtom (AStr s)) v.
Proof.
  intros N. destruct v; [apply prop_set_prop_same | exact N].
Qed.

End ApiFacts.

Section ApiSpec.
Import ApiGatewayV2 ApiViews HttpApiFacts ApiFacts.
Variable alphanum : string -> string.

(** X13.  Every [HttpApi] built by [__init__], [add_stage] and [add_route]
    keeps its [resources] in order: the API object stays under its title
    (no route or integration ever replaces it); every string key is the
    title of its value, which is the API or an integration of this API;
    every object key is a route of this API stored under itself; and the
    target of every stored route names an integration that is stored in
    [resources]. *)
Theorem reachable_consistent self :
  reachable alphanum self -> consistent self.
Proof.
  induction 1 as [name d | self name a f R IH | self p t m to d R IH].
  - apply init_consistent.
  - now rewrite add_stage_state.
  - now apply add_route_consistent.
Qed.

(** X14.  A call of [add_route] that is accepted stores the integration
    under <alphanum(path)>Integration and the route under itself.  The
    method was checked in upper case but is stored as it was given, in
    [IntegrationMethod] and in [RouteKey]; the integration carries the
    target, the timeout and the description (the route carries the
    description as [OperationName]) when one was given; and the integration
    is an [HTTP_PROXY] with payload format 1.0 exactly when the target, in
    lower case, starts with [http:] or [https:], and an [AWS_PROXY] with
    payload format 2.0 otherwise. *)
Theorem add_route_stored path target http_method timeout description self :
  fst (add_route alphanum path target http_method timeout description self)
  = Ok tt ->
  let self' :=
    snd (add_route alphanum path target http_method timeout description self)
  in
  let text := option_map (fun s => VAtom (AStr s)) in
  exists i r,
    Dict.get key_eqb (resources self') (KStr (alphanum path ++ "Integration"))
    = Some i /\
    Dict.get key_eqb (resources self') (KObj r) = Some r /\
    prop i "IntegrationMethod" = text (Some http_method) /\
    prop i "IntegrationUri" = text (Some target) /\
    prop i "TimeoutInMillis" = Some (VAtom (AInt timeout)) /\
    prop i "Description" = text description /\
    prop r "OperationName" = text description /\
    prop r "RouteKey" = text (Some (http_method ++ " /" ++ path)) /\
    prop r "Target" = Some (VJoin "/" [AStr "integrations"; Ref i]) /\
    ((exists rest,
         PyStr.lower target = "http:" ++ rest \/
         PyStr.lower target = "https:" ++ rest) ->
     prop i "IntegrationType" = text (Some "HTTP_PROXY") /\
     prop i "PayloadFormatVersion" = text (Some "1.0")) /\
    (~ (exists rest,
           PyStr.lower target = "http:" ++ rest \/
           PyStr.lower target = "https:" ++ rest) ->
     prop i "IntegrationType" = text (Some "AWS_PROXY") /\
     prop i "PayloadFormatVersion" = text (Some "2.0")).
Proof.
  intros H. cbv zeta. rewrite add_route_outcome in H.
  rewrite add_route_state.
  destruct (PyStr.str_in _ _); [|discriminate]. cbv zeta.
  exists (integration alphanum self path target http_method timeout
            description).
  exists (route alphanum self
            (integration alphanum self path target http_method timeout
               description) path http_method description).
  cbn [resources with_resources].
  split.
  { rewrite get_str_set_obj, get_str_set_str, integration_title.
    now rewrite String.eqb_refl. }
  split; [apply (DictFacts.get_set_same key_eqb key_eqb_spec)|].
  pose proof (http_target_spec target) as S.
  unfold integration, route.
  destruct (_ || _)%bool; repeat apply conj;
    try (intros N; first [ now (exfalso; apply N; apply S)
                         | now (apply S in N; discriminate N)
                         | split ]);
    repeat first [ rewrite prop_set_prop_same
                 | rewrite prop_set_prop_other by discriminate
                 | rewrite prop_set_opt_other by discriminate
                 | rewrite prop_set_opt_same by reflexivity ];
    reflexivity.
Qed.

(** X15.  Of the objects [add_stage] builds: the stage carries [AutoDeploy]
    and never the access-log settings; there are no settings exactly when
    the format is [none] in any letter case; the settings of the formats
    clf, json, xml and csv carry a built-in format, each of which contains
    [$context.requestId] as a custom format must; and the settings of any
    other accepted format carry no [Format] at all, the custom string being
    checked but not used. *)
Theorem add_stage_objects self name auto_deploy log_format :
  let built := stage_objects alphanum self name auto_deploy log_format in
  let l := PyStr.lower log_format in
  rtype (fst built) = stage_type /\
  prop (fst built) "AutoDeploy" = Some (VAtom (ABool auto_deploy)) /\
  prop (fst built) "AccessLogSettings" = None /\
  (snd built = None <-> l = "none") /\
  forall settings, snd built = Some settings ->
    match Format settings with
    | Some format =>
        In l ["clf"; "json"; "xml"; "csv"] /\
        substring_of "$context.requestId" format
    | None => ~ In l ["none"; "clf"; "json"; "xml"; "csv"]
    end.
Proof.
  cbv zeta. unfold stage_objects. cbn [fst snd].
  split; [reflexivity|]. split; [apply prop_set_prop_same|].
  split; [now rewrite prop_set_prop_other by discriminate|].
  destruct (String.eqb_spec (PyStr.lower log_format) "none") as [E|N];
    cbn [negb].
  - split; [tauto | discriminate].
  - split; [split; [discriminate | contradiction]|].
    intros settings S. injection S as <-. cbn [Format].
    destruct (String.eqb_spec (PyStr.lower log_format) "clf") as [->|N1].
    { split; [cbn; tauto|]. apply contains_spec. vm_compute. reflexivity. }
    destruct (String.eqb_spec (PyStr.lower log_format) "json") as [->|N2].
    { split; [cbn; tauto|]. apply contains_spec. vm_compute. reflexivity. }
    destruct (String.eqb_spec (PyStr.lower log_format) "xml") as [->|N3].
    { split; [cbn; tauto|]. apply contains_spec. vm_compute. reflexivity. }
    destruct (String.eqb_spec (PyStr.lower log_format) "csv") as [->|N4].
    { split; [cbn; tauto|]. apply contains_spec. vm_compute. reflexivity. }
    cbn [In]. intuition congruence.
Qed.

End ApiSpec.

Lemma reachable_consistent_witness :
  ApiGatewayV2.reachable Sample.alphanum Sample.api_with_route /\
  ApiViews.consistent Sample.api_with_route /\
  length (ApiGatewayV2.resources Sample.api_with_route) = 3.
Proof.
  assert (R : ApiGatewayV2.reachable Sample.alphanum Sample.api_with_route)
    by (apply ApiGatewayV2.reach_route, ApiGatewayV2.reach_init).
  split; [exact R|].
  split; [exact (reachable_consistent Sample.alphanum _ R) | reflexivity].
Defined.

Lemma add_route_stored_witness :
  fst (ApiGatewayV2.add_route Sample.alphanum "users"
         "HTTPS://example.org/users" "get" 10000 None Sample.api) = Ok tt /\
  exists i r,
    Dict.get ApiGatewayV2.key_eqb
      (ApiGatewayV2.resources
         (snd (ApiGatewayV2.add_route Sample.alphanum "users"
                 "HTTPS://example.org/users" "get" 10000 None Sample.api)))
      (ApiGatewayV2.KStr "usersIntegration") = Some i /\
    Dict.get ApiGatewayV2.key_eqb
      (ApiGatewayV2.resources
         (snd (ApiGatewayV2.add_route Sample.alphanum "users"
                 "HTTPS://example.org/users" "get" 10000 None Sample.api)))
      (ApiGatewayV2.KObj r) = Some r /\
    prop i "IntegrationMethod" = Some (VAtom (AStr "get")) /\
    prop r "RouteKey" = Some (VAtom (AStr "get /users")) /\
    prop i "IntegrationType" = Some (VAtom (AStr "HTTP_PROXY")).
Proof.
  split; [reflexivity|].
  destruct (add_route_stored Sample.alphanum "users"
              "HTTPS://example.org/users" "get" 10000 None Sample.api
              eq_refl)
    as (i & r & Gi & Gr & Pm & _ & _ & _ & _ & Pk & _ & Ph & _).
  exists i, r. split; [exact Gi|]. split; [exact Gr|].
  split; [exact Pm|]. split; [exact Pk|].
  apply Ph. exists "//example.org/users". right. reflexivity.
Defined.

(** * What every template keeps of its constructor *)

Module FrameFacts.
Import PyStr PyStrFacts Views DictFacts VpcFacts InitFacts PeerViews PeerFacts.

Lemma framed_refl s : framed s s.
Proof. unfold framed. now rewrite update_id. Qed.

Lemma framed_trans a b c : framed a b -> framed b c -> framed a c.
Proof. unfold framed. intros -> ->. now destruct a. Qed.

Lemma framed_with_r s r : framed s (Ec2.with_r s r).
Proof. unfold framed. now destruct s. Qed.

Lemma framed_public_step nat res s :
  framed s (snd (Ec2.public_subnet_step nat res s)).
Proof.
  unfold Ec2.public_subnet_step.
  destruct (nat && (rtype res =? "AWS::EC2::Subnet")%string)%bool.
  - unfold bind, Ec2.set_r, modify, lift, get_self, Ec2.metadata_of.
    destruct (Metadata res) as [m|]; unfold framed; now destruct s.
  - unfold bind, Ec2.set_r, modify, ret, framed. now destruct s.
Qed.

Lemma framed_natted_step res s :
  framed s (snd (Ec2.natted_subnet_step res s)).
Proof.
  unfold Ec2.natted_subnet_step.
  destruct (rtype res =? "AWS::EC2::Subnet")%string.
  - unfold bind, Ec2.set_r, modify, lift, get_self, raise.
    cbn [fst snd Ec2.natted_route_tables Ec2.with_r].
    destruct (Ec2.find_route_table res (Ec2.natted_route_tables s))
      as [[t|]|e]; cbn [fst snd].
    + unfold framed. now destruct s.
    + destruct (Ec2.metadata_of res); unfold framed; now destruct s.
    + apply framed_with_r.
  - unfold bind, Ec2.set_r, modify, ret, framed. now destruct s.
Qed.

Lemma framed_loop {X} (body : X -> M Ec2.VpcTemplate unit) l self :
  (forall x s, framed s (snd (body x s))) ->
  framed self (snd (for_each l body self)).
Proof.
  intros Hb.
  apply (for_each_invariant (framed self)); [|apply framed_refl].
  intros x s Hs. exact (framed_trans _ _ _ Hs (Hb x s)).
Qed.

Section Methods.
Variable alphanum : string -> string.
Variable split : string -> string -> Z -> ExtExc + list Pawslib.Segment.

Lemma framed_public self name_prefix cidr n nat :
  framed self
    (snd (Ec2.add_public_subnet_group alphanum split name_prefix cidr n nat
            self)).
Proof.
  unfold Ec2.add_public_subnet_group, bind, get_self, lift.
  destruct (Ec2.multiaz_subnets _ _ _ _ _ _ _ _ _ _ _ _);
    [|apply framed_refl].
  apply framed_loop. intros. apply framed_public_step.
Qed.

Lemma framed_natted self cidr name_prefix n :
  framed self
    (snd (Ec2.add_natted_subnet_group alphanum split cidr name_prefix n self)).
Proof.
  unfold Ec2.add_natted_subnet_group, bind, get_self, lift.
  destruct (Ec2.multiaz_subnets _ _ _ _ _ _ _ _ _ _ _ _);
    [|apply framed_refl].
  apply framed_loop. intros. apply framed_natted_step.
Qed.

Lemma framed_plain self name_prefix cidr vpc_arg n acl rt :
  framed self
    (snd (Ec2.add_subnet_group alphanum split name_prefix cidr vpc_arg n acl
            rt self)).
Proof.
  unfold Ec2.add_subnet_group, bind, get_self, lift.
  destruct (Ec2.multiaz_subnets _ _ _ _ _ _ _ _ _ _ _ _);
    [|apply framed_refl].
  apply framed_loop. intros x s. apply framed_with_r.
Qed.

Lemma framed_peer self a b c d e f g h :
  framed self (snd (Ec2.peer_with_another_vpc alphanum a b c d e f g h self)).
Proof. rewrite peer_eq. unfold framed. now destruct self. Qed.

End Methods.

(** no key of [__init__] has the shape of a key of the peering method *)
Lemma peer_like_numbered (f : ascii) (a : string) (i : nat) :
  Ascii.eqb f "P" = false ->
  peer_like (String f a ++ str_of_nat i) = false.
Proof.
  intros Hf. unfold peer_like. rewrite rchars_app.
  destruct (str_of_nat_last i) as (d & r & -> & Hd).
  cbn [append prefix app]. destruct (ascii_dec "P" f) as [<-|_];
    [discriminate Hf|].
  cbn [orb].
  destruct d as [[] [] [] [] [] [] [] []]; try discriminate Hd; reflexivity.
Qed.

Lemma init_keys_not_peer_like region cidr_block name internet nets k :
  In k (map fst (Ec2._r (Ec2.init region cidr_block name internet nets))) ->
  peer_like k = false.
Proof.
  rewrite init_r, !map_app, !internal_entries_keys.
  rewrite !in_app_iff. intros I.
  repeat match type of I with
         | _ \/ _ => destruct I as [I|I]
         | In _ (map _ (seq _ _)) =>
             apply in_map_iff in I; destruct I as (i & <- & _);
             now apply peer_like_numbered
         | In _ (map fst (if internet then _ else _)) => destruct internet
         | In _ (map fst (_ :: _)) => cbn [map fst In] in I
         | In _ (map fst []) => destruct I
         | False => destruct I
         | _ = _ => subst k; reflexivity
         end.
Qed.

Lemma peer_like_prefix rest : peer_like ("Peer" ++ rest) = true.
Proof.
  unfold peer_like. apply Bool.orb_true_iff. left.
  apply HttpApiFacts.prefix_spec. now exists rest.
Qed.

Lemma peer_like_route (a : string) : peer_like (a ++ "Route") = true.
Proof.
  unfold peer_like. rewrite rchars_app. cbn [rchars list_ascii_of_string rev
    app]. apply Bool.orb_true_r.
Qed.

Lemma peer_route_key alphanum t conn cidr :
  peer_like (fst (Ec2.peer_route alphanum t conn cidr)) = true.
Proof.
  unfold Ec2.peer_route. cbn [fst].
  rewrite <- !append_assoc. apply peer_like_route.
Qed.

Lemma connection_title alphanum self a b c d e :
  title (peering_connection alphanum self a b c d e)
  = alphanum ("Peer" ++ capitalize b ++ "With" ++ capitalize (Ec2.name self)).
Proof.
  unfold peering_connection. now rewrite !ApiFacts.title_set_opt.
Qed.

(** so the peering method leaves those keys alone *)
Lemma peer_keeps alphanum self a b c d e cidrs private public k :
  (forall s, exists rest, alphanum ("Peer" ++ s) = "Peer" ++ rest) ->
  peer_like k = false ->
  sget (Ec2._r (snd (Ec2.peer_with_another_vpc alphanum a b c d e cidrs
                       private public self))) k
  = sget (Ec2._r self) k.
Proof.
  intros Ha Hk. rewrite peer_eq. cbn [snd update Ec2._r].
  apply sget_assign_all_other. intros I.
  assert (T : peer_like k = true); [|congruence].
  cbn [map fst] in I. destruct I as [<-|I].
  - rewrite connection_title.
    destruct (Ha (capitalize b ++ "With" ++ capitalize (Ec2.name self)))
      as (rest & ->).
    apply peer_like_prefix.
  - rewrite map_app in I. apply in_app_iff in I.
    destruct I as [I|I]; [destruct private | destruct public];
      try contradiction.
    + unfold private_routes in I. apply in_map_iff in I.
      destruct I as (kv & <- & I). apply in_flat_map in I.
      destruct I as (cidr & _ & I). apply in_map_iff in I.
      destruct I as (t & <- & _). apply peer_route_key.
    + unfold public_routes in I. rewrite map_map in I.
      apply in_map_iff in I. destruct I as (cidr & <- & _).
      apply peer_route_key.
Qed.

End FrameFacts.

Section ReachableSpec.
Import Views ShapeFacts FrameFacts.
Variable alphanum : string -> string.
Variable split : string -> string -> Z -> ExtExc + list Pawslib.Segment.

(** X16.  When [alphanum] keeps a leading [Peer], every template built by
    [__init__] and any sequence of calls of the methods of the class is the
    template its constructor built but for [nat_gateways],
    [natted_route_tables] and [_r]; and every entry the constructor stored
    in [_r] (the VPC, the internet gateway, the public route table, the
    network ACLs and their entries) is still there under its key,
    unchanged. *)
Theorem reachable_keeps_constructor self :
  (forall s, exists rest, alphanum ("Peer" ++ s) = "Peer" ++ rest) ->
  Ec2.reachable alphanum split self ->
  exists region cidr_block name internet internal_networks,
    let built :=
      Ec2.init region cidr_block name internet internal_networks in
    framed built self /\
    forall k v, sget (Ec2._r built) k = Some v ->
                sget (Ec2._r self) k = Some v.
Proof.
  intros Ha R.
  assert (G : exists region cidr_block name internet internal_networks,
             let built :=
               Ec2.init region cidr_block name internet internal_networks in
             framed built self /\
             forall k, In k (map fst (Ec2._r built)) ->
                       sget (Ec2._r self) k = sget (Ec2._r built) k).
  { induction R as [r c n i nets | self np cidr n nat R IH
                   | self cidr np n R IH | self np cidr v n acl rt R IH
                   | self a b c d e f g h R IH | self R IH].
    - exists r, c, n, i, nets. split; [apply framed_refl | reflexivity].
    - destruct IH as (r & c & nm & i & nets & F & K).
      exists r, c, nm, i, nets. cbv zeta in *. split.
      + exact (framed_trans _ _ _ F (framed_public alphanum split _ _ _ _ _)).
      + intros k I. rewrite <- (K k I).
        apply public_group_keeps. exact (init_keys_like _ _ _ _ _ _ I).
    - destruct IH as (r & c & nm & i & nets & F & K).
      exists r, c, nm, i, nets. cbv zeta in *. split.
      + exact (framed_trans _ _ _ F (framed_natted alphanum split _ _ _ _)).
      + intros k I. rewrite <- (K k I).
        apply natted_group_keeps. exact (init_keys_like _ _ _ _ _ _ I).
    - destruct IH as (r & c & nm & i & nets & F & K).
      exists r, c, nm, i, nets. cbv zeta in *. split.
      + exact (framed_trans _ _ _ F
                 (framed_plain alphanum split _ _ _ _ _ _ _)).
      + intros k I. rewrite <- (K k I).
        apply plain_group_keeps. exact (init_keys_like _ _ _ _ _ _ I).
    - destruct IH as (r & c0 & nm & i & nets & F & K).
      exists r, c0, nm, i, nets. cbv zeta in *. split.
      + exact (framed_trans _ _ _ F (framed_peer alphanum _ _ _ _ _ _ _ _ _)).
      + intros k I. rewrite <- (K k I).
        apply peer_keeps; [exact Ha|].
        exact (init_keys_not_peer_like _ _ _ _ _ _ I).
    - exact IH. }
  destruct G as (r & c & nm & i & nets & F & K).
  exists r, c, nm, i, nets. cbv zeta in *. split; [exact F|].
  intros k v E. rewrite K; [exact E|].
  clear - E. revert E. generalize (Ec2._r (Ec2.init r c nm i nets)).
  intros d. induction d as [|[k' v'] d IH]; cbn; [discriminate|].
  unfold sget in *. cbn [Dict.get].
  destruct (String.eqb_spec k k') as [->|N]; [now left|].
  intros E. right. now apply IH.
Qed.

End ReachableSpec.

Lemma reachable_keeps_constructor_witness :
  (forall s, exists rest, Sample.alphanum ("Peer" ++ s) = "Peer" ++ rest) /\
  Ec2.reachable Sample.alphanum Sample.split
    (snd (Ec2.peer_with_another_vpc Sample.alphanum "vpc-1" "other" None None
            None ["10.1.0.0/16"] true true Sample.template_with_nat)) /\
  exists region cidr_block name internet internal_networks,
    framed (Ec2.init region cidr_block name internet internal_networks)
      (snd (Ec2.peer_with_another_vpc Sample.alphanum "vpc-1" "other" None
              None None ["10.1.0.0/16"] true true Sample.template_with_nat))
    /\
    forall k v,
      sget (Ec2._r (Ec2.init region cidr_block name internet
                      internal_networks)) k = Some v ->
      sget (Ec2._r
              (snd (Ec2.peer_with_another_vpc Sample.alphanum "vpc-1" "other"
                      None None None ["10.1.0.0/16"] true true
                      Sample.template_with_nat))) k = Some v.
Proof.
  assert (Ha : forall s,
             exists rest, Sample.alphanum ("Peer" ++ s) = "Peer" ++ rest)
    by (intros s; eexists; reflexivity).
  assert (R : Ec2.reachable Sample.alphanum Sample.split
                (snd (Ec2.peer_with_another_vpc Sample.alphanum "vpc-1"
                        "other" None None None ["10.1.0.0/16"] true true
                        Sample.template_with_nat)))
    by (apply Ec2.reach_peer, Ec2.reach_public, Ec2.reach_init).
  split; [exact Ha|]. split; [exact R|].
  exact (reachable_keeps_constructor Sample.alphanum Sample.split _ Ha R).
Defined.

Lemma second_nat_group_replaces_first_witness :
  exists segs gw1 gw2,
    Sample.split "10.0.0.0/24" "eu-west-1" 4 = inr segs /\
    Sample.split "10.0.3.0/24" "eu-west-1" 4 = inr segs /\
    In gw1
      (Ec2.nat_gateways
         (snd (Ec2.add_public_subnet_group Sample.alphanum Sample.split "dmz"
                 "10.0.3.0/24" 4 true Sample.template_with_nat))) /\
    prop gw1 "SubnetId" = Some (VAtom (ARef "Public1")) /\
    sget (Ec2._r
            (snd (Ec2.add_public_subnet_group Sample.alphanum Sample.split
                    "dmz" "10.0.3.0/24" 4 true Sample.template_with_nat)))
      "NatGw1" = Some gw2 /\
    prop gw2 "SubnetId" = Some (VAtom (ARef "Dmz1")).
Proof.
  destruct (second_nat_group_replaces_first Sample.alphanum Sample.split
              Sample.template "public" "10.0.0.0/24" 4 _ "dmz" "10.0.3.0/24"
              4 _ eq_refl eq_refl) as (_ & H).
  specialize (H 0 (Pawslib.mkSegment "eu-west-1a" "10.0.0.0/26")
                (Pawslib.mkSegment "eu-west-1a" "10.0.0.0/26")
                (or_introl eq_refl) (or_introl eq_refl)).
  cbv zeta in H. destruct H as (I & _ & _ & G & _).
  eexists. eexists. eexists.
  split; [reflexivity|]. split; [reflexivity|].
  split; [exact I|]. split; [reflexivity|].
  split; [exact G | reflexivity].
Defined.

Section NatRouteSpec.
Import Views DictFacts VpcFacts MultiAzFacts GroupFacts PeerViews PeerFacts.
Variable alphanum : string -> string.
Variable split : string -> string -> Z -> ExtExc + list Pawslib.Segment.

(** X18.  After [add_public_subnet_group] with [create_nat_gateways=True],
    the route stored under NatRoute<letter> is the one of the last created
    subnet whose zone letter, in upper case, is <letter>: it sends
    0.0.0.0/0 through that subnet's NAT gateway in that subnet's private
    route table.  When several subnets share a zone letter, the routes of
    the earlier ones have been replaced. *)
Theorem nat_route_last_wins self name_prefix cidr_block n segs subnet :
  split cidr_block (Ec2.region self) n = inr segs ->
  let subnets :=
    map (fun p =>
           Ec2.make_subnet (title_prefix alphanum name_prefix) name_prefix
             (Ref (Ec2.vpc self)) (fst p) (snd p))
        (enumerate 0 segs) in
  In subnet subnets ->
  let self' :=
    snd (Ec2.add_public_subnet_group alphanum split name_prefix cidr_block n
           true self) in
  let letter := PyStr.upper (az_index (meta_of subnet)) in
  exists last,
    last_with
      (fun s => (PyStr.upper (az_index (meta_of s)) =? letter)%string)
      subnets = Some last /\
    In last subnets /\
    PyStr.upper (az_index (meta_of last)) = letter /\
    sget (Ec2._r self') ("NatRoute" ++ letter)
    = Some (nat_route_of (Ec2.vpc self) last) /\
    prop (nat_route_of (Ec2.vpc self) last) "RouteTableId"
    = Some (VAtom (ARef ("PrivRouteTable"
                         ++ PyStr.str_of_nat (suffix (meta_of last))))) /\
    prop (nat_route_of (Ec2.vpc self) last) "NatGatewayId"
    = Some (VAtom (ARef ("NatGw"
                         ++ PyStr.str_of_nat (suffix (meta_of last))))).
Proof.
  intros H. cbv zeta. intros I.
  rewrite (public_nat_eq alphanum split self name_prefix cidr_block n segs H).
  cbv zeta. cbn [snd update Ec2._r]. unfold title_prefix in *.
  set (subnets := map _ (enumerate 0 segs)) in *.
  set (letter := PyStr.upper (az_index (meta_of subnet))).
  destruct (last_with_some
              (fun s => (PyStr.upper (az_index (meta_of s)) =? letter)%string)
              subnets subnet I (String.eqb_refl _)) as (last & El & Il & Hl).
  exists last. split; [exact El|]. split; [exact Il|].
  apply String.eqb_eq in Hl. split; [exact Hl|].
  split; [|split; reflexivity].
  rewrite sget_assign_all_map.
  change ("NatRoute" ++ letter)%string
    with (Ec2.key_title (PyStr.capitalize (PyStr.lower (alphanum name_prefix)))
            (Ec2.KNatRoute letter)).
  pose proof (last_nat_route (alphanum name_prefix) (Ec2.vpc self)
                (Ref (Ec2.public_nacl self))
                (Ref (Ec2.public_route_table self)) letter subnets) as L.
  cbv zeta in L. rewrite L, El. reflexivity.
Qed.

End NatRouteSpec.

Lemma nat_route_last_wins_witness :
  exists segs first last,
    Sample.split_one_zone "10.0.0.0/24" "eu-west-1" 2 = inr segs /\
    title first = "Public1" /\ title last = "Public2" /\
    PyStr.upper (az_index (Views.meta_of first)) = "A" /\
    sget (Ec2._r
            (snd (Ec2.add_public_subnet_group Sample.alphanum
                    Sample.split_one_zone "public" "10.0.0.0/24" 2 true
                    Sample.template)))
      "NatRouteA"
    = Some (Views.nat_route_of (Ec2.vpc Sample.template) last) /\
    prop (Views.nat_route_of (Ec2.vpc Sample.template) last) "RouteTableId"
    = Some (VAtom (ARef "PrivRouteTable2")).
Proof.
  destruct (nat_route_last_wins Sample.alphanum Sample.split_one_zone
              Sample.template "public" "10.0.0.0/24" 2 _
              (Ec2.make_subnet "Public" "public" (ARef "MainVpc") 0
                 (Pawslib.mkSegment "eu-west-1a" "10.0.0.0/25"))
              eq_refl (or_introl eq_refl))
    as (last & El & _ & _ & G & T & _).
  injection El as <-.
  eexists.
  exists (Ec2.make_subnet "Public" "public" (ARef "MainVpc") 0
            (Pawslib.mkSegment "eu-west-1a" "10.0.0.0/25")).
  exists (Ec2.make_subnet "Public" "public" (ARef "MainVpc") 1
            (Pawslib.mkSegment "eu-west-1a" "10.0.0.128/25")).
  split; [reflexivity|]. split; [reflexivity|]. split; [reflexivity|].
  split; [reflexivity|]. split; [exact G | exact T].
Defined.
